(** * Candidate discovery and selection in pip: a shallow embedding

    The development follows [pip/index.py], [pip/found.py],
    [pip/finder_funcs.py] and the two finder classes.  Python strings
    are 8-bit strings, Python sets of names are [gset string], the
    objects that the code mutates ([PackageFinder] passed both as
    [config] and as [state]) are records threaded through the calls,
    and exceptions are values of [exn]. *)

From Stdlib Require Import ZArith NArith Ascii String List Bool Lia
  Permutation Sorted.
From stdpp Require Import base strings gmap sets.
Import ListNotations.

Local Open Scope string_scope.
Local Open Scope list_scope.

(** ** Python string primitives used by the sources *)

Module Py.

Definition code (c : ascii) : N := N_of_ascii c.

Definition between (lo hi : ascii) (c : ascii) : bool :=
  (code lo <=? code c)%N && (code c <=? code hi)%N.

Definition is_lower (c : ascii) : bool := between "a" "z" c.
Definition is_upper (c : ascii) : bool := between "A" "Z" c.
Definition is_digit (c : ascii) : bool := between "0" "9" c.

(** [str.lower] on one ASCII character. *)
Definition lower_char (c : ascii) : ascii :=
  if is_upper c then ascii_of_N (code c + 32) else c.

Fixpoint lower (s : string) : string :=
  match s with
  | EmptyString => EmptyString
  | String c r => String (lower_char c) (lower r)
  end.

(** [s.replace(a, b)] for single characters. *)
Fixpoint replace_char (a b : ascii) (s : string) : string :=
  match s with
  | EmptyString => EmptyString
  | String c r => String (if Ascii.eqb c a then b else c) (replace_char a b r)
  end.

(** [s.startswith(p)]. *)
Definition startswith (p s : string) : bool := String.prefix p s.

(** [s[n:]]. *)
Fixpoint drop (n : nat) (s : string) : string :=
  match n, s with
  | O, _ => s
  | S _, EmptyString => EmptyString
  | S k, String _ r => drop k r
  end.

(** [s[:n]]. *)
Fixpoint take (n : nat) (s : string) : string :=
  match n, s with
  | O, _ => EmptyString
  | S _, EmptyString => EmptyString
  | S k, String c r => String c (take k r)
  end.

(** [s.endswith(p)]. *)
Definition endswith (p s : string) : bool :=
  String.eqb (drop (String.length s - String.length p) s) p
  && (String.length p <=? String.length s)%nat.

(** [p in s] for strings: [p] occurs somewhere in [s]. *)
Fixpoint contains (p s : string) : bool :=
  String.prefix p s ||
  match s with
  | EmptyString => false
  | String _ r => contains p r
  end.

(** Truth value of a string: the empty string is false. *)
Definition truthy (s : string) : bool :=
  match s with EmptyString => false | _ => true end.

(** Truth value of [None]-or-string attributes. *)
Definition truthy_opt (o : option string) : bool :=
  match o with Some s => truthy s | None => false end.

(** [s.rstrip('/')]. *)
Fixpoint rstrip_slash (s : string) : string :=
  match s with
  | EmptyString => EmptyString
  | String c r =>
      match rstrip_slash r with
      | EmptyString => if Ascii.eqb c "/" then EmptyString else String c EmptyString
      | r' => String c r'
      end
  end.

(** [posixpath.basename]: what follows the last slash. *)
Fixpoint basename (s : string) : string :=
  match s with
  | EmptyString => EmptyString
  | String c r =>
      if contains "/" r then basename r
      else if Ascii.eqb c "/" then r else s
  end.

(** [posixpath.join(a, b)] for two components. *)
Definition posixpath_join (a b : string) : string :=
  if startswith "/" b then b
  else if negb (truthy a) || endswith "/" a then a +:+ b
  else a +:+ "/" +:+ b.

(** One lower-case hexadecimal digit. *)
Definition hexdigit (n : N) : ascii :=
  if (n <? 10)%N then ascii_of_N (48 + n) else ascii_of_N (87 + n).

(** ['%2x' % n] for a code below 256: lower-case hexadecimal in a field
    of width two, padded on the left with a space. *)
Definition format_2x (n : N) : string :=
  if (n <? 16)%N
  then String " " (String (hexdigit n) EmptyString)
  else String (hexdigit (n / 16)) (String (hexdigit (n mod 16)) EmptyString).

End Py.

(** ** [HTMLPage.clean_link] (index.py) *)

Module HTMLPage.

(** The character class of [_clean_re], complemented: the characters that
    [_clean_re] does not match, [a-z0-9$&+,/:;=?@.#%_\|-] with [re.I]. *)
Definition safe_char (c : ascii) : bool :=
  Py.is_lower c || Py.is_upper c || Py.is_digit c
  || existsb (Ascii.eqb c)
       ["$"; "&"; "+"; ","; "/"; ":"; ";"; "="; "?"; "@"; "."; "#"; "%"; "_";
        "\"; "|"; "-"]%char.

(** The replacement function of [clean_link]: ['%%%2x' % ord(c)]. *)
Definition quote_char (c : ascii) : string :=
  String "%" (Py.format_2x (Py.code c)).

(** [_clean_re.sub(lambda match: '%%%2x' % ord(match.group(0)), url)]. *)
Fixpoint clean_link (url : string) : string :=
  match url with
  | EmptyString => EmptyString
  | String c r =>
      if safe_char c then String c (clean_link r)
      else quote_char c +:+ clean_link r
  end.

End HTMLPage.

(** ** Data model *)

(** Exceptions that the modelled code raises or lets escape. *)
Inductive exn : Type :=
| DistributionNotFound (msg : string)
| BestVersionAlreadyInstalled
| InvalidWheelFilename
| UnsupportedWheel
| AttributeError
| TypeError.

Inductive result (A : Type) : Type :=
| Ok (a : A)
| Raise (e : exn).
Arguments Ok {A} a.
Arguments Raise {A} e.

(** A compatibility tag: (python, abi, platform). *)
Definition tag : Type := string * string * string.

Definition tag_eqb (a b : tag) : bool :=
  let '(p1, a1, l1) := a in
  let '(p2, a2, l2) := b in
  String.eqb p1 p2 && String.eqb a1 a2 && String.eqb l1 l2.

(** What the [comes_from] attribute of a link holds: the page the link
    was read from (its url), or a plain string such as ['-f']. *)
Inductive origin : Type :=
| FromPage (page_url : string)
| FromStr (s : string).

(** The attributes of [pip.link.Link] that the sources read.  The class
    itself lies outside the sources; each attribute is a field. *)
Record Link : Type := {
  url : string;
  path : string;
  filename : string;
  splitext : string * string;
  egg_fragment : option string;
  internal : option bool;
  verifiable : option bool;
  trusted : option bool;
  comes_from : option origin;
  _deprecated_regex : bool
}.

(** [Link.ext]: the extension component of [splitext()]. *)
Definition ext (l : Link) : string := snd (splitext l).

(** Links are compared and hashed by url. *)
Definition Link_eqb (a b : Link) : bool := String.eqb (url a) (url b).

(** The link of a found version: a [Link] or the [INSTALLED_VERSION]
    sentinel, equal to itself only. *)
Inductive link_ref : Type :=
| INSTALLED_VERSION
| ALink (l : Link).

Record FoundVersion : Type := {
  version : string;
  link : link_ref
}.

(** [wheel_ext], from [pip.wheel]. *)
Definition wheel_ext : string := ".whl".

(** The parsed form of a wheel file name. *)
Record Wheel : Type := {
  wheel_name : string;
  wheel_version : string;
  file_tags : list tag
}.

(** Facts about the interpreter and about the packaging libraries that the
    sources import: version parsing, name normalisation, wheel file name
    parsing, the supported tags, the platform, and [urlparse]. *)
Record Platform : Type := {
  PV : Type;
  parse_version : string -> PV;
  pv_compare : PV -> PV -> comparison;
  is_prerelease : string -> bool;
  normalize_name : string -> string;
  (** [Wheel(filename)]; [None] stands for [InvalidWheelFilename]. *)
  Wheel_parse : string -> option Wheel;
  supported_tags : list tag;
  supported_tags_noarch : list tag;
  get_platform : string;
  sys_version : string;
  (** [urlparse(u).netloc], [.scheme], [.hostname] *)
  urlparse_netloc : string -> string;
  urlparse_scheme : string -> string;
  urlparse_hostname : string -> option string;
  (** the attributes that [Link] derives from its url *)
  url_path : string -> string;
  url_filename : string -> string;
  url_splitext : string -> string * string;
  url_egg_fragment : string -> option string;
  link_verifiable : string -> option bool -> option origin -> option bool;
  (** [_sort_locations], which asks the file system: from [find_links]
      and the locations to the pair (files, urls) *)
  sort_locations : list string -> list string -> list string * list string
}.

(** [Link(url, comes_from, internal=..., trusted=..., _deprecated_regex=...)] *)
Definition mk_link (E : Platform) (u : string) (cf : option origin)
    (int tr : option bool) (dr : bool) : Link :=
  {| url := u; path := url_path E u; filename := url_filename E u;
     splitext := url_splitext E u; egg_fragment := url_egg_fragment E u;
     internal := int; verifiable := link_verifiable E u tr cf;
     trusted := tr; comes_from := cf; _deprecated_regex := dr |}.

(** A fetched page, as far as the finder reads it: its url, the links of
    its anchors and its relation links, each in document order. *)
Record HTMLPage : Type := {
  page_url : string;
  links : list Link;
  rel_links : list Link
}.

(** The session together with the parsing of what it fetches:
    [HTMLPage.get_page(link, req, session=...)], [None] when the page is
    dropped. *)
Record Session : Type := {
  get_page : Link -> option HTMLPage
}.

(** A requirement, as far as the finder reads it. *)
Record Requirement : Type := {
  req_name : string;
  (** [str(req)] *)
  req_str : string;
  url_name : option string;
  (** [version in req.req] *)
  req_contains : string -> bool;
  (** the version of [req.satisfied_by], when set *)
  satisfied_by : option string;
  prereleases : bool;
  absolute_versions : list string
}.

(** The attributes of a [PackageFinder].  The [session] is represented by
    the function that fetches a page. *)
Record PackageFinder : Type := {
  find_links : list string;
  index_urls : list string;
  dependency_links : list string;
  logged_links : gset string;
  use_wheel : bool;
  allow_external : gset string;
  allow_unverified : gset string;
  allow_all_external : bool;
  need_warn_external : bool;
  need_warn_unverified : bool;
  allow_all_prereleases : bool;
  process_dependency_links : bool;
  session : Session
}.

Definition set_logged_links (v : gset string) (s : PackageFinder) : PackageFinder :=
  {| find_links := find_links s; index_urls := index_urls s;
     dependency_links := dependency_links s; logged_links := v;
     use_wheel := use_wheel s; allow_external := allow_external s;
     allow_unverified := allow_unverified s;
     allow_all_external := allow_all_external s;
     need_warn_external := need_warn_external s;
     need_warn_unverified := need_warn_unverified s;
     allow_all_prereleases := allow_all_prereleases s;
     process_dependency_links := process_dependency_links s;
     session := session s |}.

Definition set_need_warn_external (v : bool) (s : PackageFinder) : PackageFinder :=
  {| find_links := find_links s; index_urls := index_urls s;
     dependency_links := dependency_links s; logged_links := logged_links s;
     use_wheel := use_wheel s; allow_external := allow_external s;
     allow_unverified := allow_unverified s;
     allow_all_external := allow_all_external s;
     need_warn_external := v;
     need_warn_unverified := need_warn_unverified s;
     allow_all_prereleases := allow_all_prereleases s;
     process_dependency_links := process_dependency_links s;
     session := session s |}.

Definition set_need_warn_unverified (v : bool) (s : PackageFinder) : PackageFinder :=
  {| find_links := find_links s; index_urls := index_urls s;
     dependency_links := dependency_links s; logged_links := logged_links s;
     use_wheel := use_wheel s; allow_external := allow_external s;
     allow_unverified := allow_unverified s;
     allow_all_external := allow_all_external s;
     need_warn_external := need_warn_external s;
     need_warn_unverified := v;
     allow_all_prereleases := allow_all_prereleases s;
     process_dependency_links := process_dependency_links s;
     session := session s |}.

Definition set_dependency_links (v : list string) (s : PackageFinder) : PackageFinder :=
  {| find_links := find_links s; index_urls := index_urls s;
     dependency_links := v; logged_links := logged_links s;
     use_wheel := use_wheel s; allow_external := allow_external s;
     allow_unverified := allow_unverified s;
     allow_all_external := allow_all_external s;
     need_warn_external := need_warn_external s;
     need_warn_unverified := need_warn_unverified s;
     allow_all_prereleases := allow_all_prereleases s;
     process_dependency_links := process_dependency_links s;
     session := session s |}.

(** ** Tag compatibility of wheels *)

Module WheelM.

Definition tag_in (c : tag) (tags : list tag) : bool := existsb (tag_eqb c) tags.

(** [tags.index(c)], when [c] occurs. *)
Fixpoint index_of (c : tag) (tags : list tag) : option nat :=
  match tags with
  | [] => None
  | t :: r => if tag_eqb t c then Some O
              else match index_of c r with Some i => Some (S i) | None => None end
  end.

(** Modelled from the spec: [pip/wheel.py] is not among the sources.  A
    wheel is supported iff at least one of its file-tags appears in the
    given tag list. *)
Definition supported (w : Wheel) (tags : list tag) : bool :=
  existsb (fun c => tag_in c tags) (file_tags w).

(** Modelled from the spec: the smallest index in the tag list of any
    file-tag of the wheel; [None] when no file-tag occurs. *)
Definition support_index_min (w : Wheel) (tags : list tag) : option nat :=
  fold_right
    (fun c acc =>
       match index_of c tags, acc with
       | Some i, Some j => Some (Nat.min i j)
       | Some i, None => Some i
       | None, _ => acc
       end)
    None (file_tags w).

End WheelM.

(** ** finder_funcs.py *)

(** [_sort_links]: non-egg links first, egg links second, duplicates (by
    url) removed; [seen] is the set of urls met so far. *)
Fixpoint sort_links_loop (links : list Link) (seen : gset string)
    (eggs no_eggs : list Link) : list Link :=
  match links with
  | [] => no_eggs ++ eggs
  | l :: r =>
      if bool_decide (url l ∈ seen) then sort_links_loop r seen eggs no_eggs
      else if Py.truthy_opt (egg_fragment l)
           then sort_links_loop r ({[url l]} ∪ seen) (eggs ++ [l]) no_eggs
           else sort_links_loop r ({[url l]} ∪ seen) eggs (no_eggs ++ [l])
  end.

Definition _sort_links (links : list Link) : list Link :=
  sort_links_loop links ∅ [] [].

(** Longest prefix of characters satisfying [p], and the rest. *)
Fixpoint span (p : ascii -> bool) (s : string) : string * string :=
  match s with
  | EmptyString => (EmptyString, EmptyString)
  | String c r =>
      if p c then let '(a, b) := span p r in (String c a, b)
      else (EmptyString, s)
  end.

(** The classes [[a-z0-9_.]] and [[a-z0-9_.-]] under [re.I]. *)
Definition egg_name_char (c : ascii) : bool :=
  Py.is_lower c || Py.is_upper c || Py.is_digit c
  || Ascii.eqb c "_" || Ascii.eqb c ".".

Definition egg_version_char (c : ascii) : bool :=
  egg_name_char c || Ascii.eqb c "-".

(** [_egg_info_re] matched at the start of [s]: a greedy run of name
    characters, a dash, a greedy non-empty run of version characters.
    The result is [group(0)]. *)
Definition egg_info_match_here (s : string) : option string :=
  let '(n, rest) := span egg_name_char s in
  match rest with
  | String dash rest' =>
      if Py.truthy n && Ascii.eqb dash "-"
      then match span egg_version_char rest' with
           | (String c v, _) => Some (n +:+ "-" +:+ String c v)
           | (EmptyString, _) => None
           end
      else None
  | EmptyString => None
  end.

(** [_egg_info_re.search(s)]: the match at the leftmost position that has
    one. *)
Fixpoint _egg_info_re_search (s : string) : option string :=
  match egg_info_match_here s with
  | Some m => Some m
  | None =>
      match s with
      | EmptyString => None
      | String _ r => _egg_info_re_search r
      end
  end.

Definition newline : ascii := ascii_of_N 10.

(** Where [$] matches: at the end, or before a final newline. *)
Definition at_dollar (s : string) : bool :=
  match s with
  | EmptyString => true
  | String c EmptyString => Ascii.eqb c newline
  | _ => false
  end.

(** [\.?[0-9]?$] after the first digit of the tag, tried in the order of
    a backtracking matcher; the result is the text consumed. *)
Definition py_version_tail (t : string) : option string :=
  match t with
  | EmptyString => Some EmptyString
  | String c r =>
      if Ascii.eqb c "." then
        match r with
        | EmptyString => Some "."
        | String d r' =>
            if Py.is_digit d && at_dollar r'
            then Some (String "." (String d EmptyString))
            else if at_dollar r then Some "."
            else None
        end
      else if Py.is_digit c && at_dollar r then Some (String c EmptyString)
      else if at_dollar t then Some EmptyString
      else None
  end.

(** [_py_version_re] = [-py([123]\.?[0-9]?)$] matched at the start of
    [s]; the result is [group(1)]. *)
Definition py_version_match_here (s : string) : option string :=
  match s with
  | String a (String b (String c (String d t))) =>
      if Ascii.eqb a "-" && Ascii.eqb b "p" && Ascii.eqb c "y"
         && (Ascii.eqb d "1" || Ascii.eqb d "2" || Ascii.eqb d "3")
      then match py_version_tail t with
           | Some g => Some (String d g)
           | None => None
           end
      else None
  | _ => None
  end.

(** [_py_version_re.search(s)]: [(match.start(), match.group(1))] of the
    leftmost match; [pos] is the offset of [s] in the searched string. *)
Fixpoint py_version_search_from (pos : nat) (s : string) : option (nat * string) :=
  match py_version_match_here s with
  | Some g => Some (pos, g)
  | None =>
      match s with
      | EmptyString => None
      | String _ r => py_version_search_from (S pos) r
      end
  end.

Definition _py_version_re_search (s : string) : option (nat * string) :=
  py_version_search_from 0 s.

Definition _egg_info_matches (egg_info search_name : string) (link : Link)
  : option string :=
  match _egg_info_re_search egg_info with
  | None => None
  | Some group0 =>
      let name := Py.lower group0 in
      let name := Py.replace_char "_" "-" name in
      let look_for := Py.lower search_name +:+ "-" in
      if Py.startswith look_for name
      then Some (Py.drop (String.length look_for) group0)
      else None
  end.

Definition _known_extensions (use_wheel : bool) : list string :=
  let extensions := [".tar.gz"; ".tar.bz2"; ".tar"; ".tgz"; ".zip"] in
  if use_wheel then extensions ++ [wheel_ext] else extensions.

Definition str_in (s : string) (l : list string) : bool := existsb (String.eqb s) l.

(** The outcome of one stage of the link filter: go on with a value,
    [return []], or an exception. *)
Inductive stage (A : Type) : Type :=
| Go (a : A)
| Skip
| Fail (e : exn).
Arguments Go {A} a.
Arguments Skip {A}.
Arguments Fail {A} e.

(** [if link not in state.logged_links: ...; state.logged_links.add(link)] *)
Definition log_once (link : Link) (state : PackageFinder) : PackageFinder :=
  if bool_decide (url link ∈ logged_links state) then state
  else set_logged_links ({[url link]} ∪ logged_links state) state.

Section LinkFilter.
Context (E : Platform).

(** The pypi binary wheel rule: the guard of the conditional that follows
    [wheel.supported()].  Reading [comes_from.url] of a plain string
    raises [AttributeError]. *)
Definition pypi_binary_guard (link : Link) : result bool :=
  let platform := get_platform E in
  if negb (Py.startswith "win" platform)
     && negb (Py.startswith "macosx" platform)
     && negb (String.eqb platform "cli")
  then match comes_from link with
       | None => Ok false
       | Some (FromPage page_url) =>
           Ok (Py.endswith "pypi.python.org" (urlparse_netloc E page_url))
       | Some (FromStr _) => Raise AttributeError
       end
  else Ok false.

(** The wheel branch of the filter ([if ext == wheel_ext:]). *)
Definition wheel_version_stage (link : Link) (search_name : string)
  : stage (option string) :=
  match Wheel_parse E (filename link) with
  | None => Skip
  | Some wheel =>
      if negb (String.eqb (Py.lower (wheel_name wheel)) (Py.lower search_name))
      then Skip
      else if negb (WheelM.supported wheel (supported_tags E)) then Skip
      else match pypi_binary_guard link with
           | Raise e => Fail e
           | Ok true =>
               if negb (WheelM.supported wheel (supported_tags_noarch E))
               then Skip
               else Go (Some (wheel_version wheel))
           | Ok false => Go (Some (wheel_version wheel))
           end
  end.

(** The first part of [_link_package_versions], up to the point where
    [version] is known: extension checks, wheel checks and the egg-info
    matcher. *)
Definition version_stage (link : Link) (search_name : string)
    (config state : PackageFinder) : stage string * PackageFinder :=
  let to_version (egg_info : string) (version : option string) state :=
    let version :=
      if negb (Py.truthy_opt version)
      then _egg_info_matches egg_info search_name link
      else version in
    match version with
    | None => (Skip, state)
    | Some v => (Go v, state)
    end in
  if Py.truthy_opt (egg_fragment link) then
    match egg_fragment link with
    | Some egg_info => to_version egg_info None state
    | None => (Skip, state)
    end
  else
    let '(egg_info, ext) := splitext link in
    if negb (Py.truthy ext) then (Skip, log_once link state)
    else
      let '(egg_info, ext) :=
        if Py.endswith ".tar" egg_info
        then (Py.take (String.length egg_info - 4) egg_info, ".tar" +:+ ext)
        else (egg_info, ext) in
      if negb (str_in ext (_known_extensions (use_wheel config)))
      then (Skip, log_once link state)
      else if Py.contains "macosx10" (path link) && String.eqb ext ".zip"
      then (Skip, log_once link state)
      else if String.eqb ext wheel_ext then
        match wheel_version_stage link search_name with
        | Skip => (Skip, state)
        | Fail e => (Fail e, state)
        | Go version => to_version egg_info version state
        end
      else to_version egg_info None state.

(** The guard of the external-hosting check: the link is known to be
    external and externals are not allowed for this name. *)
Definition external_guard (link : Link) (search_name : string)
    (config : PackageFinder) : bool :=
  match internal link with Some false => true | _ => false end
  && negb (bool_decide (Py.lower (normalize_name E search_name)
                        ∈ allow_external config))
  && negb (allow_all_external config).

(** The guard of the verifiability check. *)
Definition unverifiable_guard (link : Link) (search_name : string)
    (config : PackageFinder) : bool :=
  match verifiable link with Some false => true | _ => false end
  && negb (bool_decide (Py.lower (normalize_name E search_name)
                        ∈ allow_unverified config)).

(** The external-hosting and verifiability checks. *)
Definition hosting_stage (link : Link) (search_name : string)
    (config state : PackageFinder) : stage unit * PackageFinder :=
  if external_guard link search_name config
  then (Skip, set_need_warn_external true state)
  else if unverifiable_guard link search_name config
  then (Skip, set_need_warn_unverified true state)
  else (Go tt, state).

(** The python-version suffix check and the final result. *)
Definition py_version_stage (version : string) (link : Link)
  : list FoundVersion :=
  match _py_version_re_search version with
  | Some (start, py_version) =>
      let version := Py.take start version in
      if negb (String.eqb py_version (Py.take 3 (sys_version E))) then []
      else [ {| version := version; link := ALink link |} ]
  | None => [ {| version := version; link := ALink link |} ]
  end.

(** [_link_package_versions(link, search_name, config, state)]: the
    list returned (or the exception) and the state after the call. *)
Definition _link_package_versions (link : Link) (search_name : string)
    (config state : PackageFinder)
  : result (list FoundVersion) * PackageFinder :=
  match version_stage link search_name config state with
  | (Fail e, state) => (Raise e, state)
  | (Skip, state) => (Ok [], state)
  | (Go version, state) =>
      match hosting_stage link search_name config state with
      | (Fail e, state) => (Raise e, state)
      | (Skip, state) => (Ok [], state)
      | (Go _, state) => (Ok (py_version_stage version link), state)
      end
  end.

(** [_package_versions(links, search_name, self, self)], consumed to the
    end: the finder is both [config] and [state], so each call sees the
    state left by the one before. *)
Fixpoint package_versions_loop (links : list Link) (search_name : string)
    (self : PackageFinder) (acc : list FoundVersion)
  : result (list FoundVersion) * PackageFinder :=
  match links with
  | [] => (Ok acc, self)
  | l :: r =>
      match _link_package_versions l search_name self self with
      | (Raise e, self) => (Raise e, self)
      | (Ok vs, self) => package_versions_loop r search_name self (acc ++ vs)
      end
  end.

Definition _package_versions (links : list Link) (search_name : string)
    (self : PackageFinder) : result (list FoundVersion) * PackageFinder :=
  package_versions_loop (_sort_links links) search_name self [].

End LinkFilter.

(** ** found.py *)

Module FoundVersion.
Section Found.
Context (E : Platform).

Definition parsed_version (self : FoundVersion) : PV E :=
  parse_version E (version self).

Definition currently_installed (self : FoundVersion) : bool :=
  match link self with INSTALLED_VERSION => true | ALink _ => false end.

Definition prerelease (self : FoundVersion) : bool :=
  is_prerelease E (version self).

(** The sort key: [(parsed_version, pri)], or the exception raised while
    computing it. *)
Definition _sort_key (self : FoundVersion) : result (PV E * Z) :=
  let support_num := length (supported_tags E) in
  match link self with
  | INSTALLED_VERSION => Ok (parsed_version self, 1%Z)
  | ALink l =>
      if String.eqb (ext l) wheel_ext then
        match Wheel_parse E (filename l) with
        | None => Raise InvalidWheelFilename
        | Some wheel =>
            if negb (WheelM.supported wheel (supported_tags E))
            then Raise UnsupportedWheel
            else match WheelM.support_index_min wheel (supported_tags E) with
                 | Some i => Ok (parsed_version self, (- Z.of_nat i)%Z)
                 | None => Raise TypeError
                 end
        end
      else Ok (parsed_version self, (- Z.of_nat support_num)%Z)
  end.

(** [a < b] on keys, as Python compares tuples: the first components
    decide unless they are equal. *)
Definition key_lt (a b : PV E * Z) : bool :=
  match pv_compare E (fst a) (fst b) with
  | Lt => true
  | Eq => (snd a <? snd b)%Z
  | Gt => false
  end.

(** The keys of all elements, computed in list order as [sorted] does;
    the first exception wins. *)
Fixpoint decorate (versions : list FoundVersion)
  : result (list ((PV E * Z) * FoundVersion)) :=
  match versions with
  | [] => Ok []
  | v :: r =>
      match _sort_key v with
      | Raise e => Raise e
      | Ok k =>
          match decorate r with
          | Raise e => Raise e
          | Ok kr => Ok ((k, v) :: kr)
          end
      end
  end.

(** Insertion into a list in descending key order: the new element, which
    came earlier in the input, goes before the first element whose key is
    not greater than its own. *)
Fixpoint insert_desc (x : (PV E * Z) * FoundVersion)
    (l : list ((PV E * Z) * FoundVersion)) : list ((PV E * Z) * FoundVersion) :=
  match l with
  | [] => [x]
  | y :: r => if key_lt (fst x) (fst y) then y :: insert_desc x r
              else x :: y :: r
  end.

(** [sorted(..., reverse=True)] on decorated elements: a stable sort in
    descending key order. *)
Definition sorted_desc (l : list ((PV E * Z) * FoundVersion))
  : list ((PV E * Z) * FoundVersion) :=
  fold_right insert_desc [] l.

(** [FoundVersion.sort(versions)]. *)
Definition sort (versions : list FoundVersion) : result (list FoundVersion) :=
  match decorate versions with
  | Raise e => Raise e
  | Ok kvs => Ok (map snd (sorted_desc kvs))
  end.

End Found.
End FoundVersion.

(** ** finder/installed.py *)

Module InstalledFinder.

Definition found (req : Requirement) : list FoundVersion :=
  match satisfied_by req with
  | None => []
  | Some v => [ {| version := v; link := INSTALLED_VERSION |} ]
  end.

End InstalledFinder.

(** ** finder/findlinks.py *)

Module FindLinksFinder.

Definition found (E : Platform) (req : Requirement) (self : PackageFinder)
  : result (list FoundVersion) * PackageFinder :=
  _package_versions E
    (map (fun u => mk_link E u (Some (FromStr "-f")) None (Some true) false)
         (find_links self))
    (Py.lower (req_name req)) self.

End FindLinksFinder.

(** ** index.py *)

(** What the finder writes to the logger at WARNING and CRITICAL level,
    and the deprecation warning. *)
Inductive log_record : Type :=
| CriticalCannotFetchIndex (index_url : string)
| WarnInsecureTransport (location scheme : string) (secure : list string) (netloc : string)
| CriticalNoDownloads (req : string)
| WarnExternalIgnored (name : option string)
| WarnUnverifiedIgnored (name : string)
| CriticalNoMatchingVersion (req : string) (versions : list string)
| WarnPotentiallyInsecure (name : string)
| DeprecatedRegexWarning (name : string).

Definition LOCAL_HOSTNAMES : list string := ["localhost"; "127.0.0.1"].
Definition INSECURE_SCHEMES : list (string * list string) := [("http", ["https"])].

Fixpoint dict_get {V : Type} (k : string) (d : list (string * V)) : option V :=
  match d with
  | [] => None
  | (k', v) :: r => if String.eqb k k' then Some v else dict_get k r
  end.

(** [sorted(set(l))] for strings. *)
Fixpoint insert_str (x : string) (l : list string) : list string :=
  match l with
  | [] => [x]
  | y :: r =>
      match String.compare x y with
      | Lt => x :: l
      | Eq => l
      | Gt => y :: insert_str x r
      end
  end.

Definition sorted_set (l : list string) : list string :=
  fold_right insert_str [] l.

(** [applicable_versions.currently_installed], where [applicable_versions]
    is the list that [FoundVersion.sort] returned: a list has no such
    attribute. *)
Definition list_currently_installed (l : list FoundVersion) : result bool :=
  Raise AttributeError.

Module PackageFinder.

(** [PackageFinder(find_links, index_urls, use_wheel, allow_external,
    allow_unverified, allow_all_external, allow_all_prereleases,
    process_dependency_links, session)]. *)
Definition __init__ (find_links index_urls : list string) (use_wheel : bool)
    (allow_external allow_unverified : list string)
    (allow_all_external allow_all_prereleases process_dependency_links : bool)
    (session : option Session) (E : Platform) : result PackageFinder :=
  match session with
  | None => Raise TypeError
  | Some session =>
      let ext_set : gset string := list_to_set (map (normalize_name E) allow_external) in
      let unv_set : gset string := list_to_set (map (normalize_name E) allow_unverified) in
      Ok {| find_links := find_links;
            index_urls := index_urls;
            dependency_links := [];
            logged_links := ∅;
            use_wheel := use_wheel;
            allow_external := ext_set ∪ unv_set;
            allow_unverified := unv_set;
            allow_all_external := allow_all_external;
            need_warn_external := false;
            need_warn_unverified := false;
            allow_all_prereleases := allow_all_prereleases;
            process_dependency_links := process_dependency_links;
            session := session |}
  end.

Definition add_dependency_links (self : PackageFinder) (new_links : list string)
  : PackageFinder :=
  if process_dependency_links self
  then set_dependency_links (dependency_links self ++ new_links) self
  else self.

Section Finder.
Context (E : Platform).

Definition _sort_locations (self : PackageFinder) (locations : list string)
  : list string * list string :=
  sort_locations E (find_links self) locations.

(** One warning for a location with an insecure scheme and a host that
    is not local; the record carries the list of secure schemes, whose
    length selects the wording of the message. *)
Definition _warn_about_insecure_transport_scheme (location : Link)
  : list log_record :=
  let scheme := urlparse_scheme E (url location) in
  match dict_get scheme INSECURE_SCHEMES with
  | None => []
  | Some secure_schemes =>
      if match urlparse_hostname E (url location) with
         | Some h => str_in h LOCAL_HOSTNAMES
         | None => false
         end
      then []
      else [WarnInsecureTransport (url location) scheme secure_schemes
              (urlparse_netloc E (url location))]
  end.

Definition _get_page (self : PackageFinder) (link : Link) : option HTMLPage :=
  get_page (session self) link.

(** The loop of [_find_url_name] over the links of the index page. *)
Fixpoint find_url_name_loop (norm_name : string) (ls : list Link) : option string :=
  match ls with
  | [] => None
  | l :: r =>
      let base := Py.basename (Py.rstrip_slash (path l)) in
      if String.eqb norm_name (normalize_name E base) then Some base
      else find_url_name_loop norm_name r
  end.

Definition _find_url_name (self : PackageFinder) (index_url : Link)
    (req : Requirement) : result (option string) * list log_record :=
  let index_url :=
    if negb (Py.endswith "/" (url index_url))
    then mk_link E (url index_url +:+ "/") (comes_from index_url)
           (internal index_url) (trusted index_url) (_deprecated_regex index_url)
    else index_url in
  match _get_page self index_url with
  | None => (Ok None, [CriticalCannotFetchIndex (url index_url)])
  | Some page =>
      match url_name req with
      | None => (Raise TypeError, [])
      | Some n => (Ok (find_url_name_loop (normalize_name E n) (links page)), [])
      end
  end.

(** The loop of [_get_pages] over the relation links of one page: the
    links to visit later, and the finder with its warning flags. *)
Fixpoint rel_links_loop (ls : list Link) (req : Requirement)
    (self : PackageFinder) (acc : list Link) : list Link * PackageFinder :=
  match ls with
  | [] => (acc, self)
  | l :: r =>
      let normalized := Py.lower (normalize_name E (req_name req)) in
      if negb (bool_decide (normalized ∈ allow_external self))
         && negb (allow_all_external self)
      then rel_links_loop r req (set_need_warn_external true self) acc
      else if match trusted l with Some false => true | _ => false end
              && negb (bool_decide (normalized ∈ allow_unverified self))
      then rel_links_loop r req (set_need_warn_unverified true self) acc
      else rel_links_loop r req self (acc ++ [l])
  end.

(** [_get_pages(locations, req)] together with the loop of
    [find_requirement] that consumes it: at each page that the generator
    yields, the links of the page go through the filter, then the
    generator goes on with the relation links of that page.  [fuel]
    bounds the number of locations taken from the queue; [None] means
    that the bound was reached. *)
Fixpoint _get_pages (fuel : nat) (all_locations : list Link)
    (seen : gset string) (req : Requirement) (self : PackageFinder)
    (page_versions : list FoundVersion)
  : option (result (list FoundVersion) * PackageFinder) :=
  match all_locations with
  | [] => Some (Ok page_versions, self)
  | location :: all_locations =>
      match fuel with
      | O => None
      | S fuel =>
          if bool_decide (url location ∈ seen)
          then _get_pages fuel all_locations seen req self page_versions
          else
            let seen := {[url location]} ∪ seen in
            match _get_page self location with
            | None => _get_pages fuel all_locations seen req self page_versions
            | Some page =>
                match _package_versions E (links page)
                        (Py.lower (req_name req)) self with
                | (Raise e, self) => Some (Raise e, self)
                | (Ok vs, self) =>
                    let '(more, self) := rel_links_loop (rel_links page) req self [] in
                    _get_pages fuel (all_locations ++ more) seen req self
                      (page_versions ++ vs)
                end
            end
      end
  end.

(** [mkurl_pypi_url(url)], with the [url_name] it closes over. *)
Definition mkurl_pypi_url (url_name : option string) (u : string) : result string :=
  match url_name with
  | None => Raise TypeError
  | Some n =>
      let loc := Py.posixpath_join u n in
      Ok (if negb (Py.endswith "/" loc) then loc +:+ "/" else loc)
  end.

Fixpoint map_result {A B : Type} (f : A -> result B) (l : list A) : result (list B) :=
  match l with
  | [] => Ok []
  | a :: r =>
      match f a with
      | Raise e => Raise e
      | Ok b => match map_result f r with
                | Raise e => Raise e
                | Ok bs => Ok (b :: bs)
                end
      end
  end.

(** The candidate pools of one search. *)
Record pools : Type := {
  found_versions : list FoundVersion;
  page_versions : list FoundVersion;
  dependency_versions : list FoundVersion;
  file_versions : list FoundVersion
}.

(** The locations to search: the first part of [find_requirement], up to
    the list [locations] before it is split into files and urls. *)
Definition search_locations (self : PackageFinder) (req : Requirement)
  : result (list string) * list log_record :=
  let main :=
    match index_urls self with
    | [] => (Ok (None, url_name req), [])
    | first :: _ =>
        match mkurl_pypi_url (url_name req) first with
        | Raise e => (Raise e, [])
        | Ok u =>
            let main_index_url := mk_link E u None None (Some true) false in
            match _get_page self main_index_url with
            | Some _ => (Ok (Some main_index_url, url_name req), [])
            | None =>
                match _find_url_name self
                        (mk_link E first None None (Some true) false) req with
                | (Raise e, lg) => (Raise e, lg)
                | (Ok found_name, lg) =>
                    (Ok (Some main_index_url,
                         if Py.truthy_opt found_name then found_name
                         else url_name req), lg)
                end
            end
        end
    end in
  match main with
  | (Raise e, lg) => (Raise e, lg)
  | (Ok (main_index_url, url_name), lg) =>
      let locations :=
        match url_name with
        | Some _ =>
            match map_result (mkurl_pypi_url url_name) (index_urls self) with
            | Raise e => Raise e
            | Ok ls => Ok (ls ++ find_links self)
            end
        | None => Ok (find_links self)
        end in
      match locations with
      | Raise e => (Raise e, lg)
      | Ok locations =>
          (Ok (fold_left
                 (fun locations version =>
                    match url_name, main_index_url with
                    | Some _, Some m =>
                        Py.posixpath_join (url m) version :: locations
                    | _, _ => locations
                    end)
                 (absolute_versions req) locations), lg)
      end
  end.

(** The discovery part of [find_requirement]: from the locations to the
    four pools filled by the link filter. *)
Definition gather (fuel : nat) (self : PackageFinder) (req : Requirement)
  : option (result pools * list log_record * PackageFinder) :=
  match search_locations self req with
  | (Raise e, lg) => Some (Raise e, lg, self)
  | (Ok locations, lg) =>
      let '(file_locations, url_locations) := _sort_locations self locations in
      let '(_flocations, _ulocations) :=
        _sort_locations self (dependency_links self) in
      let file_locations := file_locations ++ _flocations in
      let locations :=
        map (fun u => mk_link E u None None (Some true) false) url_locations
        ++ map (fun u => mk_link E u None None None false) _ulocations in
      let lg := lg ++ concat (map _warn_about_insecure_transport_scheme locations) in
      match FindLinksFinder.found E req self with
      | (Raise e, self) => Some (Raise e, lg, self)
      | (Ok found_versions, self) =>
          match _get_pages fuel locations ∅ req self [] with
          | None => None
          | Some (Raise e, self) => Some (Raise e, lg, self)
          | Some (Ok page_versions, self) =>
              match _package_versions E
                      (map (fun u => mk_link E u None None None false)
                           (dependency_links self))
                      (Py.lower (req_name req)) self with
              | (Raise e, self) => Some (Raise e, lg, self)
              | (Ok dependency_versions, self) =>
                  match _package_versions E
                          (map (fun u => mk_link E u None None None false)
                               file_locations)
                          (Py.lower (req_name req)) self with
                  | (Raise e, self) => Some (Raise e, lg, self)
                  | (Ok file_versions, self) =>
                      Some (Ok {| found_versions := found_versions;
                                  page_versions := page_versions;
                                  dependency_versions := dependency_versions;
                                  file_versions := file_versions |}, lg, self)
                  end
              end
          end
      end
  end.

Definition no_downloads_msg (req : Requirement) : string :=
  "No distributions at all found for " +:+ req_str req.

Definition no_matching_msg (req : Requirement) : string :=
  "No distributions matching the version for " +:+ req_str req.

(** The warnings that precede [DistributionNotFound] when no pool has a
    candidate. *)
Definition no_downloads_logs (self : PackageFinder) (req : Requirement)
  : list log_record :=
  [CriticalNoDownloads (req_str req)]
  ++ (if need_warn_external self then [WarnExternalIgnored (Some (req_name req))] else [])
  ++ (if need_warn_unverified self then [WarnUnverifiedIgnored (req_name req)] else []).

(** [all_versions]: the pools in their priority order. *)
Definition all_versions (installed_version file_versions found_versions
    page_versions dependency_versions : list FoundVersion) : list FoundVersion :=
  installed_version ++ file_versions ++ found_versions
  ++ page_versions ++ dependency_versions.

(** The body of the narrowing loop for one candidate: [true] when the
    candidate is appended to [applicable_versions], [false] when the loop
    goes on to the next one. *)
Definition applicable (self : PackageFinder) (req : Requirement)
    (found : FoundVersion) : bool :=
  if negb (req_contains req (version found)) then false
  else if FoundVersion.prerelease E found
          && negb (allow_all_prereleases self || prereleases req)
  then (if negb (FoundVersion.currently_installed found) then false else true)
  else true.

(** The narrowing loop: [applicable_versions] before it is sorted. *)
Fixpoint narrow (self : PackageFinder) (req : Requirement)
    (versions applicable_versions : list FoundVersion) : list FoundVersion :=
  match versions with
  | [] => applicable_versions
  | found :: r =>
      if applicable self req found
      then narrow self req r (applicable_versions ++ [found])
      else narrow self req r applicable_versions
  end.

(** [all_versions] as [find_requirement] builds it from the pools: the
    file pool is sorted first when it is not empty. *)
Definition candidates (req : Requirement) (p : pools)
  : result (list FoundVersion) :=
  let installed_version := InstalledFinder.found req in
  match (match file_versions p with
         | [] => Ok []
         | _ :: _ => FoundVersion.sort E (file_versions p)
         end) with
  | Raise e => Raise e
  | Ok file_versions =>
      Ok (all_versions installed_version file_versions (found_versions p)
            (page_versions p) (dependency_versions p))
  end.

(** The end of [find_requirement], once [applicable_versions] is sorted. *)
Definition choose (self : PackageFinder) (req : Requirement) (upgrade : bool)
    (all_versions applicable_versions : list FoundVersion)
  : result (option Link) * list log_record :=
  let existing_applicable :=
    existsb FoundVersion.currently_installed applicable_versions in
  if negb upgrade && existing_applicable then
    match list_currently_installed applicable_versions with
    | Raise e => (Raise e, [])
    | Ok _ => (Ok None, [])
    end
  else
    match applicable_versions with
    | [] =>
        (Raise (DistributionNotFound (no_matching_msg req)),
         [CriticalNoMatchingVersion (req_str req)
            (sorted_set (map version all_versions))]
         ++ (if need_warn_external self then [WarnExternalIgnored None] else [])
         ++ (if need_warn_unverified self
             then [WarnUnverifiedIgnored (req_name req)] else []))
    | best :: _ =>
        match link best with
        | INSTALLED_VERSION => (Raise BestVersionAlreadyInstalled, [])
        | ALink selected_version =>
            (Ok (Some selected_version),
             (if match verifiable selected_version with
                 | Some false => true | _ => false end
              then [WarnPotentiallyInsecure (req_name req)] else [])
             ++ (if _deprecated_regex selected_version
                 then [DeprecatedRegexWarning (req_name req)] else []))
        end
    end.

(** The selection part of [find_requirement], from the pools on. *)
Definition select (self : PackageFinder) (req : Requirement) (upgrade : bool)
    (p : pools) : result (option Link) * list log_record :=
  match found_versions p, page_versions p, dependency_versions p,
        file_versions p with
  | [], [], [], [] =>
      (Raise (DistributionNotFound (no_downloads_msg req)),
       no_downloads_logs self req)
  | _, _, _, _ =>
      match candidates req p with
      | Raise e => (Raise e, [])
      | Ok all_versions =>
          match FoundVersion.sort E (narrow self req all_versions []) with
          | Raise e => (Raise e, [])
          | Ok applicable_versions =>
              choose self req upgrade all_versions applicable_versions
          end
      end
  end.

(** [find_requirement(req, upgrade)]: what is returned or raised, what is
    logged, and the finder afterwards; [None] when [fuel] does not
    suffice for the page walk. *)
Definition find_requirement (fuel : nat) (self : PackageFinder)
    (req : Requirement) (upgrade : bool)
  : option (result (option Link) * list log_record * PackageFinder) :=
  match gather fuel self req with
  | None => None
  | Some (Raise e, lg, self) => Some (Raise e, lg, self)
  | Some (Ok p, lg, self) =>
      let '(r, lg') := select self req upgrade p in
      Some (r, lg ++ lg', self)
  end.

End Finder.
End PackageFinder.

(** ** index.py: requirement strings *)

Definition not_newline (c : ascii) : bool := negb (Ascii.eqb c newline).

(** The second group of the pattern of [package_to_requirement], matched
    at the start of [s]: the word dev, or a digit followed by everything
    up to the end of the line. *)
Definition dev_or_digits (s : string) : option string :=
  if String.prefix "dev" s then Some "dev"
  else match s with
       | String d t =>
           if Py.is_digit d then Some (String d (fst (span not_newline t)))
           else None
       | EmptyString => None
       end.

(** The search of [package_to_requirement], anchored at the start of
    [s]: groups 1 and 2.  The lazy first group takes one more character,
    never a newline, each time the rest of the pattern does not match. *)
Fixpoint name_version_search (s : string) : option (string * string) :=
  match s with
  | EmptyString => None
  | String c r =>
      match (if Ascii.eqb c "-" then dev_or_digits r else None) with
      | Some v => Some (EmptyString, v)
      | None =>
          if Ascii.eqb c newline then None
          else match name_version_search r with
               | Some (n, v) => Some (String c n, v)
               | None => None
               end
      end
  end.

(** [package_to_requirement(package_name)]. *)
Definition package_to_requirement (package_name : string) : string :=
  let '(name, version) :=
    match name_version_search package_name with
    | Some (name, version) => (name, version)
    | None => (package_name, EmptyString)
    end in
  if Py.truthy version then name +:+ "==" +:+ version else name.

(** ** A concrete platform, for running the definitions *)

Module Demo.

(** [s.split(sep)] for a one-character separator. *)
Fixpoint split_on (sep : ascii) (s : string) : list string :=
  match s with
  | EmptyString => [EmptyString]
  | String c r =>
      if Ascii.eqb c sep then EmptyString :: split_on sep r
      else match split_on sep r with
           | h :: t => String c h :: t
           | [] => [String c EmptyString]
           end
  end.

(** The text before the first occurrence of [sep]. *)
Definition before (sep : ascii) (s : string) : string :=
  hd EmptyString (split_on sep s).

(** The text after the first occurrence of [p], if any. *)
Fixpoint after (p s : string) : option string :=
  if String.prefix p s then Some (Py.drop (String.length p) s)
  else match s with
       | EmptyString => None
       | String _ r => after p r
       end.

(** Split at the last dot: the text before it, and the dot with what
    follows. *)
Fixpoint split_last_dot (s : string) : option (string * string) :=
  match s with
  | EmptyString => None
  | String c r =>
      match split_last_dot r with
      | Some (a, e) => Some (String c a, e)
      | None => if Ascii.eqb c "." then Some (EmptyString, s) else None
      end
  end.

(** [pip.utils.splitext]: like [posixpath.splitext], taking [.tar] off
    as well. *)
Definition utils_splitext (name : string) : string * string :=
  let '(base, e) :=
    match split_last_dot name with
    | Some (a, e) =>
        (* leading dots do not start an extension *)
        if negb (String.eqb (fst (span (Ascii.eqb ".") a)) a)
        then (a, e) else (name, EmptyString)
    | None => (name, EmptyString)
    end in
  if Py.endswith ".tar" (Py.lower base)
  then (Py.take (String.length base - 4) base,
        Py.drop (String.length base - 4) base +:+ e)
  else (base, e).

(** The path of a url of the form [scheme://host/path#fragment], kept
    simple: what precedes the fragment. *)
Definition path_of (u : string) : string := before "#" u.

Definition filename_of (u : string) : string :=
  Py.basename (Py.rstrip_slash (path_of u)).

(** The egg fragment: what follows [#egg=], up to the next ampersand. *)
Definition egg_fragment_of (u : string) : option string :=
  match after "#egg=" u with
  | Some f => Some (before "&" f)
  | None => None
  end.

(** Wheel file names [{name}-{version}(-{build})?-{python}-{abi}-{platform}.whl]. *)
Definition wheel_of (fname : string) : option Wheel :=
  if negb (Py.endswith ".whl" fname) then None
  else
    let stem := Py.take (String.length fname - 4) fname in
    let mk n v py abi plat :=
      match v with
      | String d _ =>
          if Py.is_digit d
          then Some {| wheel_name := Py.replace_char "_" "-" n;
                       wheel_version := Py.replace_char "_" "-" v;
                       file_tags :=
                         flat_map (fun x =>
                           flat_map (fun y =>
                             map (fun z => (x, y, z)) (split_on "." plat))
                             (split_on "." abi))
                           (split_on "." py) |}
          else None
      | EmptyString => None
      end in
    match split_on "-" stem with
    | [n; v; py; abi; plat] => mk n v py abi plat
    | [n; v; _; py; abi; plat] => mk n v py abi plat
    | _ => None
    end.

(** A Linux interpreter, version 3.4, that supports only pure-python
    [py3]/[py34] wheels. *)
Definition platform : Platform :=
  {| PV := string;
     parse_version := fun v => v;
     pv_compare := String.compare;
     is_prerelease := fun v => Py.contains "a" v || Py.contains "dev" v;
     normalize_name := fun n => Py.replace_char "_" "-" (Py.lower n);
     Wheel_parse := wheel_of;
     supported_tags := [("py34", "none", "any"); ("py3", "none", "any")];
     supported_tags_noarch := [("py34", "none", "any"); ("py3", "none", "any")];
     get_platform := "linux-x86_64";
     sys_version := "3.4.0 (default)";
     urlparse_netloc := fun u =>
       match after "://" u with Some r => before "/" r | None => EmptyString end;
     urlparse_scheme := fun u =>
       match after "://" u with Some _ => before ":" u | None => EmptyString end;
     urlparse_hostname := fun u =>
       match after "://" u with
       | Some r => Some (before ":" (before "/" r))
       | None => None
       end;
     url_path := path_of;
     url_filename := filename_of;
     url_splitext := fun u => utils_splitext (filename_of u);
     url_egg_fragment := egg_fragment_of;
     link_verifiable := fun _ _ _ => None;
     sort_locations := fun _ locations => ([], locations) |}.

(** A session that fetches nothing. *)
Definition offline : Session := {| get_page := fun _ => None |}.

(** A link as [Link(url)] builds it. *)
Definition link_of (u : string) : Link := mk_link platform u None None None false.

(** A finder with the given [find_links], no index, and nothing allowed
    beyond the defaults. *)
Definition finder (fl : list string) (uw : bool) : PackageFinder :=
  {| find_links := fl; index_urls := []; dependency_links := [];
     logged_links := ∅; use_wheel := uw;
     allow_external := ∅; allow_unverified := ∅;
     allow_all_external := false;
     need_warn_external := false; need_warn_unverified := false;
     allow_all_prereleases := false; process_dependency_links := false;
     session := offline |}.

(** The requirement [foo], without specifier, with the given installed
    version. *)
Definition requirement (installed : option string) : Requirement :=
  {| req_name := "foo"; req_str := "foo"; url_name := Some "foo";
     req_contains := fun _ => true; satisfied_by := installed;
     prereleases := false; absolute_versions := [] |}.

End Demo.

(** * Definitions used to state the properties *)

(** Every character of the url has a code of 16 or more. *)
Fixpoint codes_from_16 (u : string) : bool :=
  match u with
  | EmptyString => true
  | String c r => (16 <=? Py.code c)%N && codes_from_16 r
  end.

(** The shape of a python tag: what [[123]\.?[0-9]?] matches in full. *)
Definition py_tag (g : string) : bool :=
  match g with
  | String d r =>
      (Ascii.eqb d "1" || Ascii.eqb d "2" || Ascii.eqb d "3")
      && match r with
         | EmptyString => true
         | String c EmptyString => Ascii.eqb c "." || Py.is_digit c
         | String c (String x EmptyString) => Ascii.eqb c "." && Py.is_digit x
         | _ => false
         end
  | EmptyString => false
  end.

(** The candidates that narrowing drops, in the words of the
    specification: the version does not satisfy the specifier, or the
    candidate is a pre-release while neither the finder nor the
    requirement allows pre-releases, unless it is the installed one. *)
Definition dropped (E : Platform) (self : PackageFinder) (req : Requirement)
    (found : FoundVersion) : bool :=
  negb (req_contains req (version found))
  || (FoundVersion.prerelease E found
      && negb (allow_all_prereleases self) && negb (prereleases req)
      && negb (FoundVersion.currently_installed found)).

(** No pool other than the installed one has a candidate. *)
Definition no_downloads (p : PackageFinder.pools) : bool :=
  match PackageFinder.found_versions p, PackageFinder.page_versions p,
        PackageFinder.dependency_versions p, PackageFinder.file_versions p with
  | [], [], [], [] => true
  | _, _, _, _ => false
  end.

(** The sort key in the words of the specification: the parsed version
    first; the priority second, only if wheel support is enabled. *)
Definition spec_sort_key (E : Platform) (use_wheel : bool)
    (found : FoundVersion) : result (PV E * Z) :=
  if use_wheel then FoundVersion._sort_key E found
  else Ok (FoundVersion.parsed_version E found, 0%Z).

(** The stable descending sort by that key. *)
Definition spec_sort (E : Platform) (use_wheel : bool)
    (versions : list FoundVersion) : result (list FoundVersion) :=
  match PackageFinder.map_result (spec_sort_key E use_wheel) versions with
  | Raise e => Raise e
  | Ok keys =>
      Ok (map snd (FoundVersion.sorted_desc E (combine keys versions)))
  end.

(** Two keys that compare equal: neither is less than the other. *)
Definition key_equiv (E : Platform) (a b : PV E * Z) : bool :=
  negb (FoundVersion.key_lt E a b) && negb (FoundVersion.key_lt E b a).

(** [pv_compare] is a comparison in the usual sense: swapping the
    arguments gives the opposite answer, and versions that compare equal
    compare alike with any third one. *)
Definition comparison_laws (E : Platform) : Prop :=
  (forall a b, pv_compare E b a = CompOpp (pv_compare E a b))
  /\ (forall a b c, pv_compare E a b = Eq -> pv_compare E a c = pv_compare E b c).

(** Adjacent elements of a sorted list are in descending order: the key
    of the first is not less than the key of the second. *)
Definition desc (E : Platform) (x y : (PV E * Z) * FoundVersion) : Prop :=
  FoundVersion.key_lt E (fst x) (fst y) = false.

(** The finders that a program can hold: one built by the constructor,
    then changed only by the operations of the class and by the link
    filter, which receives the finder as its state. *)
Inductive reachable (E : Platform) : PackageFinder -> Prop :=
| reach_init (fl iu : list string) (uw : bool) (ae au : list string)
    (aae aap pdl : bool) (s : option Session) (f : PackageFinder) :
    PackageFinder.__init__ fl iu uw ae au aae aap pdl s E = Ok f ->
    reachable E f
| reach_add_dependency_links (f : PackageFinder) (new_links : list string) :
    reachable E f ->
    reachable E (PackageFinder.add_dependency_links f new_links)
| reach_filter (f f' : PackageFinder) (l : Link) (search_name : string)
    (r : result (list FoundVersion)) :
    reachable E f ->
    _link_package_versions E l search_name f f = (r, f') ->
    reachable E f'
| reach_find_requirement (f f' : PackageFinder) (fuel : nat)
    (req : Requirement) (upgrade : bool) (r : result (option Link))
    (lg : list log_record) :
    reachable E f ->
    PackageFinder.find_requirement E fuel f req upgrade = Some (r, lg, f') ->
    reachable E f'.

(** Two finders allow the same names. *)
Definition same_allowed (a b : PackageFinder) : Prop :=
  allow_external a = allow_external b
  /\ allow_unverified a = allow_unverified b.

(** Every character of the string satisfies [p]. *)
Fixpoint string_forall (p : ascii -> bool) (s : string) : bool :=
  match s with
  | EmptyString => true
  | String c r => p c && string_forall p r
  end.

(** The character occurs in the string. *)
Fixpoint has_char (c : ascii) (s : string) : bool :=
  match s with
  | EmptyString => false
  | String d r => Ascii.eqb d c || has_char c r
  end.

(** The link has an egg fragment, in the sense of [if link.egg_fragment]. *)
Definition egg (l : Link) : bool := Py.truthy_opt (egg_fragment l).

(** The second finder differs from the first at most in its
    bookkeeping: it may have logged more links and raised warning flags,
    and is the same otherwise. *)
Definition bookkeeping_only (a b : PackageFinder) : Prop :=
  find_links a = find_links b
  /\ index_urls a = index_urls b
  /\ dependency_links a = dependency_links b
  /\ use_wheel a = use_wheel b
  /\ allow_external a = allow_external b
  /\ allow_unverified a = allow_unverified b
  /\ allow_all_external a = allow_all_external b
  /\ allow_all_prereleases a = allow_all_prereleases b
  /\ process_dependency_links a = process_dependency_links b
  /\ session a = session b
  /\ logged_links a ⊆ logged_links b
  /\ (need_warn_external a = true -> need_warn_external b = true)
  /\ (need_warn_unverified a = true -> need_warn_unverified b = true).

(** Two configurations under which the link filter decides alike: the
    settings that the filter reads are the same. *)
Definition same_policy (a b : PackageFinder) : Prop :=
  use_wheel a = use_wheel b
  /\ allow_external a = allow_external b
  /\ allow_unverified a = allow_unverified b
  /\ allow_all_external a = allow_all_external b.

(** The found version is what the link filter returns for its link,
    searched by the given name under the given finder. *)
Definition emitted_by_filter (E : Platform) (n : string)
    (self : PackageFinder) (fv : FoundVersion) : Prop :=
  exists l, link fv = ALink l
            /\ fst (_link_package_versions E l n self self) = Ok [fv].

(** The version of the candidate is not greater than the given one. *)
Definition not_newer (E : Platform) (v : string) (fv : FoundVersion) : bool :=
  match pv_compare E (parse_version E (version fv)) (parse_version E v) with
  | Gt => false
  | _ => true
  end.

(** * Properties *)

(** ** The definitions at work *)

Example clean_link_space : HTMLPage.clean_link "a b" = "a%20b".
Proof. reflexivity. Qed.

Example basename_ex : Py.basename "/simple/foo" = "foo".
Proof. reflexivity. Qed.

Example demo_finder_constructed :
  PackageFinder.__init__ ["http://h/foo-1.0.tar.gz"] [] true [] [] false false
    false (Some Demo.offline) Demo.platform
  = Ok (Demo.finder ["http://h/foo-1.0.tar.gz"] true).
Proof. reflexivity. Qed.


(** ** Strings *)

Lemma append_cons (c : ascii) (a b : string) :
  String c a +:+ b = String c (a +:+ b).
Proof. reflexivity. Qed.

Lemma append_empty (b : string) : EmptyString +:+ b = b.
Proof. reflexivity. Qed.

(** ** [clean_link] *)

Lemma hexdigit_safe (n : N) :
  (n < 16)%N -> HTMLPage.safe_char (Py.hexdigit n) = true.
Proof.
  intros H. destruct n as [|p]; [reflexivity|].
  do 4 (destruct p as [p|p|]; try reflexivity); exfalso; lia.
Qed.

Lemma code_below_256 (c : ascii) : (Py.code c < 256)%N.
Proof. apply N_ascii_bounded. Qed.

Lemma clean_link_safe_char (c : ascii) (r : string) :
  HTMLPage.safe_char c = true ->
  HTMLPage.clean_link (String c r) = String c (HTMLPage.clean_link r).
Proof. intros H. cbn [HTMLPage.clean_link]. now rewrite H. Qed.

(** Away from the sixteen lowest control characters the escape of a
    character is made of safe characters only, and a second pass leaves
    the url as the first one made it. *)
Lemma clean_link_idempotent_from_16 (u : string) :
  codes_from_16 u = true ->
  HTMLPage.clean_link (HTMLPage.clean_link u) = HTMLPage.clean_link u.
Proof.
  induction u as [|c r IH]; [reflexivity|].
  cbn [codes_from_16]. intros H. apply andb_prop in H as [Hc Hr].
  cbn [HTMLPage.clean_link].
  destruct (HTMLPage.safe_char c) eqn:Hs.
  - cbn [HTMLPage.clean_link]. rewrite Hs, (IH Hr). reflexivity.
  - unfold HTMLPage.quote_char, Py.format_2x.
    apply N.leb_le in Hc.
    destruct (Py.code c <? 16)%N eqn:Hlt; [apply N.ltb_lt in Hlt; lia|].
    rewrite !append_cons, append_empty.
    assert (Hhi : (Py.code c / 16 < 16)%N).
    { apply N.Div0.div_lt_upper_bound. pose proof (code_below_256 c). lia. }
    assert (Hlo : (Py.code c mod 16 < 16)%N) by (apply N.mod_lt; lia).
    rewrite !clean_link_safe_char, (IH Hr);
      auto using hexdigit_safe.
Qed.

(** C9. [clean_link] is not idempotent on every url: a tab (code 9) is
    written as a percent sign, a space and the digit 9, because [%2x]
    pads with a space; the second pass escapes that space. *)
Theorem clean_link_tab_not_idempotent :
  let u := String (ascii_of_N 9) EmptyString in
  HTMLPage.clean_link u = "% 9"
  /\ HTMLPage.clean_link (HTMLPage.clean_link u) = "%%209"
  /\ HTMLPage.clean_link (HTMLPage.clean_link u) <> HTMLPage.clean_link u.
Proof. cbv zeta. repeat split. discriminate. Qed.

(** ** The link filter *)

Lemma known_extensions_zip (uw : bool) : str_in ".zip" (_known_extensions uw) = true.
Proof. destruct uw; reflexivity. Qed.

Lemma known_extensions_tar_zip (uw : bool) :
  str_in (".tar" +:+ ".zip") (_known_extensions uw) = false.
Proof. destruct uw; reflexivity. Qed.

Lemma known_extensions_tar_whl (uw : bool) :
  str_in (".tar" +:+ wheel_ext) (_known_extensions uw) = false.
Proof. destruct uw; reflexivity. Qed.

(** C7, as stated, fails: a link with an egg fragment skips the extension
    checks, the macosx10 one among them, and is emitted. *)
Lemma macosx_zip_with_egg_fragment_emitted :
  ~ (forall (E : Platform) (l : Link) (search_name : string)
            (config state : PackageFinder),
        Py.contains "macosx10" (path l) = true ->
        ext l = ".zip" ->
        fst (_link_package_versions E l search_name config state) = Ok []).
Proof.
  intros H.
  specialize (H Demo.platform
                (Demo.link_of "http://h/foo-1.0-macosx10.zip#egg=foo-1.0")
                "foo" (Demo.finder [] true) (Demo.finder [] true)
                eq_refl eq_refl).
  vm_compute in H. discriminate H.
Qed.

(** C7 (amended). A link without egg fragment whose path contains
    [macosx10] and whose extension is [.zip] is skipped: the filter
    returns the empty list, whatever the search name, the configuration
    and the state. *)
Theorem macosx_zip_skipped_without_egg_fragment
    (E : Platform) (l : Link) (search_name : string)
    (config state : PackageFinder) :
  Py.truthy_opt (egg_fragment l) = false ->
  Py.contains "macosx10" (path l) = true ->
  ext l = ".zip" ->
  fst (_link_package_versions E l search_name config state) = Ok [].
Proof.
  intros Hegg Hmac Hext.
  unfold _link_package_versions, version_stage. rewrite Hegg.
  unfold ext in Hext. destruct (splitext l) as [egg_info e] eqn:Hs.
  cbn [snd] in Hext. subst e. cbn [Py.truthy negb].
  destruct (Py.endswith ".tar" egg_info).
  - rewrite known_extensions_tar_zip. reflexivity.
  - rewrite known_extensions_zip, Hmac. reflexivity.
Qed.

Lemma macosx_zip_skipped_without_egg_fragment_witness :
  fst (_link_package_versions Demo.platform
         (Demo.link_of "http://h/foo-1.0-macosx10.zip") "foo"
         (Demo.finder [] true) (Demo.finder [] true)) = Ok [].
Proof.
  apply (macosx_zip_skipped_without_egg_fragment Demo.platform
           (Demo.link_of "http://h/foo-1.0-macosx10.zip") "foo"
           (Demo.finder [] true) (Demo.finder [] true));
    reflexivity.
Defined.

(** ** The sort key of what the filter emits *)

Lemma tag_eqb_sym (a b : tag) : tag_eqb a b = tag_eqb b a.
Proof.
  destruct a as [[p1 a1] l1], b as [[p2 a2] l2]. unfold tag_eqb.
  now rewrite (String.eqb_sym p1), (String.eqb_sym a1), (String.eqb_sym l1).
Qed.

Lemma index_of_tag_in (c : tag) (tags : list tag) :
  WheelM.tag_in c tags = true -> exists i, WheelM.index_of c tags = Some i.
Proof.
  induction tags as [|t r IH]; cbn; [discriminate|].
  rewrite (tag_eqb_sym t c).
  destruct (tag_eqb c t); [eauto|]. cbn. intros H.
  destruct (IH H) as [i ->]. eauto.
Qed.

(** A supported wheel has a support index. *)
Lemma supported_has_index (w : Wheel) (tags : list tag) :
  WheelM.supported w tags = true ->
  exists i, WheelM.support_index_min w tags = Some i.
Proof.
  unfold WheelM.supported, WheelM.support_index_min.
  induction (file_tags w) as [|c r IH]; cbn; [discriminate|].
  intros H. apply orb_prop in H as [H|H].
  - destruct (index_of_tag_in _ _ H) as [i ->].
    destruct (fold_right _ None r); eauto.
  - destruct (IH H) as [j ->].
    destruct (WheelM.index_of c tags); eauto.
Qed.

Lemma py_version_stage_link (E : Platform) (v : string) (l : Link)
    (fv : FoundVersion) :
  In fv (py_version_stage E v l) -> link fv = ALink l.
Proof.
  unfold py_version_stage.
  destruct (_py_version_re_search v) as [[start py]|];
    [destruct (negb _)|]; cbn; intros H;
    repeat (destruct H as [H|H]; [subst fv; reflexivity|]); destruct H.
Qed.

(** What the filter emits comes from the last stage. *)
Lemma link_package_versions_emitted (E : Platform) (l : Link)
    (search_name : string) (config state : PackageFinder)
    (vs : list FoundVersion) (fv : FoundVersion) :
  fst (_link_package_versions E l search_name config state) = Ok vs ->
  In fv vs ->
  exists v st, version_stage E l search_name config state = (Go v, st)
               /\ In fv (py_version_stage E v l).
Proof.
  unfold _link_package_versions.
  destruct (version_stage E l search_name config state) as [[v| |e] st];
    cbn; try (intros [= <-] []); try discriminate.
  destruct (hosting_stage E l search_name config st) as [[u| |e] st'];
    cbn; try (intros [= <-] []); try discriminate.
  intros [= <-] Hin. eauto.
Qed.

(** A wheel link without egg fragment gets through the first stage only
    with a file name that parses and tags that are supported. *)
Lemma version_stage_wheel_checked (E : Platform) (l : Link)
    (search_name : string) (config state st : PackageFinder) (v : string) :
  Py.truthy_opt (egg_fragment l) = false ->
  ext l = wheel_ext ->
  version_stage E l search_name config state = (Go v, st) ->
  exists w, Wheel_parse E (filename l) = Some w
            /\ WheelM.supported w (supported_tags E) = true.
Proof.
  intros Hegg Hext. unfold version_stage. rewrite Hegg.
  unfold ext in Hext. destruct (splitext l) as [egg_info e].
  cbn [snd] in Hext. subst e. cbn [Py.truthy negb wheel_ext].
  destruct (Py.endswith ".tar" egg_info).
  - rewrite (known_extensions_tar_whl (use_wheel config)). discriminate.
  - unfold wheel_ext at 1 2 3.
    destruct (str_in ".whl" (_known_extensions (use_wheel config)));
      cbn [negb]; [|discriminate].
    replace (String.eqb ".whl" ".zip") with false by reflexivity.
    rewrite andb_false_r.
    replace (String.eqb ".whl" wheel_ext) with true by reflexivity.
    unfold wheel_version_stage.
    destruct (Wheel_parse E (filename l)) as [w|]; [|discriminate].
    destruct (negb (String.eqb _ _)); [discriminate|].
    destruct (WheelM.supported w (supported_tags E)) eqn:Hsup;
      cbn [negb]; [|discriminate].
    intros _. eauto.
Qed.

(** C6, as stated, fails: a wheel link with an egg fragment is emitted
    without any wheel check, and its sort key raises [UnsupportedWheel]
    on an interpreter that supports none of its tags. *)
Lemma egg_fragment_wheel_key_raises :
  ~ (forall (E : Platform) (l : Link) (search_name : string)
            (config state : PackageFinder) (vs : list FoundVersion)
            (fv : FoundVersion),
        fst (_link_package_versions E l search_name config state) = Ok vs ->
        In fv vs ->
        FoundVersion._sort_key E fv <> Raise UnsupportedWheel).
Proof.
  intros H.
  pose (l := Demo.link_of "http://h/foo-1.0-py2-none-any.whl#egg=foo-1.0").
  apply (H Demo.platform l "foo" (Demo.finder [] true) (Demo.finder [] true)
           [ {| version := "1.0"; link := ALink l |} ]
           {| version := "1.0"; link := ALink l |}).
  - reflexivity.
  - left. reflexivity.
  - reflexivity.
Qed.

(** C6 (amended). For every found version that the filter emits, the
    sort key is computed under the same platform without raising, in
    particular without [UnsupportedWheel], unless the link has both an
    egg fragment and the wheel extension: it suffices that the link has
    no egg fragment, or that its extension is not [.whl]. *)
Theorem sort_key_defined_unless_egg_fragment_wheel
    (E : Platform) (l : Link) (search_name : string)
    (config state : PackageFinder) (vs : list FoundVersion)
    (fv : FoundVersion) :
  Py.truthy_opt (egg_fragment l) = false
  \/ String.eqb (ext l) wheel_ext = false ->
  fst (_link_package_versions E l search_name config state) = Ok vs ->
  In fv vs ->
  (exists k, FoundVersion._sort_key E fv = Ok k)
  /\ FoundVersion._sort_key E fv <> Raise UnsupportedWheel.
Proof.
  intros Hwhy Hres Hin.
  destruct (link_package_versions_emitted _ _ _ _ _ _ _ Hres Hin)
    as (v & st & Hstage & Hfv).
  apply py_version_stage_link in Hfv.
  assert (Hk : exists k, FoundVersion._sort_key E fv = Ok k).
  { unfold FoundVersion._sort_key. rewrite Hfv.
    destruct (String.eqb (ext l) wheel_ext) eqn:Hext; [|eauto].
    destruct Hwhy as [Hegg|Hno]; [|discriminate Hno].
    apply String.eqb_eq in Hext.
    destruct (version_stage_wheel_checked _ _ _ _ _ _ _ Hegg Hext Hstage)
      as (w & -> & Hsup).
    rewrite Hsup. cbn [negb].
    destruct (supported_has_index _ _ Hsup) as [i ->]. eauto. }
  split; [exact Hk|]. destruct Hk as [k ->]. discriminate.
Qed.

Lemma sort_key_defined_unless_egg_fragment_wheel_witness :
  ((exists k, FoundVersion._sort_key Demo.platform
                {| version := "1.0";
                   link := ALink (Demo.link_of "http://h/foo-1.0-py3-none-any.whl") |}
              = Ok k)
   /\ FoundVersion._sort_key Demo.platform
        {| version := "1.0";
           link := ALink (Demo.link_of "http://h/foo-1.0-py3-none-any.whl") |}
      <> Raise UnsupportedWheel)
  /\ ((exists k, FoundVersion._sort_key Demo.platform
                   {| version := "1.0";
                      link := ALink (Demo.link_of "http://h/foo-1.0.zip#egg=foo-1.0") |}
                 = Ok k)
      /\ FoundVersion._sort_key Demo.platform
           {| version := "1.0";
              link := ALink (Demo.link_of "http://h/foo-1.0.zip#egg=foo-1.0") |}
         <> Raise UnsupportedWheel).
Proof.
  split.
  - apply (sort_key_defined_unless_egg_fragment_wheel Demo.platform
             (Demo.link_of "http://h/foo-1.0-py3-none-any.whl") "foo"
             (Demo.finder [] true) (Demo.finder [] true)
             [ {| version := "1.0";
                  link := ALink (Demo.link_of "http://h/foo-1.0-py3-none-any.whl") |} ]).
    + left. reflexivity.
    + reflexivity.
    + left. reflexivity.
  - apply (sort_key_defined_unless_egg_fragment_wheel Demo.platform
             (Demo.link_of "http://h/foo-1.0.zip#egg=foo-1.0") "foo"
             (Demo.finder [] true) (Demo.finder [] true)
             [ {| version := "1.0";
                  link := ALink (Demo.link_of "http://h/foo-1.0.zip#egg=foo-1.0") |} ]).
    + right. reflexivity.
    + reflexivity.
    + left. reflexivity.
Defined.

(** ** The python-version suffix *)

Lemma contains_dash_cons (c : ascii) (r : string) :
  Py.contains "-" (String c r) = Ascii.eqb c "-" || Py.contains "-" r.
Proof.
  cbn [Py.contains String.prefix].
  destruct (ascii_dec "-" c) as [<-|Hne].
  - destruct r; reflexivity.
  - destruct (Ascii.eqb_spec c "-"); [congruence|reflexivity].
Qed.

Lemma contains_dash_empty : Py.contains "-" EmptyString = false.
Proof. reflexivity. Qed.

Lemma digit_not_dash (d : ascii) : Py.is_digit d = true -> Ascii.eqb d "-" = false.
Proof. destruct (Ascii.eqb_spec d "-"); [subst; discriminate|reflexivity]. Qed.

Lemma at_dollar_no_dash (r : string) : at_dollar r = true -> Py.contains "-" r = false.
Proof.
  destruct r as [|c [|c' r]]; cbn [at_dollar]; try discriminate; [reflexivity|].
  intros H. apply Ascii.eqb_eq in H. subst c. reflexivity.
Qed.

Lemma py_version_tail_no_dash (t g : string) :
  py_version_tail t = Some g -> Py.contains "-" t = false.
Proof.
  unfold py_version_tail. destruct t as [|c r]; [reflexivity|].
  destruct (Ascii.eqb_spec c ".") as [->|Hc].
  - destruct r as [|d r']; [reflexivity|].
    destruct (Py.is_digit d && at_dollar r') eqn:H1.
    + apply andb_prop in H1 as [Hd Hr]. intros _.
      rewrite !contains_dash_cons, (digit_not_dash _ Hd), (at_dollar_no_dash _ Hr).
      reflexivity.
    + destruct (at_dollar (String d r')) eqn:H2; [|discriminate]. intros _.
      rewrite contains_dash_cons, (at_dollar_no_dash _ H2). reflexivity.
  - destruct (Py.is_digit c && at_dollar r) eqn:H1.
    + apply andb_prop in H1 as [Hd Hr]. intros _.
      rewrite contains_dash_cons, (digit_not_dash _ Hd), (at_dollar_no_dash _ Hr).
      reflexivity.
    + destruct (at_dollar (String c r)) eqn:H2; [|discriminate]. intros _.
      exact (at_dollar_no_dash _ H2).
Qed.

(** A match of [_py_version_re] has its only dash in front. *)
Lemma py_version_match_single_dash (c : ascii) (r g : string) :
  py_version_match_here (String c r) = Some g -> Py.contains "-" r = false.
Proof.
  unfold py_version_match_here.
  destruct r as [|b [|c' [|d t]]]; try discriminate.
  destruct (Ascii.eqb c "-" && Ascii.eqb b "p" && Ascii.eqb c' "y"
            && (Ascii.eqb d "1" || Ascii.eqb d "2" || Ascii.eqb d "3")) eqn:H;
    [|discriminate].
  destruct (py_version_tail t) as [g'|] eqn:Ht; [|discriminate]. intros _.
  apply andb_prop in H as [H Hd]. apply andb_prop in H as [H Hy].
  apply andb_prop in H as [_ Hp].
  apply Ascii.eqb_eq in Hp, Hy. subst b c'.
  rewrite !contains_dash_cons, (py_version_tail_no_dash _ _ Ht).
  assert (Ascii.eqb d "-" = false) as ->; [|reflexivity].
  destruct (Ascii.eqb_spec d "-") as [->|]; [discriminate Hd|reflexivity].
Qed.

Lemma py_version_match_tag (g : string) :
  py_tag g = true -> py_version_match_here ("-py" +:+ g) = Some g.
Proof.
  destruct g as [|d r]; [discriminate|]. cbn [py_tag].
  intros H. apply andb_prop in H as [Hd Hr].
  change ("-py" +:+ String d r) with (String "-" (String "p" (String "y" (String d r)))).
  unfold py_version_match_here.
  replace (Ascii.eqb "-" "-") with true by reflexivity.
  replace (Ascii.eqb "p" "p") with true by reflexivity.
  replace (Ascii.eqb "y" "y") with true by reflexivity.
  rewrite Hd. cbn [andb].
  assert (py_version_tail r = Some r) as ->; [|reflexivity].
  unfold py_version_tail.
  destruct r as [|c [|x [|y r]]]; try discriminate; try reflexivity.
  - apply orb_prop in Hr as [Hc|Hc].
    + apply Ascii.eqb_eq in Hc. subst c. reflexivity.
    + destruct (Ascii.eqb_spec c ".") as [->|]; [reflexivity|].
      rewrite Hc. reflexivity.
  - apply andb_prop in Hr as [Hc Hx]. apply Ascii.eqb_eq in Hc. subst c.
    cbn [Ascii.eqb]. replace (Ascii.eqb "." ".") with true by reflexivity.
    rewrite Hx. reflexivity.
Qed.

Lemma contains_dash_app (a b : string) :
  Py.contains "-" b = true -> Py.contains "-" (a +:+ b) = true.
Proof.
  intros H. induction a as [|c a IH]; [exact H|].
  rewrite append_cons, contains_dash_cons, IH. apply orb_true_r.
Qed.

(** The search finds the suffix where it starts. *)
Lemma py_version_search_suffix (stem g : string) (pos : nat) :
  py_tag g = true ->
  py_version_search_from pos (stem +:+ "-py" +:+ g)
  = Some ((pos + String.length stem)%nat, g).
Proof.
  intros Hg. revert pos. induction stem as [|c stem IH]; intros pos.
  - rewrite append_empty. destruct ("-py" +:+ g) eqn:Hs.
    + discriminate.
    + rewrite <- Hs. unfold py_version_search_from.
      rewrite Hs. fold py_version_search_from. rewrite <- Hs.
      rewrite (py_version_match_tag _ Hg). cbn. f_equal. f_equal. lia.
  - rewrite append_cons. cbn [py_version_search_from].
    destruct (py_version_match_here (String c (stem +:+ "-py" +:+ g))) eqn:Hm.
    + apply py_version_match_single_dash in Hm.
      rewrite contains_dash_app in Hm; [discriminate|].
      reflexivity.
    + rewrite IH. cbn [String.length]. f_equal. f_equal. lia.
Qed.

Lemma take_length_app (a b : string) : Py.take (String.length a) (a +:+ b) = a.
Proof.
  induction a as [|c a IH]; cbn [String.length Py.take].
  - destruct b; reflexivity.
  - rewrite append_cons. cbn [Py.take]. now rewrite IH.
Qed.

(** C8. When the version computed by the filter is a stem followed by
    [-py] and a python tag, and the link passes the hosting checks, the
    filter returns no candidate iff the tag differs from the first three
    characters of the interpreter version, and otherwise returns the
    candidate with the suffix stripped from its version. *)
Theorem py_version_suffix_checked
    (E : Platform) (l : Link) (search_name : string)
    (config state st1 st2 : PackageFinder) (stem py : string) :
  version_stage E l search_name config state
    = (Go (stem +:+ "-py" +:+ py), st1) ->
  hosting_stage E l search_name config st1 = (Go tt, st2) ->
  py_tag py = true ->
  _link_package_versions E l search_name config state
    = (Ok (if String.eqb py (Py.take 3 (sys_version E))
           then [ {| version := stem; link := ALink l |} ]
           else []), st2)
  /\ (fst (_link_package_versions E l search_name config state) = Ok []
      <-> py <> Py.take 3 (sys_version E)).
Proof.
  intros Hv Hh Hg.
  assert (Hres : _link_package_versions E l search_name config state
    = (Ok (if String.eqb py (Py.take 3 (sys_version E))
           then [ {| version := stem; link := ALink l |} ]
           else []), st2)).
  { unfold _link_package_versions. rewrite Hv, Hh.
    unfold py_version_stage, _py_version_re_search.
    rewrite (py_version_search_suffix stem py 0 Hg).
    cbn [Nat.add]. rewrite take_length_app.
    destruct (String.eqb py (Py.take 3 (sys_version E))); reflexivity. }
  split; [exact Hres|]. rewrite Hres. cbn [fst].
  destruct (String.eqb_spec py (Py.take 3 (sys_version E))) as [Heq|Hne].
  - split; [discriminate|]. intros Hne. now destruct Hne.
  - split; [intros _; exact Hne|reflexivity].
Qed.

Lemma py_version_suffix_checked_witness :
  let l := Demo.link_of "http://h/foo-1.0-py3.4.tar.gz" in
  _link_package_versions Demo.platform l "foo"
      (Demo.finder [] true) (Demo.finder [] true)
    = (Ok [ {| version := "1.0"; link := ALink l |} ], Demo.finder [] true)
  /\ (fst (_link_package_versions Demo.platform l "foo"
             (Demo.finder [] true) (Demo.finder [] true)) = Ok []
      <-> "3.4" <> "3.4").
Proof.
  exact (py_version_suffix_checked Demo.platform
           (Demo.link_of "http://h/foo-1.0-py3.4.tar.gz") "foo"
           (Demo.finder [] true) (Demo.finder [] true)
           (Demo.finder [] true) (Demo.finder [] true) "1.0" "3.4"
           eq_refl eq_refl eq_refl).
Defined.

(** ** Narrowing *)

Section Narrowing.
Context (E : Platform) (self : PackageFinder) (req : Requirement).

Lemma narrow_filter (versions acc : list FoundVersion) :
  PackageFinder.narrow E self req versions acc
  = acc ++ List.filter (PackageFinder.applicable E self req) versions.
Proof.
  revert acc. induction versions as [|f r IH]; intros acc; cbn.
  - now rewrite app_nil_r.
  - destruct (PackageFinder.applicable E self req f).
    + rewrite IH, <- app_assoc. reflexivity.
    + apply IH.
Qed.

Lemma applicable_not_dropped (found : FoundVersion) :
  PackageFinder.applicable E self req found = negb (dropped E self req found).
Proof.
  unfold PackageFinder.applicable, dropped.
  destruct (req_contains req (version found)),
    (FoundVersion.prerelease E found), (allow_all_prereleases self),
    (prereleases req), (FoundVersion.currently_installed found);
    reflexivity.
Qed.

Lemma narrow_app (a b : list FoundVersion) :
  PackageFinder.narrow E self req (a ++ b) []
  = PackageFinder.narrow E self req a [] ++ PackageFinder.narrow E self req b [].
Proof. rewrite !narrow_filter. cbn. apply List.filter_app. Qed.

End Narrowing.

(** C4. Narrowing keeps the candidates in their order and drops exactly
    those whose version does not satisfy the specifier and those that are
    pre-releases while neither [allow_all_prereleases] nor the
    requirement's [prereleases] is set, the installed candidate being
    exempt from the pre-release rule. *)
Theorem narrow_drops_exactly (E : Platform) (self : PackageFinder)
    (req : Requirement) (versions : list FoundVersion) (found : FoundVersion) :
  PackageFinder.narrow E self req versions []
    = List.filter (fun f => negb (dropped E self req f)) versions
  /\ (In found (PackageFinder.narrow E self req versions [])
      <-> In found versions /\ dropped E self req found = false).
Proof.
  assert (H : PackageFinder.narrow E self req versions []
    = List.filter (fun f => negb (dropped E self req f)) versions).
  { rewrite narrow_filter. cbn. apply List.filter_ext. intros f.
    apply applicable_not_dropped. }
  split; [exact H|]. rewrite H, List.filter_In, negb_true_iff. reflexivity.
Qed.

(** ** The pools *)

Lemma no_downloads_true (p : PackageFinder.pools) :
  no_downloads p = true
  <-> PackageFinder.found_versions p = [] /\ PackageFinder.page_versions p = []
      /\ PackageFinder.dependency_versions p = []
      /\ PackageFinder.file_versions p = [].
Proof.
  unfold no_downloads.
  destruct (PackageFinder.found_versions p), (PackageFinder.page_versions p),
    (PackageFinder.dependency_versions p), (PackageFinder.file_versions p);
    split; try discriminate; try tauto;
    intros (H1 & H2 & H3 & H4); discriminate.
Qed.

Lemma select_no_downloads (E : Platform) (self : PackageFinder)
    (req : Requirement) (upgrade : bool) (p : PackageFinder.pools) :
  no_downloads p = true ->
  PackageFinder.select E self req upgrade p
  = (Raise (DistributionNotFound (PackageFinder.no_downloads_msg req)),
     PackageFinder.no_downloads_logs self req).
Proof.
  intros H. apply no_downloads_true in H as (H1 & H2 & H3 & H4).
  unfold PackageFinder.select. now rewrite H1, H2, H3, H4.
Qed.

Lemma select_some_download (E : Platform) (self : PackageFinder)
    (req : Requirement) (upgrade : bool) (p : PackageFinder.pools) :
  no_downloads p = false ->
  PackageFinder.select E self req upgrade p
  = match PackageFinder.candidates E req p with
    | Raise e => (Raise e, [])
    | Ok all_versions =>
        match FoundVersion.sort E
                (PackageFinder.narrow E self req all_versions []) with
        | Raise e => (Raise e, [])
        | Ok applicable_versions =>
            PackageFinder.choose self req upgrade all_versions
              applicable_versions
        end
    end.
Proof.
  unfold PackageFinder.select, no_downloads.
  destruct (PackageFinder.found_versions p); [|reflexivity].
  destruct (PackageFinder.page_versions p); [|reflexivity].
  destruct (PackageFinder.dependency_versions p); [|reflexivity].
  destruct (PackageFinder.file_versions p); [discriminate|reflexivity].
Qed.

(** C3. The list that is narrowed is the concatenation of the pools in
    the order installed, file (sorted on its own), find-links, page,
    dependency; narrowing keeps that order pool by pool, and its result
    is what the final sort receives. *)
Theorem pools_concatenated_in_priority_order (E : Platform)
    (self : PackageFinder) (req : Requirement) (upgrade : bool)
    (p : PackageFinder.pools) (all_versions : list FoundVersion) :
  no_downloads p = false ->
  PackageFinder.candidates E req p = Ok all_versions ->
  exists file_sorted,
    (PackageFinder.file_versions p = [] /\ file_sorted = []
     \/ FoundVersion.sort E (PackageFinder.file_versions p) = Ok file_sorted)
    /\ all_versions
       = InstalledFinder.found req ++ file_sorted
         ++ PackageFinder.found_versions p ++ PackageFinder.page_versions p
         ++ PackageFinder.dependency_versions p
    /\ PackageFinder.narrow E self req all_versions []
       = List.filter (PackageFinder.applicable E self req) (InstalledFinder.found req)
         ++ List.filter (PackageFinder.applicable E self req) file_sorted
         ++ List.filter (PackageFinder.applicable E self req) (PackageFinder.found_versions p)
         ++ List.filter (PackageFinder.applicable E self req) (PackageFinder.page_versions p)
         ++ List.filter (PackageFinder.applicable E self req) (PackageFinder.dependency_versions p)
    /\ PackageFinder.select E self req upgrade p
       = match FoundVersion.sort E
                 (PackageFinder.narrow E self req all_versions []) with
         | Raise e => (Raise e, [])
         | Ok applicable_versions =>
             PackageFinder.choose self req upgrade all_versions
               applicable_versions
         end.
Proof.
  intros Hp Hc.
  rewrite (select_some_download E self req upgrade p Hp), Hc.
  unfold PackageFinder.candidates in Hc.
  assert (Hf : exists file_sorted,
    (PackageFinder.file_versions p = [] /\ file_sorted = []
     \/ FoundVersion.sort E (PackageFinder.file_versions p) = Ok file_sorted)
    /\ all_versions
       = PackageFinder.all_versions (InstalledFinder.found req) file_sorted
           (PackageFinder.found_versions p) (PackageFinder.page_versions p)
           (PackageFinder.dependency_versions p)).
  { destruct (PackageFinder.file_versions p) as [|f fs] eqn:Hfile.
    - injection Hc as <-. exists []. split; [left; split|]; reflexivity.
    - rewrite <- Hfile in *.
      destruct (FoundVersion.sort E (PackageFinder.file_versions p)) as [fs'|e];
        [|discriminate].
      injection Hc as <-. exists fs'. split; [right|]; reflexivity. }
  destruct Hf as (file_sorted & Hsorted & ->).
  exists file_sorted. unfold PackageFinder.all_versions.
  repeat split; try assumption.
  rewrite narrow_filter. cbn [app]. now rewrite !List.filter_app.
Qed.

(** ** Sorting *)

Section Sorting.
Context (E : Platform).

Lemma decorate_snd (l : list FoundVersion) kvs :
  FoundVersion.decorate E l = Ok kvs -> map snd kvs = l.
Proof.
  revert kvs. induction l as [|v r IH]; intros kvs; cbn.
  - now intros [= <-].
  - destruct (FoundVersion._sort_key E v); [|discriminate].
    destruct (FoundVersion.decorate E r); [|discriminate].
    intros [= <-]. cbn. f_equal. now apply IH.
Qed.

Lemma decorate_keys (l : list FoundVersion) kvs :
  FoundVersion.decorate E l = Ok kvs ->
  Forall (fun kv => FoundVersion._sort_key E (snd kv) = Ok (fst kv)) kvs.
Proof.
  revert kvs. induction l as [|v r IH]; intros kvs; cbn.
  - intros [= <-]. constructor.
  - destruct (FoundVersion._sort_key E v) eqn:Hk; [|discriminate].
    destruct (FoundVersion.decorate E r); [|discriminate].
    intros [= <-]. constructor; [exact Hk|]. now apply IH.
Qed.

Lemma sort_key_raises (v : FoundVersion) (e : exn) :
  FoundVersion._sort_key E v = Raise e ->
  e = InvalidWheelFilename \/ e = UnsupportedWheel \/ e = TypeError.
Proof.
  unfold FoundVersion._sort_key.
  destruct (link v) as [|l]; [discriminate|].
  destruct (String.eqb (ext l) wheel_ext); [|discriminate].
  destruct (Wheel_parse E (filename l)) as [w|]; [|intros [= <-]; auto].
  destruct (negb (WheelM.supported w (supported_tags E)));
    [intros [= <-]; auto|].
  destruct (WheelM.support_index_min w (supported_tags E));
    [discriminate|intros [= <-]; auto].
Qed.

Lemma sort_raises (l : list FoundVersion) (e : exn) :
  FoundVersion.sort E l = Raise e ->
  e = InvalidWheelFilename \/ e = UnsupportedWheel \/ e = TypeError.
Proof.
  unfold FoundVersion.sort.
  destruct (FoundVersion.decorate E l) as [kvs|e'] eqn:Hd; [discriminate|].
  intros [= <-]. revert e' Hd.
  induction l as [|v r IH]; intros e' ; cbn; [discriminate|].
  destruct (FoundVersion._sort_key E v) eqn:Hk.
  - destruct (FoundVersion.decorate E r); [discriminate|].
    intros [= <-]. now apply IH.
  - intros [= <-]. exact (sort_key_raises _ _ Hk).
Qed.

Lemma insert_desc_permutation x l :
  Permutation (FoundVersion.insert_desc E x l) (x :: l).
Proof.
  induction l as [|y r IH]; cbn; [reflexivity|].
  destruct (FoundVersion.key_lt E (fst x) (fst y)); [|reflexivity].
  rewrite IH. apply perm_swap.
Qed.

Lemma sorted_desc_permutation l :
  Permutation (FoundVersion.sorted_desc E l) l.
Proof.
  induction l as [|x r IH]; cbn; [reflexivity|].
  rewrite insert_desc_permutation. now constructor.
Qed.

(** The sort returns the candidates it was given. *)
Lemma sort_permutation (l l' : list FoundVersion) :
  FoundVersion.sort E l = Ok l' -> Permutation l l'.
Proof.
  unfold FoundVersion.sort.
  destruct (FoundVersion.decorate E l) as [kvs|] eqn:Hd; [|discriminate].
  intros [= <-]. rewrite <- (decorate_snd _ _ Hd) at 1.
  apply Permutation_map. symmetry. apply sorted_desc_permutation.
Qed.

End Sorting.

Lemma existsb_permutation {A : Type} (f : A -> bool) (l l' : list A) :
  Permutation l l' -> existsb f l = existsb f l'.
Proof.
  induction 1; cbn; try congruence.
  - now rewrite !orb_assoc, (orb_comm (f y)).
Qed.

(** ** The outcome of [find_requirement] *)

Lemma messages_differ (req : Requirement) :
  PackageFinder.no_matching_msg req <> PackageFinder.no_downloads_msg req.
Proof.
  unfold PackageFinder.no_matching_msg, PackageFinder.no_downloads_msg.
  rewrite !append_cons. discriminate.
Qed.

Lemma choose_not_no_downloads (self : PackageFinder) (req : Requirement)
    (upgrade : bool) (all_versions applicable_versions : list FoundVersion) :
  fst (PackageFinder.choose self req upgrade all_versions applicable_versions)
  <> Raise (DistributionNotFound (PackageFinder.no_downloads_msg req)).
Proof.
  unfold PackageFinder.choose.
  destruct (negb upgrade && existsb _ applicable_versions); [discriminate|].
  destruct applicable_versions as [|best r]; cbn [fst].
  - intros H. apply (messages_differ req). congruence.
  - destruct (link best); discriminate.
Qed.

Lemma select_not_no_downloads (E : Platform) (self : PackageFinder)
    (req : Requirement) (upgrade : bool) (p : PackageFinder.pools) :
  no_downloads p = false ->
  fst (PackageFinder.select E self req upgrade p)
  <> Raise (DistributionNotFound (PackageFinder.no_downloads_msg req)).
Proof.
  intros Hp. rewrite (select_some_download E self req upgrade p Hp).
  unfold PackageFinder.candidates.
  destruct (match PackageFinder.file_versions p with
            | [] => Ok []
            | _ :: _ => FoundVersion.sort E (PackageFinder.file_versions p)
            end) as [fs|e] eqn:Hfs.
  - destruct (FoundVersion.sort E (PackageFinder.narrow E self req _ []))
      as [av|e] eqn:Hs.
    + apply choose_not_no_downloads.
    + cbn. intros [= ->]. apply sort_raises in Hs.
      destruct Hs as [Hs|[Hs|Hs]]; discriminate Hs.
  - cbn. intros [= ->].
    destruct (PackageFinder.file_versions p); [discriminate|].
    apply sort_raises in Hfs. destruct Hfs as [Hs|[Hs|Hs]]; discriminate Hs.
Qed.

(** C5. Once discovery has filled the pools, [find_requirement] raises
    [DistributionNotFound] with the no-downloads message exactly when
    the find-links, page, dependency and file pools are all empty,
    whether or not a version is installed; what it logs before raising
    is the critical line, then the external warning iff
    [need_warn_external] is set, then the unverified warning iff
    [need_warn_unverified] is set. *)
Theorem no_downloads_exactly_when_pools_empty (E : Platform) (fuel : nat)
    (self self1 : PackageFinder) (req : Requirement) (upgrade : bool)
    (p : PackageFinder.pools) (lg : list log_record) :
  PackageFinder.gather E fuel self req = Some (Ok p, lg, self1) ->
  exists r lg',
    PackageFinder.find_requirement E fuel self req upgrade
      = Some (r, lg ++ lg', self1)
    /\ (r = Raise (DistributionNotFound (PackageFinder.no_downloads_msg req))
        <-> no_downloads p = true)
    /\ (no_downloads p = true ->
        lg' = [CriticalNoDownloads (req_str req)]
              ++ (if need_warn_external self1
                  then [WarnExternalIgnored (Some (req_name req))] else [])
              ++ (if need_warn_unverified self1
                  then [WarnUnverifiedIgnored (req_name req)] else [])
        /\ (In (WarnExternalIgnored (Some (req_name req))) lg'
            <-> need_warn_external self1 = true)
        /\ (In (WarnUnverifiedIgnored (req_name req)) lg'
            <-> need_warn_unverified self1 = true)).
Proof.
  intros Hg. unfold PackageFinder.find_requirement. rewrite Hg.
  destruct (PackageFinder.select E self1 req upgrade p) as [r lg'] eqn:Hsel.
  exists r, lg'. split; [reflexivity|].
  destruct (no_downloads p) eqn:Hp.
  - rewrite (select_no_downloads E self1 req upgrade p Hp) in Hsel.
    injection Hsel as <- <-. split; [tauto|]. intros _.
    unfold PackageFinder.no_downloads_logs.
    split; [reflexivity|].
    destruct (need_warn_external self1), (need_warn_unverified self1);
      cbn; split; split; intros H; try discriminate; auto;
      repeat (destruct H as [H|H]; try discriminate H); destruct H.
  - split; [|discriminate]. split; [|discriminate]. intros ->.
    pose proof (select_not_no_downloads E self1 req upgrade p Hp) as Hn.
    rewrite Hsel in Hn. now destruct Hn.
Qed.

(** C1. Where the specification promises a null return, the code
    raises: once
    the pools hold a candidate, the sorted applicable versions contain
    the installed one, and [upgrade] is false, [find_requirement] reads
    the attribute [currently_installed] of the sorted list and so ends
    with [AttributeError]. *)
Theorem satisfied_without_upgrade_raises (E : Platform) (fuel : nat)
    (self self1 : PackageFinder) (req : Requirement)
    (p : PackageFinder.pools) (lg : list log_record)
    (all_versions applicable_versions : list FoundVersion) :
  PackageFinder.gather E fuel self req = Some (Ok p, lg, self1) ->
  no_downloads p = false ->
  PackageFinder.candidates E req p = Ok all_versions ->
  existsb FoundVersion.currently_installed
    (PackageFinder.narrow E self1 req all_versions []) = true ->
  FoundVersion.sort E (PackageFinder.narrow E self1 req all_versions [])
    = Ok applicable_versions ->
  PackageFinder.find_requirement E fuel self req false
  = Some (Raise AttributeError, lg, self1).
Proof.
  intros Hg Hp Hc Hex Hs.
  unfold PackageFinder.find_requirement. rewrite Hg.
  rewrite (select_some_download E self1 req false p Hp), Hc, Hs.
  unfold PackageFinder.choose.
  rewrite <- (existsb_permutation _ _ _ (sort_permutation E _ _ Hs)), Hex.
  cbn. now rewrite app_nil_r.
Qed.

Lemma pools_concatenated_in_priority_order_witness :
  let l := mk_link Demo.platform "https://h/foo-1.0.tar.gz"
             (Some (FromStr "-f")) None (Some true) false in
  let f := Demo.finder ["https://h/foo-1.0.tar.gz"] true in
  let req := Demo.requirement (Some "1.0") in
  let p := {| PackageFinder.found_versions := [ {| version := "1.0"; link := ALink l |} ];
              PackageFinder.page_versions := [];
              PackageFinder.dependency_versions := [];
              PackageFinder.file_versions := [] |} in
  let all_versions := [ {| version := "1.0"; link := INSTALLED_VERSION |};
                        {| version := "1.0"; link := ALink l |} ] in
  exists file_sorted,
    (PackageFinder.file_versions p = [] /\ file_sorted = []
     \/ FoundVersion.sort Demo.platform (PackageFinder.file_versions p) = Ok file_sorted)
    /\ all_versions
       = InstalledFinder.found req ++ file_sorted
         ++ PackageFinder.found_versions p ++ PackageFinder.page_versions p
         ++ PackageFinder.dependency_versions p
    /\ PackageFinder.narrow Demo.platform f req all_versions []
       = List.filter (PackageFinder.applicable Demo.platform f req) (InstalledFinder.found req)
         ++ List.filter (PackageFinder.applicable Demo.platform f req) file_sorted
         ++ List.filter (PackageFinder.applicable Demo.platform f req) (PackageFinder.found_versions p)
         ++ List.filter (PackageFinder.applicable Demo.platform f req) (PackageFinder.page_versions p)
         ++ List.filter (PackageFinder.applicable Demo.platform f req) (PackageFinder.dependency_versions p)
    /\ PackageFinder.select Demo.platform f req true p
       = match FoundVersion.sort Demo.platform
                 (PackageFinder.narrow Demo.platform f req all_versions []) with
         | Raise e => (Raise e, [])
         | Ok applicable_versions =>
             PackageFinder.choose f req true all_versions applicable_versions
         end.
Proof.
  intros l f req p all_versions.
  apply (pools_concatenated_in_priority_order Demo.platform f req true p
           all_versions); reflexivity.
Defined.

Lemma no_downloads_exactly_when_pools_empty_witness :
  let f := Demo.finder [] true in
  let req := Demo.requirement (Some "1.0") in
  let p := {| PackageFinder.found_versions := [];
              PackageFinder.page_versions := [];
              PackageFinder.dependency_versions := [];
              PackageFinder.file_versions := [] |} in
  exists r lg',
    PackageFinder.find_requirement Demo.platform 1 f req true
      = Some (r, [] ++ lg', f)
    /\ (r = Raise (DistributionNotFound (PackageFinder.no_downloads_msg req))
        <-> no_downloads p = true)
    /\ (no_downloads p = true ->
        lg' = [CriticalNoDownloads (req_str req)]
              ++ (if need_warn_external f
                  then [WarnExternalIgnored (Some (req_name req))] else [])
              ++ (if need_warn_unverified f
                  then [WarnUnverifiedIgnored (req_name req)] else [])
        /\ (In (WarnExternalIgnored (Some (req_name req))) lg'
            <-> need_warn_external f = true)
        /\ (In (WarnUnverifiedIgnored (req_name req)) lg'
            <-> need_warn_unverified f = true)).
Proof.
  intros f req p.
  apply (no_downloads_exactly_when_pools_empty Demo.platform 1 f f req true
           p []).
  reflexivity.
Defined.

Lemma satisfied_without_upgrade_raises_witness :
  let f := Demo.finder ["https://h/foo-1.0.tar.gz"] true in
  PackageFinder.find_requirement Demo.platform 1 f
    (Demo.requirement (Some "1.0")) false
  = Some (Raise AttributeError, [], f).
Proof.
  intros f.
  pose (l := mk_link Demo.platform "https://h/foo-1.0.tar.gz"
               (Some (FromStr "-f")) None (Some true) false).
  apply (satisfied_without_upgrade_raises Demo.platform 1 f f
           (Demo.requirement (Some "1.0"))
           {| PackageFinder.found_versions := [ {| version := "1.0"; link := ALink l |} ];
              PackageFinder.page_versions := [];
              PackageFinder.dependency_versions := [];
              PackageFinder.file_versions := [] |}
           []
           [ {| version := "1.0"; link := INSTALLED_VERSION |};
             {| version := "1.0"; link := ALink l |} ]
           [ {| version := "1.0"; link := INSTALLED_VERSION |};
             {| version := "1.0"; link := ALink l |} ]);
    reflexivity.
Defined.

(** ** The order of the sort *)

Section SortOrder.
Context (E : Platform) (laws : comparison_laws E).

Lemma key_lt_asym (a b : PV E * Z) :
  FoundVersion.key_lt E a b = true -> FoundVersion.key_lt E b a = false.
Proof.
  destruct laws as [Hsym _]. unfold FoundVersion.key_lt.
  rewrite (Hsym (fst a) (fst b)).
  destruct (pv_compare E (fst a) (fst b)); cbn; try discriminate; auto.
  intros H. apply Z.ltb_lt in H. apply Z.ltb_ge. lia.
Qed.

Lemma key_equiv_not_lt (k a b : PV E * Z) :
  key_equiv E k a = true -> key_equiv E k b = true ->
  FoundVersion.key_lt E a b = false.
Proof.
  destruct laws as [Hsym Heq]. unfold key_equiv, FoundVersion.key_lt.
  rewrite (Hsym (fst k) (fst a)), (Hsym (fst k) (fst b)).
  assert (Hka : pv_compare E (fst k) (fst a) = Eq ->
                pv_compare E (fst a) (fst b) = pv_compare E (fst k) (fst b)).
  { intros Ha. symmetry. now apply Heq. }
  destruct (pv_compare E (fst k) (fst a)) eqn:Ha; cbn; intros H1;
    try discriminate H1.
  rewrite (Hka eq_refl).
  destruct (pv_compare E (fst k) (fst b)) eqn:Hb; cbn; intros H2;
    try discriminate H2.
  apply andb_prop in H1 as [H1 H1'], H2 as [H2 H2'].
  rewrite negb_true_iff, Z.ltb_ge in H1, H1', H2, H2'.
  apply Z.ltb_ge. lia.
Qed.

Lemma insert_desc_hd x y l :
  FoundVersion.key_lt E (fst x) (fst y) = true ->
  HdRel (desc E) y l -> HdRel (desc E) y (FoundVersion.insert_desc E x l).
Proof.
  intros Hxy Hl. destruct l as [|z r]; cbn.
  - constructor. now apply key_lt_asym.
  - destruct (FoundVersion.key_lt E (fst x) (fst z)).
    + constructor. now inversion Hl.
    + constructor. now apply key_lt_asym.
Qed.

Lemma insert_desc_sorted x l :
  Sorted (desc E) l -> Sorted (desc E) (FoundVersion.insert_desc E x l).
Proof.
  induction 1 as [|y r Hr IH Hy]; cbn.
  - repeat constructor.
  - destruct (FoundVersion.key_lt E (fst x) (fst y)) eqn:Hxy.
    + constructor; [exact IH|]. now apply insert_desc_hd.
    + constructor; [now constructor|]. constructor. exact Hxy.
Qed.

Lemma sorted_desc_sorted l : Sorted (desc E) (FoundVersion.sorted_desc E l).
Proof.
  induction l as [|x r IH]; cbn; [constructor|].
  now apply insert_desc_sorted.
Qed.

(** Insertion does not change the relative order of elements with
    equal keys. *)
Lemma insert_desc_stable k x l :
  List.filter (fun kv => key_equiv E k (fst kv)) (FoundVersion.insert_desc E x l)
  = List.filter (fun kv => key_equiv E k (fst kv)) (x :: l).
Proof.
  induction l as [|y r IH]; [reflexivity|].
  cbn [FoundVersion.insert_desc].
  destruct (FoundVersion.key_lt E (fst x) (fst y)) eqn:Hxy; [|reflexivity].
  cbn [List.filter] in *. rewrite IH.
  destruct (key_equiv E k (fst x)) eqn:Hx; [|reflexivity].
  destruct (key_equiv E k (fst y)) eqn:Hy; [|reflexivity].
  rewrite (key_equiv_not_lt _ _ _ Hx Hy) in Hxy. discriminate.
Qed.

Lemma sorted_desc_stable k l :
  List.filter (fun kv => key_equiv E k (fst kv)) (FoundVersion.sorted_desc E l)
  = List.filter (fun kv => key_equiv E k (fst kv)) l.
Proof.
  induction l as [|x r IH]; [reflexivity|].
  cbn [FoundVersion.sorted_desc fold_right].
  rewrite insert_desc_stable. cbn [List.filter].
  fold (FoundVersion.sorted_desc E r). now rewrite IH.
Qed.

(** When every key can be computed, [FoundVersion.sort] returns the
    candidates with their keys in descending order, and candidates with
    equal keys in the order they had. *)
Lemma sort_descending_stable (l : list FoundVersion) kvs :
  FoundVersion.decorate E l = Ok kvs ->
  exists kvs',
    FoundVersion.sort E l = Ok (map snd kvs')
    /\ Permutation kvs kvs'
    /\ Sorted (desc E) kvs'
    /\ forall k,
         List.filter (fun kv => key_equiv E k (fst kv)) kvs'
         = List.filter (fun kv => key_equiv E k (fst kv)) kvs.
Proof.
  intros Hd. exists (FoundVersion.sorted_desc E kvs).
  unfold FoundVersion.sort. rewrite Hd. split; [reflexivity|].
  split; [symmetry; apply sorted_desc_permutation|].
  split; [apply sorted_desc_sorted|]. intros k. apply sorted_desc_stable.
Qed.

End SortOrder.

(** With wheel support enabled the sort of the specification is the sort of the code. *)
Lemma spec_sort_with_wheels (E : Platform) (l : list FoundVersion) :
  spec_sort E true l = FoundVersion.sort E l.
Proof.
  unfold spec_sort, FoundVersion.sort.
  assert (H : FoundVersion.decorate E l
    = match PackageFinder.map_result (spec_sort_key E true) l with
      | Raise e => Raise e
      | Ok keys => Ok (combine keys l)
      end).
  { induction l as [|v r IH]; cbn; [reflexivity|].
    unfold spec_sort_key at 1.
    destruct (FoundVersion._sort_key E v); [|reflexivity].
    rewrite IH. destruct (PackageFinder.map_result _ r); reflexivity. }
  rewrite H. destruct (PackageFinder.map_result _ l); reflexivity.
Qed.

(** C2. With wheel support disabled the specification orders by version only,
    so a source archive followed by the installed candidate of the same
    version keeps its place; the code applies the priority all the same
    and moves the installed candidate to the front. *)
Theorem sort_applies_priority_without_wheel_support :
  let sdist := {| version := "1.0";
                  link := ALink (Demo.link_of "https://h/foo-1.0.tar.gz") |} in
  let installed := {| version := "1.0"; link := INSTALLED_VERSION |} in
  FoundVersion.sort Demo.platform [sdist; installed] = Ok [installed; sdist]
  /\ spec_sort Demo.platform false [sdist; installed] = Ok [sdist; installed]
  /\ FoundVersion.sort Demo.platform [sdist; installed]
     <> spec_sort Demo.platform false [sdist; installed].
Proof. cbv zeta. repeat split. discriminate. Qed.

(** ** The allowed names *)

Lemma same_allowed_refl (a : PackageFinder) : same_allowed a a.
Proof. split; reflexivity. Qed.

Lemma same_allowed_trans (a b c : PackageFinder) :
  same_allowed a b -> same_allowed b c -> same_allowed a c.
Proof. intros [? ?] [? ?]. split; congruence. Qed.

#[local] Hint Resolve same_allowed_refl : core.

Lemma log_once_allowed (l : Link) (s : PackageFinder) :
  same_allowed s (log_once l s).
Proof. unfold log_once. destruct (bool_decide _); split; reflexivity. Qed.

Section Allowed.
Context (E : Platform).

Lemma version_stage_allowed l n config state :
  same_allowed state (snd (version_stage E l n config state)).
Proof.
  unfold version_stage.
  repeat match goal with
         | |- context [match ?x with _ => _ end] => destruct x
         end; cbn [snd]; auto using log_once_allowed.
Qed.

Lemma hosting_stage_allowed l n config state :
  same_allowed state (snd (hosting_stage E l n config state)).
Proof.
  unfold hosting_stage.
  destruct (external_guard E l n config); [split; reflexivity|].
  destruct (unverifiable_guard E l n config); [split; reflexivity|auto].
Qed.

Lemma link_package_versions_allowed l n config state :
  same_allowed state (snd (_link_package_versions E l n config state)).
Proof.
  unfold _link_package_versions.
  pose proof (version_stage_allowed l n config state) as H1.
  destruct (version_stage E l n config state) as [[v| |e] st]; cbn [snd] in *;
    try exact H1.
  pose proof (hosting_stage_allowed l n config st) as H2.
  destruct (hosting_stage E l n config st) as [[u| |e] st']; cbn [snd] in *;
    eauto using same_allowed_trans.
Qed.

Lemma package_versions_loop_allowed ls n self acc :
  same_allowed self (snd (package_versions_loop E ls n self acc)).
Proof.
  revert self acc. induction ls as [|l r IH]; intros self acc; cbn; [auto|].
  pose proof (link_package_versions_allowed l n self self) as H.
  destruct (_link_package_versions E l n self self) as [[vs|e] self'];
    cbn [snd] in *; [|exact H].
  eapply same_allowed_trans; [exact H|apply IH].
Qed.

Lemma package_versions_allowed ls n self :
  same_allowed self (snd (_package_versions E ls n self)).
Proof. apply package_versions_loop_allowed. Qed.

Lemma rel_links_loop_allowed ls req self acc :
  same_allowed self (snd (PackageFinder.rel_links_loop E ls req self acc)).
Proof.
  revert self acc. induction ls as [|l r IH]; intros self acc; cbn; [auto|].
  destruct (_ && negb (allow_all_external self)).
  - eapply same_allowed_trans; [|apply IH]. split; reflexivity.
  - destruct (_ && _).
    + eapply same_allowed_trans; [|apply IH]. split; reflexivity.
    + apply IH.
Qed.

Lemma get_pages_allowed fuel locs seen req self acc r self' :
  PackageFinder._get_pages E fuel locs seen req self acc = Some (r, self') ->
  same_allowed self self'.
Proof.
  revert locs seen self acc.
  induction fuel as [|fuel IH]; intros locs seen self acc;
    destruct locs as [|location locs]; cbn;
    try (intros [= <- <-]; auto; fail); try discriminate.
  destruct (bool_decide _); [apply IH|].
  destruct (PackageFinder._get_page self location) as [page|]; [|apply IH].
  pose proof (package_versions_allowed (links page)
                (Py.lower (req_name req)) self) as H1.
  destruct (_package_versions E (links page) (Py.lower (req_name req)) self)
    as [[vs|e] self1]; cbn [snd] in H1; [|intros [= <- <-]; exact H1].
  pose proof (rel_links_loop_allowed (rel_links page) req self1 []) as H2.
  destruct (PackageFinder.rel_links_loop E (rel_links page) req self1 [])
    as [more self2]; cbn [snd] in H2.
  intros H. apply IH in H. eauto using same_allowed_trans.
Qed.

Lemma gather_allowed fuel self req r lg self' :
  PackageFinder.gather E fuel self req = Some (r, lg, self') ->
  same_allowed self self'.
Proof.
  unfold PackageFinder.gather.
  destruct (PackageFinder.search_locations E self req) as [[locations|e] lg0];
    [|intros [= <- <- <-]; auto].
  destruct (PackageFinder._sort_locations E self locations) as [fl ul].
  destruct (PackageFinder._sort_locations E self (dependency_links self))
    as [fl' ul'].
  unfold FindLinksFinder.found.
  match goal with
  | |- context [_package_versions E ?ls ?n self] =>
      pose proof (package_versions_allowed ls n self) as H1;
      destruct (_package_versions E ls n self) as [[fv|e] s1]
  end; cbn [snd] in H1; [|intros [= <- <- <-]; exact H1].
  match goal with
  | |- context [PackageFinder._get_pages E fuel ?ls ?seen req s1 ?acc] =>
      pose proof (get_pages_allowed fuel ls seen req s1 acc) as H2;
      destruct (PackageFinder._get_pages E fuel ls seen req s1 acc)
        as [[[pv|e] s2]|]
  end; [| |discriminate].
  2:{ intros [= <- <- <-]. eauto using same_allowed_trans. }
  specialize (H2 _ _ eq_refl).
  match goal with
  | |- context [_package_versions E ?ls ?n s2] =>
      pose proof (package_versions_allowed ls n s2) as H3;
      destruct (_package_versions E ls n s2) as [[dv|e] s3]
  end; cbn [snd] in H3;
    [|intros [= <- <- <-]; eauto using same_allowed_trans].
  match goal with
  | |- context [_package_versions E ?ls ?n s3] =>
      pose proof (package_versions_allowed ls n s3) as H4;
      destruct (_package_versions E ls n s3) as [[flv|e] s4]
  end; cbn [snd] in H4;
    intros [= <- <- <-]; eauto using same_allowed_trans.
Qed.

Lemma find_requirement_allowed fuel self req upgrade r lg self' :
  PackageFinder.find_requirement E fuel self req upgrade = Some (r, lg, self') ->
  same_allowed self self'.
Proof.
  unfold PackageFinder.find_requirement.
  destruct (PackageFinder.gather E fuel self req) as [[[[p|e] lg0] s1]|] eqn:Hg;
    [| |discriminate].
  - destruct (PackageFinder.select E s1 req upgrade p).
    intros [= <- <- <-]. exact (gather_allowed _ _ _ _ _ _ Hg).
  - intros [= <- <- <-]. exact (gather_allowed _ _ _ _ _ _ Hg).
Qed.

Lemma add_dependency_links_allowed self new_links :
  same_allowed self (PackageFinder.add_dependency_links self new_links).
Proof.
  unfold PackageFinder.add_dependency_links.
  destruct (process_dependency_links self); split; reflexivity.
Qed.

Lemma init_allowed fl iu uw ae au aae aap pdl s f :
  PackageFinder.__init__ fl iu uw ae au aae aap pdl s E = Ok f ->
  allow_unverified f ⊆ allow_external f.
Proof.
  unfold PackageFinder.__init__. destruct s; [|discriminate].
  intros [= <-]. cbn. apply union_subseteq_r.
Qed.

(** C10. In a finder built by the constructor, and in every finder
    that the operations make of it, each name of [allow_unverified] is a
    name of [allow_external]; so a search name allowed unverified is
    never stopped by the external-hosting check of the link filter. *)
Theorem unverified_allowed_external (f : PackageFinder) :
  reachable E f ->
  allow_unverified f ⊆ allow_external f
  /\ forall (l : Link) (search_name : string),
       Py.lower (normalize_name E search_name) ∈ allow_unverified f ->
       external_guard E l search_name f = false.
Proof.
  intros Hr.
  assert (Hsub : allow_unverified f ⊆ allow_external f).
  { induction Hr as [fl iu uw ae au aae aap pdl s f Hi
                    | f nl _ IH | f f' l n r _ IH Hf
                    | f f' fuel req up r lg _ IH Hf].
    - exact (init_allowed _ _ _ _ _ _ _ _ _ _ Hi).
    - destruct (add_dependency_links_allowed f nl) as [<- <-]. exact IH.
    - pose proof (link_package_versions_allowed l n f f) as Ha.
      rewrite Hf in Ha. cbn [snd] in Ha. destruct Ha as [<- <-]. exact IH.
    - destruct (find_requirement_allowed _ _ _ _ _ _ _ Hf) as [<- <-].
      exact IH. }
  split; [exact Hsub|]. intros l n Hin. unfold external_guard.
  rewrite bool_decide_eq_true_2 by set_solver.
  cbn. now rewrite andb_false_r.
Qed.

End Allowed.

Lemma unverified_allowed_external_witness :
  let f := PackageFinder.add_dependency_links
             {| find_links := []; index_urls := []; dependency_links := [];
                logged_links := ∅; use_wheel := true;
                allow_external := list_to_set (map (normalize_name Demo.platform) [])
                                  ∪ list_to_set (map (normalize_name Demo.platform) ["Foo"]);
                allow_unverified := list_to_set (map (normalize_name Demo.platform) ["Foo"]);
                allow_all_external := false;
                need_warn_external := false; need_warn_unverified := false;
                allow_all_prereleases := false;
                process_dependency_links := true;
                session := Demo.offline |}
             ["https://h/foo-2.0.tar.gz"] in
  allow_unverified f ⊆ allow_external f
  /\ forall (l : Link) (search_name : string),
       Py.lower (normalize_name Demo.platform search_name) ∈ allow_unverified f ->
       external_guard Demo.platform l search_name f = false.
Proof.
  intros f.
  apply (unverified_allowed_external Demo.platform f).
  apply reach_add_dependency_links.
  apply (reach_init Demo.platform [] [] true [] ["Foo"] false false true
           (Some Demo.offline)).
  reflexivity.
Defined.

(** The comparison of the concrete platform obeys the laws that the
    ordering lemmas assume. *)
Lemma demo_comparison_laws : comparison_laws Demo.platform.
Proof.
  split; cbn.
  - intros a b. apply String.compare_antisym.
  - intros a b c H. apply String.compare_eq_iff in H. now subst.
Qed.

(** ** What discovery can raise, and the fuel of the page walk *)

Section Discovery.
Context (E : Platform).

Lemma link_package_versions_raises l n config state e :
  fst (_link_package_versions E l n config state) = Raise e ->
  e = AttributeError.
Proof.
  unfold _link_package_versions.
  destruct (version_stage E l n config state) as [[v| |e'] st] eqn:Hv;
    cbn [fst]; try discriminate.
  - unfold hosting_stage.
    destruct (external_guard E l n config); [discriminate|].
    destruct (unverifiable_guard E l n config); discriminate.
  - intros [= <-]. revert Hv. unfold version_stage.
    destruct (Py.truthy_opt (egg_fragment l)).
    + destruct (egg_fragment l); [|discriminate].
      destruct (negb _); [destruct (_egg_info_matches _ _ _)|]; discriminate.
    + destruct (splitext l) as [egg_info e0].
      destruct (negb (Py.truthy e0)); [discriminate|].
      destruct (Py.endswith ".tar" egg_info).
      all: destruct (negb (str_in _ _)); [discriminate|].
      all: destruct (_ && _); [discriminate|].
      all: destruct (String.eqb _ wheel_ext).
      all: try (cbn; destruct (_egg_info_matches _ _ _); discriminate).
      all: unfold wheel_version_stage;
        destruct (Wheel_parse E (filename l)) as [w|]; [|discriminate];
        destruct (negb (String.eqb _ _)); [discriminate|];
        destruct (negb (WheelM.supported w (supported_tags E)));
          [discriminate|];
        unfold pypi_binary_guard;
        destruct (_ && negb (String.eqb (get_platform E) "cli")).
      all: try (destruct (comes_from l) as [[u|u]|]).
      all: try (intros [= <-]; reflexivity).
      all: repeat match goal with
             | |- context [if ?b then _ else _] => destruct b
             | |- context [match _egg_info_matches ?a ?b ?c with _ => _ end] =>
                 destruct (_egg_info_matches a b c)
             end; try discriminate.
Qed.

Lemma package_versions_loop_raises ls n self acc e :
  fst (package_versions_loop E ls n self acc) = Raise e -> e = AttributeError.
Proof.
  revert self acc. induction ls as [|l r IH]; intros self acc; cbn;
    [discriminate|].
  pose proof (link_package_versions_raises l n self self) as H.
  destruct (_link_package_versions E l n self self) as [[vs|e'] self'];
    cbn [fst] in *; [apply IH|].
  intros [= <-]. now apply H.
Qed.

Lemma package_versions_raises ls n self e :
  fst (_package_versions E ls n self) = Raise e -> e = AttributeError.
Proof. apply package_versions_loop_raises. Qed.

Lemma get_pages_raises fuel locs seen req self acc e self' :
  PackageFinder._get_pages E fuel locs seen req self acc = Some (Raise e, self') ->
  e = AttributeError.
Proof.
  revert locs seen self acc.
  induction fuel as [|fuel IH]; intros locs seen self acc;
    destruct locs as [|location locs]; cbn; try discriminate.
  destruct (bool_decide _); [apply IH|].
  destruct (PackageFinder._get_page self location) as [page|]; [|apply IH].
  pose proof (package_versions_raises (links page)
                (Py.lower (req_name req)) self) as H1.
  destruct (_package_versions E (links page) (Py.lower (req_name req)) self)
    as [[vs|e'] self1]; cbn [fst] in H1.
  - destruct (PackageFinder.rel_links_loop E (rel_links page) req self1 []).
    apply IH.
  - intros [= <- <-]. now apply H1.
Qed.

Lemma map_result_raises {A B : Type} (f : A -> result B) (l : list A) e :
  PackageFinder.map_result f l = Raise e -> exists a, f a = Raise e.
Proof.
  induction l as [|a r IH]; cbn; [discriminate|].
  destruct (f a) eqn:Ha; [|intros [= <-]; eauto].
  destruct (PackageFinder.map_result f r); [discriminate|].
  intros [= <-]. now apply IH.
Qed.

Lemma mkurl_raises n u e :
  PackageFinder.mkurl_pypi_url n u = Raise e -> e = TypeError.
Proof.
  unfold PackageFinder.mkurl_pypi_url. destruct n; [discriminate|].
  now intros [= <-].
Qed.

Lemma search_locations_raises self req e :
  fst (PackageFinder.search_locations E self req) = Raise e -> e = TypeError.
Proof.
  unfold PackageFinder.search_locations.
  set (main := match index_urls self with [] => _ | _ :: _ => _ end).
  assert (Hmain : forall e', fst main = Raise e' -> e' = TypeError).
  { subst main. destruct (index_urls self) as [|first rest]; [discriminate|].
    destruct (PackageFinder.mkurl_pypi_url (url_name req) first) eqn:Hm;
      [|cbn; intros e' [= <-]; exact (mkurl_raises _ _ _ Hm)].
    destruct (PackageFinder._get_page self _); [discriminate|].
    unfold PackageFinder._find_url_name.
    destruct (PackageFinder._get_page self _); [|discriminate].
    destruct (url_name req); [discriminate|].
    cbn. now intros e' [= <-]. }
  destruct main as [[[m un]|e'] lg]; cbn [fst] in *.
  - destruct un as [n|].
    + destruct (PackageFinder.map_result _ (index_urls self)) eqn:Hr;
        [discriminate|].
      cbn. intros [= <-]. apply map_result_raises in Hr as [a Ha].
      exact (mkurl_raises _ _ _ Ha).
    + discriminate.
  - intros [= <-]. now apply Hmain.
Qed.

(** Discovery raises nothing but [TypeError] and [AttributeError]. *)
Lemma gather_raises fuel self req e lg self' :
  PackageFinder.gather E fuel self req = Some (Raise e, lg, self') ->
  e = TypeError \/ e = AttributeError.
Proof.
  unfold PackageFinder.gather.
  pose proof (search_locations_raises self req) as H0.
  destruct (PackageFinder.search_locations E self req) as [[locations|e0] lg0];
    cbn [fst] in H0; [|intros [= <- <- <-]; left; now apply H0].
  destruct (PackageFinder._sort_locations E self locations) as [fl ul].
  destruct (PackageFinder._sort_locations E self (dependency_links self))
    as [fl' ul'].
  unfold FindLinksFinder.found.
  match goal with
  | |- context [_package_versions E ?ls ?n self] =>
      pose proof (package_versions_raises ls n self) as H1;
      destruct (_package_versions E ls n self) as [[fv|e1] s1]
  end; cbn [fst] in H1; [|intros [= <- <- <-]; right; now apply H1].
  match goal with
  | |- context [PackageFinder._get_pages E fuel ?ls ?seen req s1 ?acc] =>
      pose proof (get_pages_raises fuel ls seen req s1 acc) as H2;
      destruct (PackageFinder._get_pages E fuel ls seen req s1 acc)
        as [[[pv|e2] s2]|]
  end; [| |discriminate].
  2:{ intros [= <- <- <-]. right. now apply (H2 e2 s2). }
  match goal with
  | |- context [_package_versions E ?ls ?n s2] =>
      pose proof (package_versions_raises ls n s2) as H3;
      destruct (_package_versions E ls n s2) as [[dv|e3] s3]
  end; cbn [fst] in H3; [|intros [= <- <- <-]; right; now apply H3].
  match goal with
  | |- context [_package_versions E ?ls ?n s3] =>
      pose proof (package_versions_raises ls n s3) as H4;
      destruct (_package_versions E ls n s3) as [[flv|e4] s4]
  end; cbn [fst] in H4; [discriminate|].
  intros [= <- <- <-]. right. now apply H4.
Qed.

(** Whenever [find_requirement] ends with the no-downloads error,
    discovery has completed and left the four pools empty. *)
Lemma no_downloads_only_from_empty_pools fuel self req upgrade lg self' :
  PackageFinder.find_requirement E fuel self req upgrade
    = Some (Raise (DistributionNotFound (PackageFinder.no_downloads_msg req)),
            lg, self') ->
  exists p lg0,
    PackageFinder.gather E fuel self req = Some (Ok p, lg0, self')
    /\ no_downloads p = true.
Proof.
  unfold PackageFinder.find_requirement.
  destruct (PackageFinder.gather E fuel self req)
    as [[[[p|e] lg0] s1]|] eqn:Hg; [| |discriminate].
  - destruct (PackageFinder.select E s1 req upgrade p) as [r lg'] eqn:Hsel.
    intros [= -> <- <-]. exists p, lg0. split; [reflexivity|].
    destruct (no_downloads p) eqn:Hp; [reflexivity|].
    pose proof (select_not_no_downloads E s1 req upgrade p Hp) as Hn.
    rewrite Hsel in Hn. now destruct Hn.
  - intros [= -> <- <-]. apply gather_raises in Hg.
    destruct Hg; discriminate.
Qed.

(** More fuel does not change the outcome of the page walk. *)
Lemma get_pages_more_fuel fuel fuel' locs seen req self acc r :
  PackageFinder._get_pages E fuel locs seen req self acc = Some r ->
  fuel <= fuel' ->
  PackageFinder._get_pages E fuel' locs seen req self acc = Some r.
Proof.
  revert fuel' locs seen self acc.
  induction fuel as [|fuel IH]; intros fuel' locs seen self acc H Hle;
    destruct locs as [|location locs]; cbn in H.
  - destruct fuel'; exact H.
  - discriminate.
  - destruct fuel'; exact H.
  - destruct fuel' as [|fuel']; [lia|]. cbn.
    assert (Hle' : fuel <= fuel') by lia.
    destruct (bool_decide _); [now apply IH|].
    destruct (PackageFinder._get_page self location) as [page|];
      [|now apply IH].
    destruct (_package_versions E (links page) (Py.lower (req_name req)) self)
      as [[vs|e'] self1]; [|exact H].
    destruct (PackageFinder.rel_links_loop E (rel_links page) req self1 []).
    now apply IH.
Qed.

Lemma find_requirement_more_fuel fuel fuel' self req upgrade r :
  PackageFinder.find_requirement E fuel self req upgrade = Some r ->
  fuel <= fuel' ->
  PackageFinder.find_requirement E fuel' self req upgrade = Some r.
Proof.
  unfold PackageFinder.find_requirement, PackageFinder.gather.
  intros H Hle.
  destruct (PackageFinder.search_locations E self req) as [[locations|e0] lg0];
    [|exact H].
  destruct (PackageFinder._sort_locations E self locations) as [fl ul].
  destruct (PackageFinder._sort_locations E self (dependency_links self))
    as [fl' ul'].
  destruct (FindLinksFinder.found E req self) as [[fv|e1] s1]; [|exact H].
  match goal with
  | |- context [PackageFinder._get_pages E fuel' ?ls ?seen req s1 ?acc] =>
      destruct (PackageFinder._get_pages E fuel ls seen req s1 acc)
        as [w|] eqn:Hw; [|discriminate];
      rewrite (get_pages_more_fuel _ _ _ _ _ _ _ _ Hw Hle)
  end.
  exact H.
Qed.

(** When the session fetches no page, the walk ends within as many steps
    as there are locations. *)
Lemma get_pages_offline locs seen req self acc :
  (forall l, PackageFinder._get_page self l = None) ->
  PackageFinder._get_pages E (length locs) locs seen req self acc
  = Some (Ok acc, self).
Proof.
  intros Hoff. revert seen.
  induction locs as [|location locs IH]; intros seen; cbn; [reflexivity|].
  rewrite Hoff. destruct (bool_decide _); apply IH.
Qed.

End Discovery.

(** An installed candidate whose version satisfies the specifier is
    kept, pre-release or not. *)
Lemma installed_satisfying_kept (E : Platform) (self : PackageFinder)
    (req : Requirement) (found : FoundVersion) :
  FoundVersion.currently_installed found = true ->
  req_contains req (version found) = true ->
  dropped E self req found = false.
Proof.
  intros Hi Hc. unfold dropped. rewrite Hi, Hc. cbn.
  now rewrite andb_false_r.
Qed.

(** * Further properties of the code *)

(** ** More on [clean_link] *)

Lemma string_forall_app (p : ascii -> bool) (a b : string) :
  string_forall p (a +:+ b) = string_forall p a && string_forall p b.
Proof.
  induction a as [|c a IH]; [reflexivity|].
  rewrite append_cons. cbn [string_forall]. now rewrite IH, andb_assoc.
Qed.

Lemma append_assoc_str (a b c : string) : (a +:+ b) +:+ c = a +:+ (b +:+ c).
Proof.
  induction a as [|x a IH]; [reflexivity|].
  rewrite !append_cons. now rewrite IH.
Qed.

(** [clean_link] works character by character: the cleaning of a
    concatenation is the concatenation of the cleanings. *)
Theorem clean_link_app (a b : string) :
  HTMLPage.clean_link (a +:+ b)
  = HTMLPage.clean_link a +:+ HTMLPage.clean_link b.
Proof.
  induction a as [|c a IH]; [reflexivity|].
  rewrite append_cons. cbn [HTMLPage.clean_link].
  destruct (HTMLPage.safe_char c).
  - now rewrite append_cons, IH.
  - now rewrite IH, append_assoc_str.
Qed.

(** A url made of characters outside the class of [_clean_re] is left
    as it is; in particular percent escapes that are already there are
    not quoted again. *)
Theorem clean_link_safe_unchanged (u : string) :
  string_forall HTMLPage.safe_char u = true -> HTMLPage.clean_link u = u.
Proof.
  induction u as [|c r IH]; [reflexivity|].
  cbn [string_forall HTMLPage.clean_link]. intros H.
  apply andb_prop in H as [Hc Hr]. now rewrite Hc, (IH Hr).
Qed.

Lemma clean_link_safe_unchanged_witness :
  HTMLPage.clean_link "https://h/a%20b/foo-1.0.tar.gz#md5=0f"
  = "https://h/a%20b/foo-1.0.tar.gz#md5=0f".
Proof. apply clean_link_safe_unchanged. reflexivity. Defined.

(** When no character of the url has a code below 16, the result
    consists of characters outside the class of [_clean_re] only: the
    link comes out fully encoded. *)
Theorem clean_link_fully_encoded (u : string) :
  codes_from_16 u = true ->
  string_forall HTMLPage.safe_char (HTMLPage.clean_link u) = true.
Proof.
  induction u as [|c r IH]; [reflexivity|].
  cbn [codes_from_16 HTMLPage.clean_link]. intros H.
  apply andb_prop in H as [Hc Hr]. apply N.leb_le in Hc.
  destruct (HTMLPage.safe_char c) eqn:Hs.
  - cbn [string_forall]. now rewrite Hs, (IH Hr).
  - unfold HTMLPage.quote_char, Py.format_2x.
    destruct (Py.code c <? 16)%N eqn:Hlt; [apply N.ltb_lt in Hlt; lia|].
    rewrite !append_cons, append_empty. cbn [string_forall].
    assert (Hhi : (Py.code c / 16 < 16)%N).
    { apply N.Div0.div_lt_upper_bound. pose proof (code_below_256 c). lia. }
    assert (Hlo : (Py.code c mod 16 < 16)%N) by (apply N.mod_lt; lia).
    rewrite (hexdigit_safe _ Hhi), (hexdigit_safe _ Hlo), (IH Hr).
    reflexivity.
Qed.

Lemma clean_link_fully_encoded_witness :
  string_forall HTMLPage.safe_char
    (HTMLPage.clean_link "https://h/my file<1>.zip") = true.
Proof. apply clean_link_fully_encoded. reflexivity. Defined.

(** The characters below code 16 are the only obstacle: such a
    character is rewritten to a percent sign, a space and the one
    lower-case hexadecimal digit of its code (the character at that
    index of [0123456789abcdef]), so the result is not fully encoded. *)
Theorem clean_link_low_code_leaves_space (c : ascii) (r : string) :
  (Py.code c < 16)%N ->
  HTMLPage.clean_link (String c r)
  = String "%" (String " " (String (Py.hexdigit (Py.code c))
                              (HTMLPage.clean_link r)))
  /\ String.get (N.to_nat (Py.code c)) "0123456789abcdef"
     = Some (Py.hexdigit (Py.code c))
  /\ string_forall HTMLPage.safe_char (HTMLPage.clean_link (String c r)) = false.
Proof.
  intros H.
  assert (Hs : HTMLPage.safe_char c = false).
  { unfold Py.code in H.
    destruct c as [[] [] [] [] [] [] [] []]; cbn in H; try lia; reflexivity. }
  assert (Hd : String.get (N.to_nat (Py.code c)) "0123456789abcdef"
               = Some (Py.hexdigit (Py.code c))).
  { unfold Py.code in *.
    destruct c as [[] [] [] [] [] [] [] []]; cbn in H; try lia; reflexivity. }
  cbn [HTMLPage.clean_link]. rewrite Hs.
  unfold HTMLPage.quote_char, Py.format_2x.
  apply N.ltb_lt in H. rewrite H. rewrite !append_cons, append_empty.
  split; [reflexivity|]. split; [exact Hd|reflexivity].
Qed.

Lemma clean_link_low_code_leaves_space_witness :
  HTMLPage.clean_link (String (ascii_of_N 10) "x")
  = String "%" (String " " (String "a" (HTMLPage.clean_link "x")))
  /\ String.get 10 "0123456789abcdef" = Some "a"%char
  /\ string_forall HTMLPage.safe_char
       (HTMLPage.clean_link (String (ascii_of_N 10) "x")) = false.
Proof.
  apply (clean_link_low_code_leaves_space (ascii_of_N 10) "x"). reflexivity.
Defined.

(** ** [_sort_links] *)

Lemma perm_in_iff {A : Type} (x : A) (a b : list A) :
  Permutation a b -> (In x a <-> In x b).
Proof.
  intros H. split; [apply Permutation_in, H|apply Permutation_in; now symmetry].
Qed.

Section SortLinks.

(** What the loop maintains: the urls of the links kept so far are
    exactly the urls seen, without repetition; kept links come from the
    input; the first list has no egg fragment and the second has one. *)
Lemma sort_links_loop_spec (links : list Link) (seen : gset string)
    (eggs no_eggs : list Link) :
  (forall u, u ∈ seen <-> In u (map url (no_eggs ++ eggs))) ->
  List.NoDup (map url (no_eggs ++ eggs)) ->
  Forall (fun l => egg l = false) no_eggs ->
  Forall (fun l => egg l = true) eggs ->
  exists no_eggs' eggs',
    sort_links_loop links seen eggs no_eggs = no_eggs' ++ eggs'
    /\ List.NoDup (map url (no_eggs' ++ eggs'))
    /\ Forall (fun l => egg l = false) no_eggs'
    /\ Forall (fun l => egg l = true) eggs'
    /\ (forall l, In l (no_eggs' ++ eggs') ->
                  In l (no_eggs ++ eggs) \/ In l links)
    /\ (forall u, In u (map url (no_eggs' ++ eggs'))
                  <-> In u (map url (no_eggs ++ eggs)) \/ In u (map url links)).
Proof.
  revert seen eggs no_eggs.
  induction links as [|l r IH]; intros seen eggs no_eggs Hseen Hnd Hn He;
    cbn [sort_links_loop].
  - exists no_eggs, eggs. repeat split; auto; cbn; tauto.
  - destruct (bool_decide (url l ∈ seen)) eqn:Hin.
    + apply bool_decide_eq_true in Hin.
      destruct (IH seen eggs no_eggs Hseen Hnd Hn He)
        as (n' & e' & -> & Hnd' & Hn' & He' & Hsub & Hurls).
      exists n', e'. repeat split; auto.
      * intros x Hx. destruct (Hsub x Hx); cbn; auto.
      * intros Hu. apply Hurls in Hu. cbn. tauto.
      * intros [Hu|[<-|Hu]]; apply Hurls; auto.
        left. now apply Hseen.
    + apply bool_decide_eq_false in Hin.
      assert (Hfresh : ~ In (url l) (map url (no_eggs ++ eggs)))
        by (intros H; apply Hin, Hseen, H).
      fold (egg l). destruct (egg l) eqn:Hegg.
      * assert (Hperm : Permutation (no_eggs ++ eggs ++ [l])
                          (l :: no_eggs ++ eggs)).
        { rewrite app_assoc. symmetry. apply Permutation_cons_append. }
        destruct (IH ({[url l]} ∪ seen) (eggs ++ [l]) no_eggs)
          as (n' & e' & -> & Hnd' & Hn' & He' & Hsub & Hurls).
        { intros u. rewrite (perm_in_iff u _ _ (Permutation_map url Hperm)).
          cbn. rewrite elem_of_union, elem_of_singleton, Hseen. intuition. }
        { apply (Permutation_NoDup (Permutation_map url (Permutation_sym Hperm))).
          cbn. now constructor. }
        { exact Hn. }
        { apply Forall_app. split; [exact He|]. now constructor. }
        exists n', e'. repeat split; auto.
        -- intros x Hx. destruct (Hsub x Hx) as [H|H]; [|cbn; auto].
           apply (Permutation_in _ Hperm) in H. cbn in *. tauto.
        -- intros Hu. apply Hurls in Hu. destruct Hu as [Hu|Hu]; [|cbn; tauto].
           apply (Permutation_in _ (Permutation_map url Hperm)) in Hu.
           cbn in *. tauto.
        -- intros Hu. apply Hurls.
           rewrite (perm_in_iff u _ _ (Permutation_map url Hperm)).
           cbn in *. tauto.
      * assert (Hperm : Permutation ((no_eggs ++ [l]) ++ eggs)
                          (l :: no_eggs ++ eggs)).
        { rewrite <- app_assoc. cbn. symmetry. apply Permutation_middle. }
        destruct (IH ({[url l]} ∪ seen) eggs (no_eggs ++ [l]))
          as (n' & e' & -> & Hnd' & Hn' & He' & Hsub & Hurls).
        { intros u. rewrite (perm_in_iff u _ _ (Permutation_map url Hperm)).
          cbn. rewrite elem_of_union, elem_of_singleton, Hseen. intuition. }
        { apply (Permutation_NoDup (Permutation_map url (Permutation_sym Hperm))).
          cbn. now constructor. }
        { apply Forall_app. split; [exact Hn|]. now constructor. }
        { exact He. }
        exists n', e'. repeat split; auto.
        -- intros x Hx. destruct (Hsub x Hx) as [H|H]; [|cbn; auto].
           apply (Permutation_in _ Hperm) in H. cbn in *. tauto.
        -- intros Hu. apply Hurls in Hu. destruct Hu as [Hu|Hu]; [|cbn; tauto].
           apply (Permutation_in _ (Permutation_map url Hperm)) in Hu.
           cbn in *. tauto.
        -- intros Hu. apply Hurls.
           rewrite (perm_in_iff u _ _ (Permutation_map url Hperm)).
           cbn in *. tauto.
Qed.

End SortLinks.

Lemma sort_links_spec (ls : list Link) :
  exists no_eggs eggs,
    _sort_links ls = no_eggs ++ eggs
    /\ List.NoDup (map url (no_eggs ++ eggs))
    /\ Forall (fun l => egg l = false) no_eggs
    /\ Forall (fun l => egg l = true) eggs
    /\ (forall l, In l (no_eggs ++ eggs) -> In l ls)
    /\ (forall u, In u (map url (no_eggs ++ eggs)) <-> In u (map url ls)).
Proof.
  destruct (sort_links_loop_spec ls ∅ [] [])
    as (n & e & Heq & Hnd & Hn & He & Hsub & Hurls).
  - intros u. cbn. split; [intros H; now apply not_elem_of_empty in H|tauto].
  - constructor.
  - constructor.
  - constructor.
  - exists n, e. repeat split; auto.
    + intros l Hl. destruct (Hsub l Hl) as [[]|H]; exact H.
    + intros H. apply Hurls in H as [[]|H]; exact H.
    + intros H. apply Hurls. now right.
Qed.

(** [_sort_links] returns no two links with the same url. *)
Theorem sort_links_distinct_urls (ls : list Link) :
  List.NoDup (map url (_sort_links ls)).
Proof.
  destruct (sort_links_spec ls) as (n & e & -> & Hnd & _). exact Hnd.
Qed.

(** [_sort_links] returns links of its input only, and every url of the
    input is the url of a link it returns. *)
Theorem sort_links_same_urls (ls : list Link) :
  (forall l, In l (_sort_links ls) -> In l ls)
  /\ (forall u, In u (map url (_sort_links ls)) <-> In u (map url ls)).
Proof.
  destruct (sort_links_spec ls) as (n & e & -> & _ & _ & _ & Hsub & Hurls).
  split; assumption.
Qed.

(** [_sort_links] returns the links without egg fragment first and the
    links with an egg fragment after them. *)
Theorem sort_links_eggs_last (ls : list Link) :
  exists no_eggs eggs,
    _sort_links ls = no_eggs ++ eggs
    /\ Forall (fun l => egg l = false) no_eggs
    /\ Forall (fun l => egg l = true) eggs.
Proof.
  destruct (sort_links_spec ls) as (n & e & Heq & _ & Hn & He & _).
  eauto.
Qed.

(** ** [_egg_info_matches] *)

Lemma span_forall (p : ascii -> bool) (s : string) :
  string_forall p (fst (span p s)) = true.
Proof.
  induction s as [|c r IH]; [reflexivity|]. cbn [span].
  destruct (p c) eqn:Hc; [|reflexivity].
  destruct (span p r) as [a b]. cbn in *. now rewrite Hc.
Qed.

Lemma span_stop (p : ascii -> bool) (a : string) (c : ascii) (r : string) :
  string_forall p a = true -> p c = false ->
  span p (a +:+ String c r) = (a, String c r).
Proof.
  intros Ha Hc. induction a as [|x a IH].
  - rewrite append_empty. cbn [span]. now rewrite Hc.
  - cbn [string_forall] in Ha. apply andb_prop in Ha as [Hx Ha].
    rewrite append_cons. cbn [span]. now rewrite Hx, (IH Ha).
Qed.

Lemma span_all (p : ascii -> bool) (a : string) :
  string_forall p a = true -> span p a = (a, EmptyString).
Proof.
  induction a as [|x a IH]; [reflexivity|]. cbn [string_forall span].
  intros H. apply andb_prop in H as [Hx Ha]. now rewrite Hx, (IH Ha).
Qed.

Lemma string_forall_impl (p q : ascii -> bool) (s : string) :
  (forall c, p c = true -> q c = true) ->
  string_forall p s = true -> string_forall q s = true.
Proof.
  intros Hpq. induction s as [|c r IH]; [reflexivity|]. cbn.
  intros H. apply andb_prop in H as [Hc Hr]. now rewrite (Hpq _ Hc), (IH Hr).
Qed.

Lemma string_forall_drop (p : ascii -> bool) (n : nat) (s : string) :
  string_forall p s = true -> string_forall p (Py.drop n s) = true.
Proof.
  revert s. induction n as [|n IH]; intros s; [now destruct s|].
  destruct s as [|c r]; [reflexivity|]. cbn.
  intros H. apply andb_prop in H as [_ Hr]. now apply IH.
Qed.

Lemma egg_info_match_here_chars (s m : string) :
  egg_info_match_here s = Some m ->
  string_forall egg_version_char m = true.
Proof.
  unfold egg_info_match_here.
  pose proof (span_forall egg_name_char s) as Hn.
  destruct (span egg_name_char s) as [n rest]. cbn [fst] in Hn.
  destruct rest as [|dash rest']; [discriminate|].
  destruct (Py.truthy n && Ascii.eqb dash "-"); [|discriminate].
  pose proof (span_forall egg_version_char rest') as Hv.
  destruct (span egg_version_char rest') as [[|c v] b]; [discriminate|].
  cbn [fst] in Hv. intros [= <-].
  rewrite string_forall_app. apply andb_true_intro. split.
  - apply (string_forall_impl egg_name_char); [|exact Hn].
    intros x Hx. unfold egg_version_char. now rewrite Hx.
  - change ("-" +:+ String c v) with (String "-" (String c v)).
    cbn [string_forall] in *. now rewrite Hv.
Qed.

Lemma egg_info_re_search_chars (s m : string) :
  _egg_info_re_search s = Some m ->
  string_forall egg_version_char m = true.
Proof.
  induction s as [|c r IH]; cbn [_egg_info_re_search].
  - destruct (egg_info_match_here EmptyString) eqn:H; [|discriminate].
    intros [= <-]. exact (egg_info_match_here_chars _ _ H).
  - destruct (egg_info_match_here (String c r)) eqn:H; [|exact IH].
    intros [= <-]. exact (egg_info_match_here_chars _ _ H).
Qed.

(** The version that [_egg_info_matches] returns is made of letters,
    digits, underscores, dots and dashes only, whatever the egg info. *)
Theorem egg_info_version_chars (egg_info search_name : string) (l : Link)
    (v : string) :
  _egg_info_matches egg_info search_name l = Some v ->
  string_forall egg_version_char v = true.
Proof.
  unfold _egg_info_matches.
  destruct (_egg_info_re_search egg_info) as [g|] eqn:Hg; [|discriminate].
  destruct (Py.startswith _ _); [|discriminate]. intros [= <-].
  apply string_forall_drop. exact (egg_info_re_search_chars _ _ Hg).
Qed.

Lemma egg_info_version_chars_witness :
  string_forall egg_version_char "1.0-py2.7" = true.
Proof.
  exact (egg_info_version_chars "see Foo_Bar-1.0-py2.7 (new)" "foo-bar"
           (Demo.link_of "x") "1.0-py2.7" eq_refl).
Defined.

Lemma lower_app (a b : string) : Py.lower (a +:+ b) = Py.lower a +:+ Py.lower b.
Proof.
  induction a as [|c a IH]; [reflexivity|].
  rewrite append_cons. cbn [Py.lower]. now rewrite IH.
Qed.

Lemma replace_char_app (x y : ascii) (a b : string) :
  Py.replace_char x y (a +:+ b)
  = Py.replace_char x y a +:+ Py.replace_char x y b.
Proof.
  induction a as [|c a IH]; [reflexivity|].
  rewrite append_cons. cbn [Py.replace_char]. now rewrite IH.
Qed.

Lemma lower_char_underscore (c : ascii) :
  Ascii.eqb (Py.lower_char c) "_" = Ascii.eqb c "_".
Proof. destruct c as [[] [] [] [] [] [] [] []]; reflexivity. Qed.

Lemma has_char_lower_underscore (s : string) :
  has_char "_" (Py.lower s) = has_char "_" s.
Proof.
  induction s as [|c r IH]; [reflexivity|]. cbn.
  now rewrite lower_char_underscore, IH.
Qed.

Lemma replace_no_underscore (s : string) :
  has_char "_" s = false -> Py.replace_char "_" "-" s = s.
Proof.
  induction s as [|c r IH]; [reflexivity|]. cbn.
  intros H. apply orb_false_elim in H as [Hc Hr]. now rewrite Hc, (IH Hr).
Qed.

Lemma has_char_replaced (s : string) :
  has_char "_" (Py.replace_char "_" "-" s) = false.
Proof.
  induction s as [|c r IH]; [reflexivity|]. cbn.
  destruct (Ascii.eqb c "_") eqn:Hc; cbn; [exact IH|]. now rewrite Hc.
Qed.

Lemma prefix_append (a b : string) : String.prefix a (a +:+ b) = true.
Proof.
  induction a as [|c a IH]; [now destruct b|].
  rewrite append_cons. cbn. destruct (ascii_dec c c); [exact IH|congruence].
Qed.

Lemma prefix_has_char (c : ascii) (p s : string) :
  String.prefix p s = true -> has_char c p = true -> has_char c s = true.
Proof.
  revert s. induction p as [|x p IH]; intros s; [discriminate 2|].
  destruct s as [|y s]; [discriminate|]. cbn.
  destruct (ascii_dec x y) as [<-|]; [|discriminate].
  intros Hp Hc. apply orb_prop in Hc as [Hc|Hc].
  - now rewrite Hc.
  - rewrite (IH _ Hp Hc). apply orb_true_r.
Qed.

Lemma has_char_app (c : ascii) (a b : string) :
  has_char c (a +:+ b) = has_char c a || has_char c b.
Proof.
  induction a as [|x a IH]; [reflexivity|].
  rewrite append_cons. cbn. now rewrite IH, orb_assoc.
Qed.

Lemma length_lower (s : string) : String.length (Py.lower s) = String.length s.
Proof. induction s as [|c r IH]; [reflexivity|]. cbn. now rewrite IH. Qed.

Lemma length_app_str (a b : string) :
  String.length (a +:+ b) = (String.length a + String.length b)%nat.
Proof.
  induction a as [|c a IH]; [reflexivity|].
  rewrite append_cons. cbn. now rewrite IH.
Qed.

Lemma drop_length_app (a b : string) : Py.drop (String.length a) (a +:+ b) = b.
Proof.
  induction a as [|c a IH]; [now destruct b|].
  rewrite append_cons. cbn. exact IH.
Qed.

(** A search name that contains an underscore matches no egg info: the
    name taken from the egg info has its underscores turned into
    dashes, the search name has not. *)
Theorem egg_info_underscore_name_never_matches
    (egg_info search_name : string) (l : Link) :
  has_char "_" search_name = true ->
  _egg_info_matches egg_info search_name l = None.
Proof.
  intros Hu. unfold _egg_info_matches.
  destruct (_egg_info_re_search egg_info) as [g|]; [|reflexivity].
  destruct (Py.startswith _ _) eqn:Hp; [|reflexivity].
  unfold Py.startswith in Hp.
  apply (prefix_has_char "_") in Hp.
  - now rewrite has_char_replaced in Hp.
  - now rewrite has_char_app, has_char_lower_underscore, Hu.
Qed.

Lemma egg_info_underscore_name_never_matches_witness :
  _egg_info_matches "foo_bar-1.0" "foo_bar" (Demo.link_of "x") = None.
Proof.
  apply egg_info_underscore_name_never_matches. reflexivity.
Defined.

(** The canonical sdist name: for a project name of letters, digits and
    dots and a non-empty version of version characters, the egg info
    [name-version] gives back the version when searched by that name,
    in any letter case. *)
Theorem egg_info_matches_name_dash_version (name version : string) (l : Link) :
  Py.truthy name = true ->
  string_forall egg_name_char name = true ->
  has_char "_" name = false ->
  Py.truthy version = true ->
  string_forall egg_version_char version = true ->
  _egg_info_matches (name +:+ "-" +:+ version) name l = Some version.
Proof.
  intros Hn Hnc Hnu Hv Hvc.
  assert (Hm : egg_info_match_here (name +:+ "-" +:+ version)
               = Some (name +:+ "-" +:+ version)).
  { unfold egg_info_match_here.
    change ("-" +:+ version) with (String "-" version).
    rewrite (span_stop egg_name_char name "-" version Hnc eq_refl).
    rewrite Hn. cbn [andb].
    replace (Ascii.eqb "-" "-") with true by reflexivity.
    rewrite (span_all _ _ Hvc). destruct version; [discriminate|reflexivity]. }
  unfold _egg_info_matches.
  assert (Hs : _egg_info_re_search (name +:+ "-" +:+ version)
               = Some (name +:+ "-" +:+ version)).
  { destruct (name +:+ "-" +:+ version) eqn:He; cbn [_egg_info_re_search];
      now rewrite Hm. }
  rewrite Hs.
  assert (Hpre : Py.startswith (Py.lower name +:+ "-")
                   (Py.replace_char "_" "-"
                      (Py.lower (name +:+ "-" +:+ version))) = true).
  { rewrite lower_app, replace_char_app.
    rewrite (replace_no_underscore (Py.lower name))
      by (now rewrite has_char_lower_underscore).
    rewrite lower_app, replace_char_app.
    change (Py.replace_char "_" "-" (Py.lower "-")) with "-".
    rewrite <- append_assoc_str. apply prefix_append. }
  rewrite Hpre. f_equal.
  rewrite length_app_str, length_lower.
  rewrite <- (length_app_str name "-"), <- append_assoc_str.
  apply drop_length_app.
Qed.

Lemma egg_info_matches_name_dash_version_witness :
  _egg_info_matches ("Foo.bar" +:+ "-" +:+ "1.0-py2.7") "Foo.bar"
    (Demo.link_of "x") = Some "1.0-py2.7".
Proof.
  apply egg_info_matches_name_dash_version; reflexivity.
Defined.

(** ** What a match of [_py_version_re] means *)

Lemma at_dollar_cases (r : string) :
  at_dollar r = true -> r = EmptyString \/ r = String newline EmptyString.
Proof.
  destruct r as [|c [|c' r]]; cbn; auto; [|discriminate].
  intros H. apply Ascii.eqb_eq in H. subst. auto.
Qed.

Lemma py_version_tail_sound (t g : string) :
  py_version_tail t = Some g ->
  (t = g \/ t = g +:+ String newline EmptyString)
  /\ match g with
     | EmptyString => true
     | String c EmptyString => Ascii.eqb c "." || Py.is_digit c
     | String c (String x EmptyString) => Ascii.eqb c "." && Py.is_digit x
     | _ => false
     end = true.
Proof.
  unfold py_version_tail. destruct t as [|c r].
  - intros [= <-]. auto.
  - destruct (Ascii.eqb_spec c ".") as [->|Hc].
    + destruct r as [|d r'].
      * intros [= <-]. auto.
      * destruct (Py.is_digit d && at_dollar r') eqn:H1.
        -- apply andb_prop in H1 as [Hd Hr]. intros [= <-].
           apply at_dollar_cases in Hr as [->| ->]; cbn; rewrite Hd; auto.
        -- destruct (at_dollar (String d r')) eqn:H2; [|discriminate].
           intros [= <-]. apply at_dollar_cases in H2 as [H2|H2];
             [discriminate|]. injection H2 as -> ->. auto.
    + destruct (Py.is_digit c && at_dollar r) eqn:H1.
      * apply andb_prop in H1 as [Hd Hr]. intros [= <-].
        apply at_dollar_cases in Hr as [->| ->]; cbn; rewrite Hd, orb_true_r;
          auto.
      * destruct (at_dollar (String c r)) eqn:H2; [|discriminate].
        intros [= <-]. apply at_dollar_cases in H2 as [H2|H2];
          [discriminate|]. injection H2 as -> ->. auto.
Qed.

Lemma py_version_match_here_sound (s g : string) :
  py_version_match_here s = Some g ->
  py_tag g = true
  /\ (s = "-py" +:+ g \/ s = "-py" +:+ g +:+ String newline EmptyString).
Proof.
  unfold py_version_match_here.
  destruct s as [|a [|b [|c [|d t]]]]; try discriminate.
  destruct (Ascii.eqb a "-" && Ascii.eqb b "p" && Ascii.eqb c "y"
            && (Ascii.eqb d "1" || Ascii.eqb d "2" || Ascii.eqb d "3")) eqn:H;
    [|discriminate].
  destruct (py_version_tail t) as [g'|] eqn:Ht; [|discriminate].
  intros [= <-].
  apply andb_prop in H as [H Hd]. apply andb_prop in H as [H Hy].
  apply andb_prop in H as [Ha Hb].
  apply Ascii.eqb_eq in Ha, Hb, Hy. subst a b c.
  apply py_version_tail_sound in Ht as [Ht Hshape].
  split.
  - cbn [py_tag]. now rewrite Hd, Hshape.
  - destruct Ht as [->| ->]; auto.
Qed.

Lemma py_version_search_from_sound (pos : nat) (s : string) (start : nat)
    (g : string) :
  py_version_search_from pos s = Some (start, g) ->
  exists stem,
    start = (pos + String.length stem)%nat
    /\ py_tag g = true
    /\ (s = stem +:+ "-py" +:+ g
        \/ s = stem +:+ "-py" +:+ g +:+ String newline EmptyString).
Proof.
  revert pos. induction s as [|c r IH]; intros pos;
    cbn [py_version_search_from].
  - destruct (py_version_match_here EmptyString) eqn:H; discriminate.
  - destruct (py_version_match_here (String c r)) as [g'|] eqn:H.
    + intros [= <- <-]. apply py_version_match_here_sound in H as [Hg Hs].
      exists EmptyString. cbn [String.length]. rewrite !append_empty.
      split; [lia|]. auto.
    + intros Hr. apply IH in Hr as (stem & -> & Hg & Hs).
      exists (String c stem). cbn [String.length]. rewrite !append_cons.
      split; [lia|]. split; [exact Hg|].
      destruct Hs as [->| ->]; auto.
Qed.

(** When [_py_version_re] matches a version, the version is a stem
    followed by [-py] and a python tag (and at most a final newline),
    the match starts where the stem ends, and the captured group is the
    tag. *)
Theorem py_version_re_search_sound (v : string) (start : nat) (g : string) :
  _py_version_re_search v = Some (start, g) ->
  py_tag g = true
  /\ (v = Py.take start v +:+ "-py" +:+ g
      \/ v = Py.take start v +:+ "-py" +:+ g +:+ String newline EmptyString).
Proof.
  intros H. apply py_version_search_from_sound in H as (stem & -> & Hg & Hs).
  split; [exact Hg|]. cbn [Nat.add].
  destruct Hs as [Hs|Hs]; rewrite Hs at 2 4; rewrite take_length_app; auto.
Qed.

Lemma py_version_re_search_sound_witness :
  py_tag "2.7" = true
  /\ ("1.0-py2.7" = Py.take 3 "1.0-py2.7" +:+ "-py" +:+ "2.7"
      \/ "1.0-py2.7"
         = Py.take 3 "1.0-py2.7" +:+ "-py" +:+ "2.7" +:+ String newline EmptyString).
Proof. exact (py_version_re_search_sound "1.0-py2.7" 3 "2.7" eq_refl). Defined.

(** ** What the filter does to the finder *)

Lemma bookkeeping_refl (a : PackageFinder) : bookkeeping_only a a.
Proof. unfold bookkeeping_only. repeat split; auto. Qed.

Lemma bookkeeping_trans (a b c : PackageFinder) :
  bookkeeping_only a b -> bookkeeping_only b c -> bookkeeping_only a c.
Proof.
  unfold bookkeeping_only.
  intros (?&?&?&?&?&?&?&?&?&?&Hl1&?&?) (?&?&?&?&?&?&?&?&?&?&Hl2&?&?).
  repeat split; try congruence; auto.
  intros x Hx. apply Hl2, Hl1, Hx.
Qed.

Lemma bookkeeping_policy (a b : PackageFinder) :
  bookkeeping_only a b -> same_policy a b.
Proof.
  unfold bookkeeping_only, same_policy.
  intros (?&?&?&?&?&?&?&?&?&?&?&?&?). auto.
Qed.

Lemma log_once_bookkeeping (l : Link) (s : PackageFinder) :
  bookkeeping_only s (log_once l s).
Proof.
  unfold log_once. destruct (bool_decide _); [apply bookkeeping_refl|].
  unfold bookkeeping_only. cbn. repeat split; auto. set_solver.
Qed.

Lemma warn_external_bookkeeping (s : PackageFinder) :
  bookkeeping_only s (set_need_warn_external true s).
Proof. unfold bookkeeping_only. cbn. repeat split; auto. Qed.

Lemma warn_unverified_bookkeeping (s : PackageFinder) :
  bookkeeping_only s (set_need_warn_unverified true s).
Proof. unfold bookkeeping_only. cbn. repeat split; auto. Qed.

Create HintDb bookkeeping.

#[local] Hint Resolve bookkeeping_refl log_once_bookkeeping
  warn_external_bookkeeping warn_unverified_bookkeeping : bookkeeping.

Section Bookkeeping.
Context (E : Platform).

Lemma version_stage_bookkeeping l n config state :
  bookkeeping_only state (snd (version_stage E l n config state)).
Proof.
  unfold version_stage.
  repeat match goal with
         | |- context [match ?x with _ => _ end] => destruct x
         end; cbn [snd]; auto with bookkeeping.
Qed.

Lemma hosting_stage_bookkeeping l n config state :
  bookkeeping_only state (snd (hosting_stage E l n config state)).
Proof.
  unfold hosting_stage.
  destruct (external_guard E l n config); [cbn; auto with bookkeeping|].
  destruct (unverifiable_guard E l n config); cbn; auto with bookkeeping.
Qed.

Lemma link_package_versions_bookkeeping l n config state :
  bookkeeping_only state (snd (_link_package_versions E l n config state)).
Proof.
  unfold _link_package_versions.
  pose proof (version_stage_bookkeeping l n config state) as H1.
  destruct (version_stage E l n config state) as [[v| |e] st]; cbn [snd] in *;
    try exact H1.
  pose proof (hosting_stage_bookkeeping l n config st) as H2.
  destruct (hosting_stage E l n config st) as [[u| |e] st']; cbn [snd] in *;
    eauto using bookkeeping_trans.
Qed.

Lemma package_versions_loop_bookkeeping ls n self acc :
  bookkeeping_only self (snd (package_versions_loop E ls n self acc)).
Proof.
  revert self acc. induction ls as [|l r IH]; intros self acc; cbn;
    [auto with bookkeeping|].
  pose proof (link_package_versions_bookkeeping l n self self) as H.
  destruct (_link_package_versions E l n self self) as [[vs|e] self'];
    cbn [snd] in *; [|exact H].
  eapply bookkeeping_trans; [exact H|apply IH].
Qed.

Lemma package_versions_bookkeeping ls n self :
  bookkeeping_only self (snd (_package_versions E ls n self)).
Proof. apply package_versions_loop_bookkeeping. Qed.

Lemma rel_links_loop_bookkeeping ls req self acc :
  bookkeeping_only self (snd (PackageFinder.rel_links_loop E ls req self acc)).
Proof.
  revert self acc. induction ls as [|l r IH]; intros self acc; cbn;
    [auto with bookkeeping|].
  destruct (_ && negb (allow_all_external self)).
  - eapply bookkeeping_trans; [|apply IH]. auto with bookkeeping.
  - destruct (_ && _).
    + eapply bookkeeping_trans; [|apply IH]. auto with bookkeeping.
    + apply IH.
Qed.

Lemma get_pages_bookkeeping fuel locs seen req self acc r self' :
  PackageFinder._get_pages E fuel locs seen req self acc = Some (r, self') ->
  bookkeeping_only self self'.
Proof.
  revert locs seen self acc.
  induction fuel as [|fuel IH]; intros locs seen self acc;
    destruct locs as [|location locs]; cbn;
    try (intros [= <- <-]; auto with bookkeeping; fail); try discriminate.
  destruct (bool_decide _); [apply IH|].
  destruct (PackageFinder._get_page self location) as [page|]; [|apply IH].
  pose proof (package_versions_bookkeeping (links page)
                (Py.lower (req_name req)) self) as H1.
  destruct (_package_versions E (links page) (Py.lower (req_name req)) self)
    as [[vs|e] self1]; cbn [snd] in H1; [|intros [= <- <-]; exact H1].
  pose proof (rel_links_loop_bookkeeping (rel_links page) req self1 []) as H2.
  destruct (PackageFinder.rel_links_loop E (rel_links page) req self1 [])
    as [more self2]; cbn [snd] in H2.
  intros H. apply IH in H. eauto using bookkeeping_trans.
Qed.

Lemma gather_bookkeeping fuel self req r lg self' :
  PackageFinder.gather E fuel self req = Some (r, lg, self') ->
  bookkeeping_only self self'.
Proof.
  unfold PackageFinder.gather.
  destruct (PackageFinder.search_locations E self req) as [[locations|e] lg0];
    [|intros [= <- <- <-]; auto with bookkeeping].
  destruct (PackageFinder._sort_locations E self locations) as [fl ul].
  destruct (PackageFinder._sort_locations E self (dependency_links self))
    as [fl' ul'].
  unfold FindLinksFinder.found.
  match goal with
  | |- context [_package_versions E ?ls ?n self] =>
      pose proof (package_versions_bookkeeping ls n self) as H1;
      destruct (_package_versions E ls n self) as [[fv|e] s1]
  end; cbn [snd] in H1; [|intros [= <- <- <-]; exact H1].
  match goal with
  | |- context [PackageFinder._get_pages E fuel ?ls ?seen req s1 ?acc] =>
      pose proof (get_pages_bookkeeping fuel ls seen req s1 acc) as H2;
      destruct (PackageFinder._get_pages E fuel ls seen req s1 acc)
        as [[[pv|e] s2]|]
  end; [| |discriminate].
  2:{ intros [= <- <- <-]. eauto using bookkeeping_trans. }
  specialize (H2 _ _ eq_refl).
  match goal with
  | |- context [_package_versions E ?ls ?n s2] =>
      pose proof (package_versions_bookkeeping ls n s2) as H3;
      destruct (_package_versions E ls n s2) as [[dv|e] s3]
  end; cbn [snd] in H3;
    [|intros [= <- <- <-]; eauto using bookkeeping_trans].
  match goal with
  | |- context [_package_versions E ?ls ?n s3] =>
      pose proof (package_versions_bookkeeping ls n s3) as H4;
      destruct (_package_versions E ls n s3) as [[flv|e] s4]
  end; cbn [snd] in H4;
    intros [= <- <- <-]; eauto using bookkeeping_trans.
Qed.

Lemma find_requirement_bookkeeping fuel self req upgrade r lg self' :
  PackageFinder.find_requirement E fuel self req upgrade = Some (r, lg, self') ->
  bookkeeping_only self self'.
Proof.
  unfold PackageFinder.find_requirement.
  destruct (PackageFinder.gather E fuel self req) as [[[[p|e] lg0] s1]|] eqn:Hg;
    [| |discriminate].
  - destruct (PackageFinder.select E s1 req upgrade p).
    intros [= <- <- <-]. exact (gather_bookkeeping _ _ _ _ _ _ Hg).
  - intros [= <- <- <-]. exact (gather_bookkeeping _ _ _ _ _ _ Hg).
Qed.

(** One call of the link filter leaves every setting of the state it is
    given as it was; it can only add the url of the link to
    [logged_links] and raise a warning flag. *)
Theorem link_filter_touches_bookkeeping_only (l : Link) (n : string)
    (config state : PackageFinder) :
  bookkeeping_only state (snd (_link_package_versions E l n config state))
  /\ logged_links (snd (_link_package_versions E l n config state))
     ⊆ {[url l]} ∪ logged_links state.
Proof.
  split; [apply link_package_versions_bookkeeping|].
  unfold _link_package_versions.
  assert (Hv : logged_links (snd (version_stage E l n config state))
               ⊆ {[url l]} ∪ logged_links state).
  { unfold version_stage, log_once.
    repeat match goal with
           | |- context [match ?x with _ => _ end] => destruct x
           end; cbn; set_solver. }
  destruct (version_stage E l n config state) as [[v| |e] st]; cbn [snd] in *;
    try exact Hv.
  unfold hosting_stage.
  destruct (external_guard E l n config); [exact Hv|].
  destruct (unverifiable_guard E l n config); exact Hv.
Qed.

(** A search never clears what an earlier one left: after
    [find_requirement] the finder has its settings unchanged, the links
    logged before are still logged, and a warning flag that was set
    stays set. *)
Theorem find_requirement_keeps_flags (fuel : nat) (self self' : PackageFinder)
    (req : Requirement) (upgrade : bool) (r : result (option Link))
    (lg : list log_record) :
  PackageFinder.find_requirement E fuel self req upgrade = Some (r, lg, self') ->
  bookkeeping_only self self'.
Proof. apply find_requirement_bookkeeping. Qed.

End Bookkeeping.

(** ** The decision of the filter *)

Lemma log_once_twice (l : Link) (s : PackageFinder) :
  log_once l (log_once l s) = log_once l s.
Proof.
  unfold log_once.
  destruct (bool_decide (url l ∈ logged_links s)) eqn:H.
  - now rewrite H.
  - cbn [logged_links set_logged_links].
    rewrite bool_decide_eq_true_2; [reflexivity|].
    apply elem_of_union_l, elem_of_singleton. reflexivity.
Qed.

Section Decision.
Context (E : Platform).

(** The outcome of the first stage and its effect on the state are
    fixed by the link, the name and [use_wheel]. *)
Lemma version_stage_decided l n config :
  exists r f,
    (forall s, f (f s) = f s)
    /\ (forall v, r = Go v -> forall s, f s = s)
    /\ forall config' s,
         use_wheel config = use_wheel config' ->
         version_stage E l n config' s = (r, f s).
Proof.
  unfold version_stage.
  destruct (Py.truthy_opt (egg_fragment l)).
  { destruct (egg_fragment l) as [egg_info|].
    - cbn [negb Py.truthy_opt].
      destruct (_egg_info_matches egg_info n l) as [v|].
      + exists (Go v), (fun s => s). auto.
      + exists Skip, (fun s => s). auto.
    - exists Skip, (fun s => s). auto. }
  destruct (splitext l) as [egg_info e0].
  destruct (negb (Py.truthy e0)).
  { exists Skip, (log_once l). repeat split; auto using log_once_twice.
    discriminate. }
  set (adj := if Py.endswith ".tar" egg_info then _ else _).
  destruct adj as [egg_info' e1].
  destruct (negb (str_in e1 (_known_extensions (use_wheel config)))) eqn:Hk.
  { exists Skip, (log_once l). repeat split; auto using log_once_twice;
      [discriminate|]. intros c' s <-. now rewrite Hk. }
  destruct (Py.contains "macosx10" (path l) && String.eqb e1 ".zip").
  { exists Skip, (log_once l). repeat split; auto using log_once_twice;
      [discriminate|]. intros c' s <-. now rewrite Hk. }
  destruct (String.eqb e1 wheel_ext).
  - destruct (wheel_version_stage E l n) as [version| |e].
    + destruct (negb (Py.truthy_opt version)).
      * destruct (_egg_info_matches egg_info' n l) as [v|].
        -- exists (Go v), (fun s => s). repeat split; auto.
           intros c' s <-. now rewrite Hk.
        -- exists Skip, (fun s => s). repeat split; auto.
           intros c' s <-. now rewrite Hk.
      * destruct version as [v|].
        -- exists (Go v), (fun s => s). repeat split; auto.
           intros c' s <-. now rewrite Hk.
        -- exists Skip, (fun s => s). repeat split; auto.
           intros c' s <-. now rewrite Hk.
    + exists Skip, (fun s => s). repeat split; auto.
      intros c' s <-. now rewrite Hk.
    + exists (Fail e), (fun s => s). repeat split; auto.
      intros c' s <-. now rewrite Hk.
  - cbn [negb Py.truthy_opt].
    destruct (_egg_info_matches egg_info' n l) as [v|].
    + exists (Go v), (fun s => s). repeat split; auto.
      intros c' s <-. now rewrite Hk.
    + exists Skip, (fun s => s). repeat split; auto.
      intros c' s <-. now rewrite Hk.
Qed.

Lemma guards_policy l n config config' :
  same_policy config config' ->
  external_guard E l n config' = external_guard E l n config
  /\ unverifiable_guard E l n config' = unverifiable_guard E l n config.
Proof.
  intros (_ & Hae & Hau & Haa). unfold external_guard, unverifiable_guard.
  now rewrite Hae, Hau, Haa.
Qed.

(** The result of the filter and its effect on the state are fixed by
    the link, the search name and the four settings the filter reads. *)
Lemma link_filter_decided l n config :
  exists r f,
    (forall s, f (f s) = f s)
    /\ forall config' s,
         same_policy config config' ->
         _link_package_versions E l n config' s = (r, f s).
Proof.
  destruct (version_stage_decided l n config) as (r1 & f1 & Hf1 & Hgo & Hv).
  unfold _link_package_versions.
  destruct r1 as [v| |e].
  - unfold hosting_stage.
    destruct (external_guard E l n config) eqn:Hx.
    + exists (Ok []), (set_need_warn_external true). split; [reflexivity|].
      intros c' s Hp. rewrite (Hv c' s (proj1 Hp)), (Hgo v eq_refl).
      destruct (guards_policy l n config c' Hp) as [-> _]. now rewrite Hx.
    + destruct (unverifiable_guard E l n config) eqn:Hu.
      * exists (Ok []), (set_need_warn_unverified true). split; [reflexivity|].
        intros c' s Hp. rewrite (Hv c' s (proj1 Hp)), (Hgo v eq_refl).
        destruct (guards_policy l n config c' Hp) as [-> ->].
        now rewrite Hx, Hu.
      * exists (Ok (py_version_stage E v l)), (fun s => s).
        split; [reflexivity|].
        intros c' s Hp. rewrite (Hv c' s (proj1 Hp)), (Hgo v eq_refl).
        destruct (guards_policy l n config c' Hp) as [-> ->].
        now rewrite Hx, Hu.
  - exists (Ok []), f1. split; [exact Hf1|].
    intros c' s Hp. now rewrite (Hv c' s (proj1 Hp)).
  - exists (Raise e), f1. split; [exact Hf1|].
    intros c' s Hp. now rewrite (Hv c' s (proj1 Hp)).
Qed.

Lemma same_policy_refl (a : PackageFinder) : same_policy a a.
Proof. repeat split. Qed.

Lemma link_filter_result_policy (l : Link) (n : string)
    (config config' state state' : PackageFinder) :
  same_policy config config' ->
  fst (_link_package_versions E l n config state)
  = fst (_link_package_versions E l n config' state').
Proof.
  intros Hp. destruct (link_filter_decided l n config) as (r & f & _ & H).
  now rewrite (H config state (same_policy_refl config)), (H config' state' Hp).
Qed.

(** What the filter returns for a link does not depend on the state it
    is given, nor on the configuration beyond [use_wheel] and the three
    settings about external and unverified files. *)
Theorem link_filter_result_depends_on_policy_only (l : Link) (n : string)
    (config config' state state' : PackageFinder) :
  same_policy config config' ->
  fst (_link_package_versions E l n config state)
  = fst (_link_package_versions E l n config' state').
Proof.
  apply link_filter_result_policy.
Qed.

(** Filtering the same link again, on the state the first call left,
    gives the same result and leaves that state as it is, also when the
    finder is both configuration and state. *)
Theorem link_filter_repeatable (l : Link) (n : string)
    (self : PackageFinder) :
  let first := _link_package_versions E l n self self in
  _link_package_versions E l n (snd first) (snd first) = first.
Proof.
  cbv zeta.
  destruct (link_filter_decided l n self) as (r & f & Hf & H).
  rewrite (H self self (same_policy_refl self)). cbn [snd].
  assert (Hp : same_policy self (f self)).
  { apply bookkeeping_policy.
    pose proof (link_package_versions_bookkeeping E l n self self) as Hb.
    now rewrite (H self self (same_policy_refl self)) in Hb. }
  now rewrite (H (f self) (f self) Hp), Hf.
Qed.

End Decision.

(** ** What the filter lets through *)

Section Through.
Context (E : Platform).

Lemma link_filter_at_most_one_shared (l : Link) (n : string)
    (config state : PackageFinder) (vs : list FoundVersion) :
  fst (_link_package_versions E l n config state) = Ok vs ->
  vs = [] \/ exists v, vs = [ {| version := v; link := ALink l |} ].
Proof.
  unfold _link_package_versions.
  destruct (version_stage E l n config state) as [[v| |e] st]; cbn [fst];
    [|intros [= <-]; auto|discriminate].
  destruct (hosting_stage E l n config st) as [[u| |e] st']; cbn [fst];
    [|intros [= <-]; auto|discriminate].
  unfold py_version_stage.
  destruct (_py_version_re_search v) as [[start py]|];
    [destruct (negb _)|]; intros [= <-]; eauto.
Qed.

(** The filter returns at most one found version, and that one carries
    the link that was filtered. *)
Theorem link_filter_at_most_one (l : Link) (n : string)
    (config state : PackageFinder) (vs : list FoundVersion) :
  fst (_link_package_versions E l n config state) = Ok vs ->
  vs = [] \/ exists v, vs = [ {| version := v; link := ALink l |} ].
Proof. apply link_filter_at_most_one_shared. Qed.

(** A link that is known to be external, or known to be unverifiable,
    while the name is not allowed accordingly, never yields a found
    version. *)
Theorem link_filter_blocks_disallowed (l : Link) (n : string)
    (config state : PackageFinder) (vs : list FoundVersion) :
  external_guard E l n config = true
  \/ unverifiable_guard E l n config = true ->
  fst (_link_package_versions E l n config state) = Ok vs ->
  vs = [].
Proof.
  intros Hg. unfold _link_package_versions.
  destruct (version_stage E l n config state) as [[v| |e] st]; cbn [fst];
    [|now intros [= <-]|discriminate].
  unfold hosting_stage.
  destruct (external_guard E l n config); [now intros [= <-]|].
  destruct Hg as [Hg|Hg]; [discriminate|]. rewrite Hg. now intros [= <-].
Qed.

(** Without egg fragment, a link with no extension or with an extension
    that is not a known archive format is skipped, and its url is among
    the logged links afterwards. *)
Theorem link_filter_skips_unknown_extension (l : Link) (n : string)
    (config state : PackageFinder) :
  Py.truthy_opt (egg_fragment l) = false ->
  Py.endswith ".tar" (fst (splitext l)) = false ->
  str_in (ext l) (_known_extensions (use_wheel config)) = false ->
  fst (_link_package_versions E l n config state) = Ok []
  /\ url l ∈ logged_links (snd (_link_package_versions E l n config state)).
Proof.
  intros Hegg Htar Hext.
  unfold _link_package_versions, version_stage. rewrite Hegg.
  unfold ext in Hext. destruct (splitext l) as [egg_info e0].
  cbn [fst snd] in *.
  assert (Hlog : url l ∈ logged_links (log_once l state)).
  { unfold log_once. destruct (bool_decide (url l ∈ logged_links state)) eqn:H.
    - now apply bool_decide_eq_true in H.
    - cbn. apply elem_of_union_l, elem_of_singleton. reflexivity. }
  destruct (negb (Py.truthy e0)); [split; [reflexivity|exact Hlog]|].
  rewrite Htar, Hext. cbn [negb fst snd]. split; [reflexivity|exact Hlog].
Qed.

(** Without egg fragment, a wheel link is skipped when wheel support is
    off, when its file name does not parse as a wheel name, when the
    wheel is of another project, and when none of its tags is
    supported. *)
Theorem link_filter_skips_wheel (l : Link) (n : string)
    (config state : PackageFinder) :
  Py.truthy_opt (egg_fragment l) = false ->
  ext l = wheel_ext ->
  use_wheel config = false
  \/ Wheel_parse E (filename l) = None
  \/ (exists w, Wheel_parse E (filename l) = Some w
                /\ (String.eqb (Py.lower (wheel_name w)) (Py.lower n) = false
                    \/ WheelM.supported w (supported_tags E) = false)) ->
  fst (_link_package_versions E l n config state) = Ok [].
Proof.
  intros Hegg Hext Hwhy.
  unfold _link_package_versions, version_stage. rewrite Hegg.
  unfold ext in Hext. destruct (splitext l) as [egg_info e0].
  cbn [snd] in Hext. subst e0. cbn [Py.truthy negb wheel_ext].
  destruct (Py.endswith ".tar" egg_info).
  - rewrite (known_extensions_tar_whl (use_wheel config)). reflexivity.
  - unfold wheel_ext at 1 2 3.
    destruct (str_in ".whl" (_known_extensions (use_wheel config))) eqn:Hk;
      cbn [negb]; [|reflexivity].
    replace (String.eqb ".whl" ".zip") with false by reflexivity.
    rewrite andb_false_r.
    replace (String.eqb ".whl" wheel_ext) with true by reflexivity.
    unfold wheel_version_stage.
    destruct Hwhy as [Hu|[Hw|(w & Hw & Hbad)]].
    + rewrite Hu in Hk. discriminate Hk.
    + rewrite Hw. reflexivity.
    + rewrite Hw. destruct Hbad as [Hname|Hsup].
      * rewrite Hname. reflexivity.
      * destruct (negb (String.eqb _ _)); [reflexivity|].
        rewrite Hsup. reflexivity.
Qed.

(** With wheels in use ([use_wheel] set), a link without egg fragment
    whose extension is [.whl] (the rest of the name not ending in
    [.tar]), whose file name is that of a wheel of the project searched,
    supported by the interpreter, and whose [comes_from] is a plain
    string (as for the links built from [find_links]) makes the filter
    fail with [AttributeError] on a platform that is neither Windows,
    nor macOS, nor [cli], leaving the state as it was: the pypi rule
    reads [comes_from.url].  A link with an egg fragment, or a finder
    without [use_wheel], does not reach that rule. *)
Theorem link_filter_string_origin_raises (l : Link) (n : string)
    (config state : PackageFinder) (w : Wheel) (s : string) :
  Py.truthy_opt (egg_fragment l) = false ->
  splitext l = (fst (splitext l), wheel_ext) ->
  Py.endswith ".tar" (fst (splitext l)) = false ->
  use_wheel config = true ->
  Wheel_parse E (filename l) = Some w ->
  String.eqb (Py.lower (wheel_name w)) (Py.lower n) = true ->
  WheelM.supported w (supported_tags E) = true ->
  Py.startswith "win" (get_platform E) = false ->
  Py.startswith "macosx" (get_platform E) = false ->
  String.eqb (get_platform E) "cli" = false ->
  comes_from l = Some (FromStr s) ->
  _link_package_versions E l n config state = (Raise AttributeError, state).
Proof.
  intros Hegg Hsplit Htar Huw Hw Hname Hsup Hwin Hmac Hcli Hfrom.
  unfold _link_package_versions, version_stage. rewrite Hegg, Hsplit, Htar.
  cbn [Py.truthy wheel_ext negb]. rewrite Huw.
  replace (str_in ".whl" (_known_extensions true)) with true by reflexivity.
  cbn [negb].
  replace (String.eqb ".whl" ".zip") with false by reflexivity.
  rewrite andb_false_r.
  replace (String.eqb ".whl" ".whl") with true by reflexivity.
  unfold wheel_version_stage, pypi_binary_guard.
  rewrite Hw, Hname, Hsup, Hwin, Hmac, Hcli, Hfrom. reflexivity.
Qed.

End Through.

Lemma link_filter_at_most_one_witness :
  [ {| version := "1.0"; link := ALink (Demo.link_of "https://h/foo-1.0.zip") |} ]
    = []
  \/ exists v,
       [ {| version := "1.0"; link := ALink (Demo.link_of "https://h/foo-1.0.zip") |} ]
       = [ {| version := v; link := ALink (Demo.link_of "https://h/foo-1.0.zip") |} ].
Proof.
  exact (link_filter_at_most_one Demo.platform
           (Demo.link_of "https://h/foo-1.0.zip") "foo"
           (Demo.finder [] true) (Demo.finder [] true) _ eq_refl).
Defined.

Lemma link_filter_skips_wheel_witness :
  fst (_link_package_versions Demo.platform
         (Demo.link_of "https://h/foo-1.0-py2-none-any.whl") "foo"
         (Demo.finder [] true) (Demo.finder [] true)) = Ok [].
Proof.
  apply (link_filter_skips_wheel Demo.platform); [reflexivity|reflexivity|].
  right. right.
  exists {| wheel_name := "foo"; wheel_version := "1.0";
            file_tags := [("py2", "none", "any")] |}.
  split; [reflexivity|]. right. reflexivity.
Defined.

Lemma link_filter_string_origin_raises_witness :
  let l := mk_link Demo.platform "https://h/foo-1.0-py3-none-any.whl"
             (Some (FromStr "-f")) None (Some true) false in
  _link_package_versions Demo.platform l "foo"
    (Demo.finder [] true) (Demo.finder [] true)
  = (Raise AttributeError, Demo.finder [] true).
Proof.
  intros l.
  apply (link_filter_string_origin_raises Demo.platform l "foo"
           (Demo.finder [] true)
           (Demo.finder [] true)
           {| wheel_name := "foo"; wheel_version := "1.0";
              file_tags := [("py3", "none", "any")] |} "-f");
    reflexivity.
Defined.

Lemma link_filter_blocks_disallowed_witness :
  @nil FoundVersion = [].
Proof.
  exact (link_filter_blocks_disallowed Demo.platform
           (mk_link Demo.platform "https://other/foo-1.0.zip"
              (Some (FromPage "https://h/simple/foo/")) (Some false) None false)
           "foo" (Demo.finder [] true) (Demo.finder [] true) []
           (or_introl eq_refl) eq_refl).
Defined.

Lemma link_filter_skips_unknown_extension_witness :
  fst (_link_package_versions Demo.platform
         (Demo.link_of "https://h/foo-1.0.exe") "foo"
         (Demo.finder [] true) (Demo.finder [] true)) = Ok []
  /\ url (Demo.link_of "https://h/foo-1.0.exe")
     ∈ logged_links
         (snd (_link_package_versions Demo.platform
                 (Demo.link_of "https://h/foo-1.0.exe") "foo"
                 (Demo.finder [] true) (Demo.finder [] true))).
Proof.
  apply (link_filter_skips_unknown_extension Demo.platform); reflexivity.
Defined.

(** ** Where the candidates come from *)

Section Provenance.
Context (E : Platform).

Lemma same_policy_sym (a b : PackageFinder) : same_policy a b -> same_policy b a.
Proof. intros (?&?&?&?). repeat split; congruence. Qed.

Lemma same_policy_trans (a b c : PackageFinder) :
  same_policy a b -> same_policy b c -> same_policy a c.
Proof. intros (?&?&?&?) (?&?&?&?). repeat split; congruence. Qed.

Lemma emitted_policy n a b fv :
  same_policy a b -> emitted_by_filter E n a fv -> emitted_by_filter E n b fv.
Proof.
  intros Hp (l & Hl & Hf). exists l. split; [exact Hl|].
  now rewrite <- (link_filter_result_policy E l n a b a b Hp).
Qed.

Lemma emitted_policy_all n a b vs :
  same_policy a b ->
  Forall (emitted_by_filter E n a) vs -> Forall (emitted_by_filter E n b) vs.
Proof.
  intros Hp. apply List.Forall_impl. intros fv. now apply emitted_policy.
Qed.

Lemma package_versions_loop_emitted ls n self acc vs self' :
  package_versions_loop E ls n self acc = (Ok vs, self') ->
  Forall (emitted_by_filter E n self) acc ->
  Forall (emitted_by_filter E n self) vs.
Proof.
  revert self acc. induction ls as [|l r IH]; intros self acc; cbn.
  - now intros [= <- <-].
  - pose proof (link_package_versions_bookkeeping E l n self self) as Hb.
    pose proof (link_filter_at_most_one_shared E l n self self) as H1.
    destruct (_link_package_versions E l n self self) as [[v1|e] s1] eqn:Hf;
      [|discriminate].
    cbn [fst snd] in *. apply bookkeeping_policy in Hb.
    intros Hloop Hacc.
    apply (emitted_policy_all n s1 self _ (same_policy_sym _ _ Hb)).
    apply (IH s1 (acc ++ v1) Hloop).
    apply Forall_app. split.
    + exact (emitted_policy_all n self s1 _ Hb Hacc).
    + destruct (H1 v1 eq_refl) as [->|[v ->]]; constructor; [|constructor].
      apply (emitted_policy n self s1 _ Hb).
      exists l. split; [reflexivity|]. now rewrite Hf.
Qed.

Lemma package_versions_emitted ls n self vs self' :
  _package_versions E ls n self = (Ok vs, self') ->
  Forall (emitted_by_filter E n self) vs.
Proof.
  intros H. apply (package_versions_loop_emitted _ _ _ _ _ _ H). constructor.
Qed.

Lemma get_pages_emitted fuel locs seen req self acc vs self' :
  PackageFinder._get_pages E fuel locs seen req self acc = Some (Ok vs, self') ->
  Forall (emitted_by_filter E (Py.lower (req_name req)) self) acc ->
  Forall (emitted_by_filter E (Py.lower (req_name req)) self) vs.
Proof.
  revert locs seen self acc.
  induction fuel as [|fuel IH]; intros locs seen self acc;
    destruct locs as [|location locs]; cbn;
    try (now intros [= <- <-]); try discriminate.
  destruct (bool_decide _); [apply IH|].
  destruct (PackageFinder._get_page self location) as [page|]; [|apply IH].
  pose proof (package_versions_bookkeeping E (links page)
                (Py.lower (req_name req)) self) as H1.
  pose proof (package_versions_emitted (links page)
                (Py.lower (req_name req)) self) as He.
  destruct (_package_versions E (links page) (Py.lower (req_name req)) self)
    as [[v1|e] self1]; cbn [snd] in H1; [|discriminate].
  pose proof (rel_links_loop_bookkeeping E (rel_links page) req self1 []) as H2.
  destruct (PackageFinder.rel_links_loop E (rel_links page) req self1 [])
    as [more self2]; cbn [snd] in H2.
  assert (Hp : same_policy self self2)
    by (apply bookkeeping_policy; eauto using bookkeeping_trans).
  intros Hw Hacc.
  apply (emitted_policy_all _ self2 self _ (same_policy_sym _ _ Hp)).
  apply (IH _ _ _ _ Hw). apply Forall_app. split.
  - exact (emitted_policy_all _ self self2 _ Hp Hacc).
  - exact (emitted_policy_all _ self self2 _ Hp (He _ _ eq_refl)).
Qed.

(** Every candidate of the four pools is what the filter returns for
    its own link. *)
Lemma gather_emitted fuel self req p lg self' :
  PackageFinder.gather E fuel self req = Some (Ok p, lg, self') ->
  let ok := Forall (emitted_by_filter E (Py.lower (req_name req)) self') in
  ok (PackageFinder.found_versions p) /\ ok (PackageFinder.page_versions p)
  /\ ok (PackageFinder.dependency_versions p)
  /\ ok (PackageFinder.file_versions p).
Proof.
  unfold PackageFinder.gather.
  destruct (PackageFinder.search_locations E self req) as [[locations|e] lg0];
    [|discriminate].
  destruct (PackageFinder._sort_locations E self locations) as [fl ul].
  destruct (PackageFinder._sort_locations E self (dependency_links self))
    as [fl' ul'].
  unfold FindLinksFinder.found.
  match goal with
  | |- context [_package_versions E ?ls ?n self] =>
      pose proof (package_versions_bookkeeping E ls n self) as B1;
      pose proof (package_versions_emitted ls n self) as E1;
      destruct (_package_versions E ls n self) as [[fv|e] s1]
  end; cbn [snd] in B1; [|discriminate].
  match goal with
  | |- context [PackageFinder._get_pages E fuel ?ls ?seen req s1 ?acc] =>
      pose proof (get_pages_bookkeeping E fuel ls seen req s1 acc) as B2;
      pose proof (get_pages_emitted fuel ls seen req s1 acc) as E2;
      destruct (PackageFinder._get_pages E fuel ls seen req s1 acc)
        as [[[pv|e] s2]|]
  end; [|discriminate|discriminate].
  specialize (B2 _ _ eq_refl). specialize (E2 _ _ eq_refl (List.Forall_nil _)).
  match goal with
  | |- context [_package_versions E ?ls ?n s2] =>
      pose proof (package_versions_bookkeeping E ls n s2) as B3;
      pose proof (package_versions_emitted ls n s2) as E3;
      destruct (_package_versions E ls n s2) as [[dv|e] s3]
  end; cbn [snd] in B3; [|discriminate].
  match goal with
  | |- context [_package_versions E ?ls ?n s3] =>
      pose proof (package_versions_bookkeeping E ls n s3) as B4;
      pose proof (package_versions_emitted ls n s3) as E4;
      destruct (_package_versions E ls n s3) as [[flv|e] s4]
  end; cbn [snd] in B4; [|discriminate].
  intros [= <- <- <-]. cbv zeta. cbn.
  apply bookkeeping_policy in B1, B2, B3, B4.
  assert (P3 : same_policy s3 s4) by exact B4.
  assert (P2 : same_policy s2 s4) by eauto using same_policy_trans.
  assert (P1 : same_policy s1 s4) by eauto using same_policy_trans.
  assert (P0 : same_policy self s4) by eauto using same_policy_trans.
  repeat split.
  - exact (emitted_policy_all _ _ _ _ P0 (E1 _ _ eq_refl)).
  - exact (emitted_policy_all _ _ _ _ P1 E2).
  - exact (emitted_policy_all _ _ _ _ P2 (E3 _ _ eq_refl)).
  - exact (emitted_policy_all _ _ _ _ P3 (E4 _ _ eq_refl)).
Qed.

(** The members of [all_versions]: the installed version and the
    members of the pools. *)
Lemma candidates_members req p all_versions fv :
  PackageFinder.candidates E req p = Ok all_versions ->
  In fv all_versions ->
  In fv (InstalledFinder.found req)
  \/ In fv (PackageFinder.file_versions p)
  \/ In fv (PackageFinder.found_versions p)
  \/ In fv (PackageFinder.page_versions p)
  \/ In fv (PackageFinder.dependency_versions p).
Proof.
  unfold PackageFinder.candidates, PackageFinder.all_versions.
  destruct (PackageFinder.file_versions p) as [|f fs] eqn:Hfile.
  - intros [= <-]. cbn [app]. rewrite !in_app_iff. tauto.
  - destruct (FoundVersion.sort E (f :: fs)) as [fs'|] eqn:Hs; [|discriminate].
    intros [= <-]. rewrite !in_app_iff.
    intros [H|[H|H]]; [tauto| |tauto].
    right. left. apply Permutation_in with (l := fs'); [|exact H].
    symmetry. exact (sort_permutation E _ _ Hs).
Qed.

Lemma emitted_not_installed n self fv :
  emitted_by_filter E n self fv -> FoundVersion.currently_installed fv = false.
Proof. intros (l & Hl & _). unfold FoundVersion.currently_installed. now rewrite Hl. Qed.

(** A pool member of [all_versions], traced back to the filter. *)
Lemma candidate_emitted fuel self req p lg self' all_versions fv :
  PackageFinder.gather E fuel self req = Some (Ok p, lg, self') ->
  PackageFinder.candidates E req p = Ok all_versions ->
  In fv all_versions ->
  In fv (InstalledFinder.found req)
  \/ emitted_by_filter E (Py.lower (req_name req)) self' fv.
Proof.
  intros Hg Hc Hin.
  destruct (gather_emitted _ _ _ _ _ _ Hg) as (H1 & H2 & H3 & H4).
  rewrite List.Forall_forall in H1, H2, H3, H4.
  destruct (candidates_members _ _ _ _ Hc Hin) as [H|[H|[H|[H|H]]]];
    [now left|right..]; auto.
Qed.

(** The link that [find_requirement] returns is one that the link filter
    accepts for the requirement's name under the finder as the search
    left it; the version found for it satisfies the specifier, and is a
    pre-release only if pre-releases are allowed. *)
Theorem find_requirement_returns_filtered_link (fuel : nat)
    (self self' : PackageFinder) (req : Requirement) (upgrade : bool)
    (l : Link) (lg : list log_record) :
  PackageFinder.find_requirement E fuel self req upgrade
    = Some (Ok (Some l), lg, self') ->
  exists v,
    fst (_link_package_versions E l (Py.lower (req_name req)) self' self')
      = Ok [ {| version := v; link := ALink l |} ]
    /\ req_contains req v = true
    /\ (is_prerelease E v = true ->
        allow_all_prereleases self' || prereleases req = true).
Proof.
  unfold PackageFinder.find_requirement.
  destruct (PackageFinder.gather E fuel self req)
    as [[[[p|e] lg0] s1]|] eqn:Hg; [| |discriminate]; [|discriminate].
  destruct (PackageFinder.select E s1 req upgrade p) as [r lg'] eqn:Hsel.
  intros [= -> <- <-].
  destruct (no_downloads p) eqn:Hp.
  { rewrite (select_no_downloads E s1 req upgrade p Hp) in Hsel. discriminate. }
  rewrite (select_some_download E s1 req upgrade p Hp) in Hsel.
  destruct (PackageFinder.candidates E req p) as [all|e] eqn:Hc;
    [|discriminate].
  destruct (FoundVersion.sort E (PackageFinder.narrow E s1 req all []))
    as [av|e] eqn:Hs; [|discriminate].
  unfold PackageFinder.choose in Hsel.
  destruct (negb upgrade && existsb _ av); [discriminate|].
  destruct av as [|best rest]; [discriminate|].
  destruct (link best) as [|l0] eqn:Hl; [discriminate|].
  injection Hsel as -> _.
  assert (Hin : In best (PackageFinder.narrow E s1 req all [])).
  { apply Permutation_in with (l := best :: rest);
      [symmetry; exact (sort_permutation E _ _ Hs)|now left]. }
  rewrite narrow_filter in Hin. cbn [app] in Hin.
  apply List.filter_In in Hin as [Hall Happ].
  destruct (candidate_emitted _ _ _ _ _ _ _ _ Hg Hc Hall) as [Hi|Hem].
  - unfold InstalledFinder.found in Hi.
    destruct (satisfied_by req); [|destruct Hi].
    destruct Hi as [<-|[]]. discriminate Hl.
  - destruct Hem as (l1 & Hl1 & Hf). rewrite Hl in Hl1. injection Hl1 as <-.
    exists (version best).
    assert (Hb : best = {| version := version best; link := ALink l |})
      by (destruct best; cbn in *; now subst).
    rewrite <- Hb. split; [exact Hf|].
    unfold PackageFinder.applicable in Happ.
    destruct (req_contains req (version best)); [|discriminate].
    split; [reflexivity|]. intros Hpre.
    unfold FoundVersion.prerelease, FoundVersion.currently_installed in Happ.
    rewrite Hpre, Hl in Happ. cbn in Happ.
    destruct (allow_all_prereleases s1 || prereleases req);
      [reflexivity|discriminate].
Qed.

Lemma candidates_raises req p e :
  PackageFinder.candidates E req p = Raise e ->
  e = InvalidWheelFilename \/ e = UnsupportedWheel \/ e = TypeError.
Proof.
  unfold PackageFinder.candidates.
  destruct (PackageFinder.file_versions p) as [|f fs]; [discriminate|].
  destruct (FoundVersion.sort E (f :: fs)) eqn:Hs; [discriminate|].
  intros [= <-]. exact (sort_raises E _ _ Hs).
Qed.

(** [BestVersionAlreadyInstalled] comes from one place: the first of the
    sorted applicable versions is the installed one. *)
Lemma select_raises_best self req upgrade p lg :
  PackageFinder.select E self req upgrade p
    = (Raise BestVersionAlreadyInstalled, lg) ->
  exists all best rest,
    PackageFinder.candidates E req p = Ok all
    /\ FoundVersion.sort E (PackageFinder.narrow E self req all [])
       = Ok (best :: rest)
    /\ link best = INSTALLED_VERSION.
Proof.
  destruct (no_downloads p) eqn:Hp.
  { rewrite (select_no_downloads E self req upgrade p Hp). discriminate. }
  rewrite (select_some_download E self req upgrade p Hp).
  destruct (PackageFinder.candidates E req p) as [all|e] eqn:Hc.
  - destruct (FoundVersion.sort E (PackageFinder.narrow E self req all []))
      as [av|e] eqn:Hs.
    + unfold PackageFinder.choose.
      destruct (negb upgrade && existsb _ av); [discriminate|].
      destruct av as [|best rest]; [discriminate|].
      destruct (link best) eqn:Hl; [|discriminate].
      intros _. exists all, best, rest. auto.
    + intros [= -> _]. apply sort_raises in Hs.
      destruct Hs as [Hs|[Hs|Hs]]; discriminate Hs.
  - intros [= -> _]. apply candidates_raises in Hc.
    destruct Hc as [Hs|[Hs|Hs]]; discriminate Hs.
Qed.

Lemma no_installed_candidate fuel self req p lg0 s1 all av :
  satisfied_by req = None ->
  PackageFinder.gather E fuel self req = Some (Ok p, lg0, s1) ->
  PackageFinder.candidates E req p = Ok all ->
  FoundVersion.sort E (PackageFinder.narrow E s1 req all []) = Ok av ->
  forall fv, In fv av -> FoundVersion.currently_installed fv = false.
Proof.
  intros Hsat Hg Hc Hs fv Hin.
  apply Permutation_in with (l' := PackageFinder.narrow E s1 req all [])
    in Hin; [|symmetry; exact (sort_permutation E _ _ Hs)].
  rewrite narrow_filter in Hin. cbn [app] in Hin.
  apply List.filter_In in Hin as [Hall _].
  destruct (candidate_emitted _ _ _ _ _ _ _ _ Hg Hc Hall) as [Hi|Hem].
  - unfold InstalledFinder.found in Hi. rewrite Hsat in Hi. destruct Hi.
  - exact (emitted_not_installed _ _ _ Hem).
Qed.

(** Without a recorded installed version no candidate is the installed
    one, so [BestVersionAlreadyInstalled] is never raised and the
    [upgrade] flag makes no difference. *)
Theorem find_requirement_without_installed (fuel : nat)
    (self : PackageFinder) (req : Requirement) (upgrade : bool) :
  satisfied_by req = None ->
  PackageFinder.find_requirement E fuel self req upgrade
    = PackageFinder.find_requirement E fuel self req true
  /\ forall lg self',
       PackageFinder.find_requirement E fuel self req upgrade
       <> Some (Raise BestVersionAlreadyInstalled, lg, self').
Proof.
  intros Hsat. split.
  - unfold PackageFinder.find_requirement.
    destruct (PackageFinder.gather E fuel self req)
      as [[[[p|e] lg0] s1]|] eqn:Hg; try reflexivity.
    destruct (no_downloads p) eqn:Hp.
    { now rewrite !(select_no_downloads E s1 req _ p Hp). }
    rewrite !(select_some_download E s1 req _ p Hp).
    destruct (PackageFinder.candidates E req p) as [all|e] eqn:Hc;
      [|reflexivity].
    destruct (FoundVersion.sort E (PackageFinder.narrow E s1 req all []))
      as [av|e] eqn:Hs; [|reflexivity].
    assert (Hex : existsb FoundVersion.currently_installed av = false).
    { apply not_true_is_false. intros H.
      apply existsb_exists in H as (x & Hx & Hi).
      now rewrite (no_installed_candidate _ _ _ _ _ _ _ _ Hsat Hg Hc Hs x Hx)
        in Hi. }
    unfold PackageFinder.choose. now rewrite Hex, !andb_false_r.
  - intros lg self'. unfold PackageFinder.find_requirement.
    destruct (PackageFinder.gather E fuel self req)
      as [[[[p|e] lg0] s1]|] eqn:Hg; [| |discriminate].
    + destruct (PackageFinder.select E s1 req upgrade p) as [r lg'] eqn:Hsel.
      intros [= -> _ _].
      apply select_raises_best in Hsel as (all & best & rest & Hc & Hs & Hl).
      pose proof (no_installed_candidate _ _ _ _ _ _ _ _ Hsat Hg Hc Hs best
                    (or_introl eq_refl)) as Hb.
      unfold FoundVersion.currently_installed in Hb. now rewrite Hl in Hb.
    + intros [= -> _ _]. apply gather_raises in Hg.
      destruct Hg; discriminate.
Qed.

End Provenance.

(** When the pools hold candidates but narrowing drops every one of
    them, [find_requirement] raises [DistributionNotFound] with the
    no-matching-version message, after a critical line that lists the
    sorted set of all versions seen and the warnings whose flags are
    set. *)
Theorem find_requirement_no_matching_version (E : Platform) (fuel : nat)
    (self self1 : PackageFinder) (req : Requirement) (upgrade : bool)
    (p : PackageFinder.pools) (lg : list log_record)
    (all_versions : list FoundVersion) :
  PackageFinder.gather E fuel self req = Some (Ok p, lg, self1) ->
  no_downloads p = false ->
  PackageFinder.candidates E req p = Ok all_versions ->
  forallb (dropped E self1 req) all_versions = true ->
  PackageFinder.find_requirement E fuel self req upgrade
  = Some (Raise (DistributionNotFound (PackageFinder.no_matching_msg req)),
          lg ++ [CriticalNoMatchingVersion (req_str req)
                   (sorted_set (map version all_versions))]
             ++ (if need_warn_external self1
                 then [WarnExternalIgnored None] else [])
             ++ (if need_warn_unverified self1
                 then [WarnUnverifiedIgnored (req_name req)] else []),
          self1).
Proof.
  intros Hg Hp Hc Hall.
  unfold PackageFinder.find_requirement. rewrite Hg.
  rewrite (select_some_download E self1 req upgrade p Hp), Hc.
  assert (Hn : PackageFinder.narrow E self1 req all_versions [] = []).
  { rewrite narrow_filter. cbn [app]. clear Hc.
    induction all_versions as [|fv r IH]; [reflexivity|].
    cbn [forallb] in Hall. apply andb_prop in Hall as [Hd Hr].
    cbn [List.filter]. rewrite applicable_not_dropped, Hd. cbn [negb].
    apply IH. exact Hr. }
  rewrite Hn. cbn. destruct upgrade; reflexivity.
Qed.

Lemma find_requirement_no_matching_version_witness :
  let f := Demo.finder ["https://h/foo-2.0a1.tar.gz"] true in
  PackageFinder.find_requirement Demo.platform 1 f (Demo.requirement None) true
  = Some (Raise (DistributionNotFound "No distributions matching the version for foo"),
          [] ++ [CriticalNoMatchingVersion "foo" ["2.0a1"]] ++ [] ++ [], f).
Proof.
  intros f.
  pose (l := mk_link Demo.platform "https://h/foo-2.0a1.tar.gz"
               (Some (FromStr "-f")) None (Some true) false).
  apply (find_requirement_no_matching_version Demo.platform 1 f f
           (Demo.requirement None) true
           {| PackageFinder.found_versions := [ {| version := "2.0a1"; link := ALink l |} ];
              PackageFinder.page_versions := [];
              PackageFinder.dependency_versions := [];
              PackageFinder.file_versions := [] |}
           [] [ {| version := "2.0a1"; link := ALink l |} ]);
    reflexivity.
Defined.

Lemma find_requirement_keeps_flags_witness :
  let f := set_need_warn_external true
             (Demo.finder ["https://h/foo-1.0.tar.gz"] true) in
  bookkeeping_only f f.
Proof.
  intros f.
  apply (find_requirement_keeps_flags Demo.platform 1 f f
           (Demo.requirement None) true
           (Ok (Some (mk_link Demo.platform "https://h/foo-1.0.tar.gz"
                        (Some (FromStr "-f")) None (Some true) false))) []).
  reflexivity.
Defined.

Lemma link_filter_result_depends_on_policy_only_witness :
  fst (_link_package_versions Demo.platform
         (Demo.link_of "https://h/foo-1.0.zip") "foo"
         (Demo.finder [] true) (Demo.finder [] true))
  = fst (_link_package_versions Demo.platform
           (Demo.link_of "https://h/foo-1.0.zip") "foo"
           (set_need_warn_external true (Demo.finder ["https://h/"] true))
           (set_need_warn_unverified true (Demo.finder [] false))).
Proof.
  apply (link_filter_result_depends_on_policy_only Demo.platform).
  repeat split; reflexivity.
Defined.

Lemma find_requirement_returns_filtered_link_witness :
  let f := Demo.finder ["https://h/foo-1.0.tar.gz"] true in
  let l := mk_link Demo.platform "https://h/foo-1.0.tar.gz"
             (Some (FromStr "-f")) None (Some true) false in
  exists v,
    fst (_link_package_versions Demo.platform l
           (Py.lower (req_name (Demo.requirement None))) f f)
      = Ok [ {| version := v; link := ALink l |} ]
    /\ req_contains (Demo.requirement None) v = true
    /\ (is_prerelease Demo.platform v = true ->
        allow_all_prereleases f || prereleases (Demo.requirement None) = true).
Proof.
  intros f l.
  apply (find_requirement_returns_filtered_link Demo.platform 1 f f
           (Demo.requirement None) true l []).
  reflexivity.
Defined.

Lemma find_requirement_without_installed_witness :
  let f := Demo.finder ["https://h/foo-1.0.tar.gz"] true in
  PackageFinder.find_requirement Demo.platform 1 f (Demo.requirement None) false
    = PackageFinder.find_requirement Demo.platform 1 f (Demo.requirement None) true
  /\ forall lg self',
       PackageFinder.find_requirement Demo.platform 1 f
         (Demo.requirement None) false
       <> Some (Raise BestVersionAlreadyInstalled, lg, self').
Proof.
  intros f.
  apply (find_requirement_without_installed Demo.platform 1 f
           (Demo.requirement None) false).
  reflexivity.
Defined.

(** ** More on [FoundVersion.sort] *)

Section SortMore.
Context (E : Platform).

Lemma decorate_ok_iff (l : list FoundVersion) :
  (exists kvs, FoundVersion.decorate E l = Ok kvs)
  <-> forall v, In v l -> exists k, FoundVersion._sort_key E v = Ok k.
Proof.
  induction l as [|v r IH]; cbn.
  - split; [intros _ v []|eauto].
  - split.
    + intros [kvs H] x [<-|Hx].
      * destruct (FoundVersion._sort_key E v); [eauto|discriminate].
      * destruct (FoundVersion._sort_key E v); [|discriminate].
        destruct (FoundVersion.decorate E r) eqn:Hr; [|discriminate].
        apply IH; eauto.
    + intros H. destruct (H v (or_introl eq_refl)) as [k ->].
      destruct (proj2 IH (fun x Hx => H x (or_intror Hx))) as [kvs ->].
      eauto.
Qed.

(** Keys are computed in the order of the input, and the first failure
    ends the call: when every candidate before [v] has a key and the key
    of [v] raises [e], decorating raises [e], whatever follows [v]. *)
Lemma decorate_first_failure (pre post : list FoundVersion)
    (v : FoundVersion) (e : exn) :
  (forall x, In x pre -> exists k, FoundVersion._sort_key E x = Ok k) ->
  FoundVersion._sort_key E v = Raise e ->
  FoundVersion.decorate E (pre ++ v :: post) = Raise e.
Proof.
  induction pre as [|x pre IH]; intros Hpre Hv; cbn.
  - now rewrite Hv.
  - destruct (Hpre x (or_introl eq_refl)) as [k ->].
    rewrite IH; [reflexivity| |exact Hv].
    intros y Hy. apply Hpre. now right.
Qed.

(** Conversely an exception raised while decorating is the one of the
    first candidate whose key cannot be computed. *)
Lemma decorate_raise_inv (l : list FoundVersion) (e : exn) :
  FoundVersion.decorate E l = Raise e ->
  exists pre v post,
    l = pre ++ v :: post
    /\ (forall x, In x pre -> exists k, FoundVersion._sort_key E x = Ok k)
    /\ FoundVersion._sort_key E v = Raise e.
Proof.
  induction l as [|x r IH]; cbn; [discriminate|].
  destruct (FoundVersion._sort_key E x) as [k|e'] eqn:Hx.
  - destruct (FoundVersion.decorate E r) as [kr|e'']; [discriminate|].
    intros [= ->]. destruct (IH eq_refl) as (pre & v & post & -> & Hpre & Hv).
    exists (x :: pre), v, post. split; [reflexivity|]. split; [|exact Hv].
    intros y [<-|Hy]; [eauto|now apply Hpre].
  - intros [= ->]. exists [], x, r. split; [reflexivity|].
    split; [intros y []|exact Hx].
Qed.

(** [FoundVersion.sort] returns a list exactly when the key of every
    candidate can be computed; the list is then a rearrangement of the
    input.  Otherwise the exception of the first failing key escapes:
    when every candidate before [v] has a key and the key of [v] raises
    [e], the call raises [e], whatever the keys of the candidates after
    [v] do; and every exception that escapes arises in this way. *)
Theorem sort_succeeds_iff_keys (l : list FoundVersion) :
  ((exists l', FoundVersion.sort E l = Ok l')
   <-> forall v, In v l -> exists k, FoundVersion._sort_key E v = Ok k)
  /\ (forall l', FoundVersion.sort E l = Ok l' -> Permutation l l')
  /\ (forall pre v post e,
        l = pre ++ v :: post ->
        (forall x, In x pre -> exists k, FoundVersion._sort_key E x = Ok k) ->
        FoundVersion._sort_key E v = Raise e ->
        FoundVersion.sort E l = Raise e)
  /\ (forall e,
        FoundVersion.sort E l = Raise e ->
        exists pre v post,
          l = pre ++ v :: post
          /\ (forall x, In x pre -> exists k, FoundVersion._sort_key E x = Ok k)
          /\ FoundVersion._sort_key E v = Raise e).
Proof.
  split; [|split; [apply sort_permutation|split]].
  - rewrite <- decorate_ok_iff. unfold FoundVersion.sort. split.
    + intros [l' H]. destruct (FoundVersion.decorate E l); [eauto|discriminate].
    + intros [kvs ->]. eauto.
  - intros pre v post e -> Hpre Hv. unfold FoundVersion.sort.
    now rewrite (decorate_first_failure pre post v e Hpre Hv).
  - intros e H. apply decorate_raise_inv. unfold FoundVersion.sort in H.
    destruct (FoundVersion.decorate E l); [discriminate|congruence].
Qed.

(** With a version comparison that obeys the laws of a comparison, and
    when every key can be computed, the result of [FoundVersion.sort] has
    its keys in descending order and keeps candidates with equal keys in
    the order of the input. *)
Theorem sort_is_descending_and_stable (l : list FoundVersion)
    (kvs : list ((PV E * Z) * FoundVersion)) :
  comparison_laws E ->
  FoundVersion.decorate E l = Ok kvs ->
  exists kvs',
    FoundVersion.sort E l = Ok (map snd kvs')
    /\ Permutation kvs kvs'
    /\ Sorted (desc E) kvs'
    /\ forall k,
         List.filter (fun kv => key_equiv E k (fst kv)) kvs'
         = List.filter (fun kv => key_equiv E k (fst kv)) kvs.
Proof. intros laws. now apply sort_descending_stable. Qed.

Lemma index_of_lt (c : tag) (tags : list tag) (i : nat) :
  WheelM.index_of c tags = Some i -> (i < length tags)%nat.
Proof.
  revert i. induction tags as [|t r IH]; intros i; cbn; [discriminate|].
  destruct (tag_eqb t c); [intros [= <-]; lia|].
  destruct (WheelM.index_of c r) as [j|]; [|discriminate].
  intros [= <-]. specialize (IH j eq_refl). lia.
Qed.

Lemma support_index_min_lt (w : Wheel) (tags : list tag) (i : nat) :
  WheelM.support_index_min w tags = Some i -> (i < length tags)%nat.
Proof.
  unfold WheelM.support_index_min. revert i.
  induction (file_tags w) as [|c r IH]; intros i; cbn; [discriminate|].
  destruct (WheelM.index_of c tags) as [j|] eqn:Hj; [|apply IH].
  apply index_of_lt in Hj.
  destruct (fold_right _ None r) as [m|].
  - intros [= <-]. specialize (IH m eq_refl). lia.
  - now intros [= <-].
Qed.

(** A supported wheel goes before a source archive of the same version,
    also when the archive comes first in the input. *)
Theorem sort_wheel_before_sdist (s w : FoundVersion) (ls lw : Link)
    (wheel : Wheel) :
  link s = ALink ls -> String.eqb (ext ls) wheel_ext = false ->
  link w = ALink lw -> String.eqb (ext lw) wheel_ext = true ->
  Wheel_parse E (filename lw) = Some wheel ->
  WheelM.supported wheel (supported_tags E) = true ->
  pv_compare E (FoundVersion.parsed_version E s)
               (FoundVersion.parsed_version E w) = Eq ->
  FoundVersion.sort E [s; w] = Ok [w; s].
Proof.
  intros Hs Hes Hw Hew Hp Hsup Hcmp.
  destruct (supported_has_index _ _ Hsup) as [i Hi].
  pose proof (support_index_min_lt _ _ _ Hi) as Hlt.
  unfold FoundVersion.sort. cbn [FoundVersion.decorate].
  unfold FoundVersion._sort_key. rewrite Hs, Hes, Hw, Hew, Hp, Hsup, Hi.
  cbn [negb FoundVersion.sorted_desc fold_right FoundVersion.insert_desc].
  unfold FoundVersion.key_lt. cbn [fst snd]. rewrite Hcmp.
  replace (- Z.of_nat (length (supported_tags E)) <? - Z.of_nat i)%Z
    with true by (symmetry; apply Z.ltb_lt; lia).
  reflexivity.
Qed.

End SortMore.

Lemma sort_succeeds_iff_keys_witness :
  FoundVersion.sort Demo.platform
    [ {| version := "1.0"; link := ALink (Demo.link_of "http://h/foo-1.0.zip") |};
      {| version := "1.0"; link := ALink (Demo.link_of "http://h/foo.whl#egg=foo-1.0") |};
      {| version := "1.0";
         link := ALink (Demo.link_of "http://h/foo-1.0-py2-none-any.whl#egg=foo-1.0") |} ]
  = Raise InvalidWheelFilename.
Proof.
  apply (proj1 (proj2 (proj2 (sort_succeeds_iff_keys Demo.platform _)))
           [ {| version := "1.0"; link := ALink (Demo.link_of "http://h/foo-1.0.zip") |} ]
           {| version := "1.0"; link := ALink (Demo.link_of "http://h/foo.whl#egg=foo-1.0") |}
           [ {| version := "1.0";
                link := ALink (Demo.link_of "http://h/foo-1.0-py2-none-any.whl#egg=foo-1.0") |} ]).
  - reflexivity.
  - intros x [<-|[]]. eexists. reflexivity.
  - reflexivity.
Defined.

Lemma sort_is_descending_and_stable_witness :
  let a := {| version := "1.0"; link := ALink (Demo.link_of "https://h/foo-1.0.zip") |} in
  let b := {| version := "2.0"; link := ALink (Demo.link_of "https://h/foo-2.0.zip") |} in
  let kvs := [(("1.0", (-2)%Z), a); (("2.0", (-2)%Z), b)] in
  exists kvs',
    FoundVersion.sort Demo.platform [a; b] = Ok (map snd kvs')
    /\ Permutation kvs kvs'
    /\ Sorted (desc Demo.platform) kvs'
    /\ forall k,
         List.filter (fun kv => key_equiv Demo.platform k (fst kv)) kvs'
         = List.filter (fun kv => key_equiv Demo.platform k (fst kv)) kvs.
Proof.
  intros a b kvs.
  apply (sort_is_descending_and_stable Demo.platform [a; b] kvs).
  - exact demo_comparison_laws.
  - reflexivity.
Defined.

Lemma sort_wheel_before_sdist_witness :
  let s := {| version := "1.0"; link := ALink (Demo.link_of "https://h/foo-1.0.tar.gz") |} in
  let w := {| version := "1.0";
              link := ALink (Demo.link_of "https://h/foo-1.0-py3-none-any.whl") |} in
  FoundVersion.sort Demo.platform [s; w] = Ok [w; s].
Proof.
  intros s w.
  apply (sort_wheel_before_sdist Demo.platform s w
           (Demo.link_of "https://h/foo-1.0.tar.gz")
           (Demo.link_of "https://h/foo-1.0-py3-none-any.whl")
           {| wheel_name := "foo"; wheel_version := "1.0";
              file_tags := [("py3", "none", "any")] |});
    reflexivity.
Defined.

(** ** The installed version as the best one *)

Section BestInstalled.
Context (E : Platform) (laws : comparison_laws E).

Lemma compare_refl (a : PV E) : pv_compare E a a = Eq.
Proof.
  destruct laws as [Hsym _]. pose proof (Hsym a a) as H.
  destruct (pv_compare E a a); cbn in H; congruence.
Qed.

(** The first element of the sorted list has the greatest key, when
    some element has a key that is above all keys different from it. *)
Lemma sorted_desc_head (k0 : PV E * Z)
    (l : list ((PV E * Z) * FoundVersion)) :
  FoundVersion.key_lt E k0 k0 = false ->
  (forall kv, In kv l ->
     fst kv = k0
     \/ (FoundVersion.key_lt E (fst kv) k0 = true
         /\ FoundVersion.key_lt E k0 (fst kv) = false)) ->
  (exists kv, In kv l /\ fst kv = k0) ->
  exists kv rest, FoundVersion.sorted_desc E l = kv :: rest /\ fst kv = k0.
Proof.
  intros Hirr. induction l as [|x r IH]; intros Hall [kv [Hin Hk]];
    [destruct Hin|].
  cbn [FoundVersion.sorted_desc fold_right].
  fold (FoundVersion.sorted_desc E r).
  destruct Hin as [->|Hin].
  - destruct (FoundVersion.sorted_desc E r) as [|h rest] eqn:Hs; cbn.
    + eauto.
    + assert (Hh : In h r).
      { apply Permutation_in with (l := h :: rest); [|now left].
        rewrite <- Hs. apply sorted_desc_permutation. }
      rewrite Hk.
      destruct (Hall h (or_intror Hh)) as [->|[_ ->]]; [rewrite Hirr|]; eauto.
  - destruct (IH (fun y Hy => Hall y (or_intror Hy)) (ex_intro _ kv (conj Hin Hk)))
      as (h & rest & -> & Hh).
    cbn. rewrite Hh.
    destruct (FoundVersion.key_lt E (fst x) k0) eqn:Hx; [eauto|].
    destruct (Hall x (or_introl eq_refl)) as [Hx0|[Hlt _]]; [eauto|congruence].
Qed.

Lemma sort_key_of_link (fv : FoundVersion) (l : Link) (k : PV E * Z) :
  link fv = ALink l -> FoundVersion._sort_key E fv = Ok k ->
  fst k = FoundVersion.parsed_version E fv /\ (snd k <= 0)%Z.
Proof.
  intros Hl. unfold FoundVersion._sort_key. rewrite Hl.
  destruct (String.eqb (ext l) wheel_ext).
  - destruct (Wheel_parse E (filename l)) as [w|]; [|discriminate].
    destruct (negb _); [discriminate|].
    destruct (WheelM.support_index_min w (supported_tags E)); [|discriminate].
    intros [= <-]. cbn. split; [reflexivity|lia].
  - intros [= <-]. cbn. split; [reflexivity|lia].
Qed.

Lemma candidates_installed req p all fv :
  PackageFinder.candidates E req p = Ok all ->
  In fv (InstalledFinder.found req) -> In fv all.
Proof.
  unfold PackageFinder.candidates, PackageFinder.all_versions.
  destruct (match PackageFinder.file_versions p with
            | [] => Ok []
            | _ :: _ => FoundVersion.sort E (PackageFinder.file_versions p)
            end); [|discriminate].
  intros [= <-] H. apply in_or_app. now left.
Qed.

(** With [upgrade] set and a version comparison that obeys the laws of
    a comparison: when the pools are gathered and the candidates built
    without an exception, at least one of the four download pools is not
    empty, the installed version satisfies the requirement, the final
    sort of the applicable candidates returns (each of their keys can be
    computed), and no applicable candidate has a greater parsed version
    than the installed one, [find_requirement] raises
    [BestVersionAlreadyInstalled], with the log and the finder that
    gathering left.  With four empty pools the call raises
    [DistributionNotFound] before, and a candidate whose key cannot be
    computed makes the final sort raise instead. *)
Theorem find_requirement_best_installed (fuel : nat)
    (self self1 : PackageFinder) (req : Requirement)
    (p : PackageFinder.pools) (lg : list log_record)
    (all av : list FoundVersion) (v : string) :
  PackageFinder.gather E fuel self req = Some (Ok p, lg, self1) ->
  no_downloads p = false ->
  PackageFinder.candidates E req p = Ok all ->
  satisfied_by req = Some v ->
  req_contains req v = true ->
  FoundVersion.sort E (PackageFinder.narrow E self1 req all []) = Ok av ->
  forallb (not_newer E v) (PackageFinder.narrow E self1 req all []) = true ->
  PackageFinder.find_requirement E fuel self req true
  = Some (Raise BestVersionAlreadyInstalled, lg, self1).
Proof.
  intros Hg Hp Hc Hsat Hreq Hs Hnew.
  set (inst := {| version := v; link := INSTALLED_VERSION |}).
  set (k0 := (parse_version E v, 1%Z)).
  set (nar := PackageFinder.narrow E self1 req all []) in *.
  assert (Hfound : InstalledFinder.found req = [inst])
    by (unfold InstalledFinder.found; now rewrite Hsat).
  assert (Hmem : forall fv, In fv nar ->
            fv = inst
            \/ exists l, link fv = ALink l).
  { intros fv Hin. subst nar. rewrite narrow_filter in Hin. cbn [app] in Hin.
    apply List.filter_In in Hin as [Hall _].
    destruct (candidate_emitted E _ _ _ _ _ _ _ _ Hg Hc Hall) as [Hi|Hem].
    - rewrite Hfound in Hi. destruct Hi as [<-|[]]. now left.
    - destruct Hem as (l & Hl & _). eauto. }
  assert (Hinst : In inst nar).
  { subst nar. rewrite narrow_filter. cbn [app]. apply List.filter_In. split.
    - apply (candidates_installed _ _ _ _ Hc). rewrite Hfound. now left.
    - unfold PackageFinder.applicable. cbn. rewrite Hreq. cbn.
      now destruct (_ && _). }
  unfold FoundVersion.sort in Hs.
  destruct (FoundVersion.decorate E nar) as [kvs|] eqn:Hd; [|discriminate].
  injection Hs as <-.
  pose proof (decorate_snd E _ _ Hd) as Hsnd.
  pose proof (decorate_keys E _ _ Hd) as Hkeys.
  rewrite List.Forall_forall in Hkeys.
  assert (Hkinst : FoundVersion._sort_key E inst = Ok k0) by reflexivity.
  assert (Hirr : FoundVersion.key_lt E k0 k0 = false).
  { unfold FoundVersion.key_lt, k0. cbn. now rewrite compare_refl. }
  assert (Hall : forall kv, In kv kvs ->
            fst kv = k0
            \/ (FoundVersion.key_lt E (fst kv) k0 = true
                /\ FoundVersion.key_lt E k0 (fst kv) = false)).
  { intros kv Hkv. pose proof (Hkeys kv Hkv) as Hk.
    assert (Hin : In (snd kv) nar)
      by (rewrite <- Hsnd; now apply in_map).
    destruct (Hmem _ Hin) as [Heq|[l Hl]].
    - left. rewrite Heq, Hkinst in Hk. congruence.
    - right. destruct (sort_key_of_link _ _ _ Hl Hk) as [Hf Hle].
      rewrite forallb_forall in Hnew. specialize (Hnew _ Hin).
      unfold not_newer in Hnew. unfold FoundVersion.key_lt, k0. cbn [fst snd].
      rewrite Hf. unfold FoundVersion.parsed_version.
      destruct laws as [Hsym _].
      rewrite (Hsym (parse_version E (version (snd kv))) (parse_version E v)).
      destruct (pv_compare E (parse_version E (version (snd kv)))
                  (parse_version E v)); cbn; try discriminate.
      + split; [apply Z.ltb_lt|apply Z.ltb_ge]; lia.
      + auto. }
  assert (Hex : exists kv, In kv kvs /\ fst kv = k0).
  { rewrite <- Hsnd in Hinst. apply in_map_iff in Hinst as (kv & Hkv & Hin).
    exists kv. split; [exact Hin|].
    pose proof (Hkeys kv Hin) as Hk. rewrite Hkv, Hkinst in Hk. congruence. }
  destruct (sorted_desc_head k0 kvs Hirr Hall Hex) as (h & rest & Hsort & Hh).
  assert (Hhin : In h kvs).
  { apply Permutation_in with (l := h :: rest); [|now left].
    rewrite <- Hsort. apply sorted_desc_permutation. }
  assert (Hlink : link (snd h) = INSTALLED_VERSION).
  { assert (Hin : In (snd h) nar) by (rewrite <- Hsnd; now apply in_map).
    destruct (Hmem _ Hin) as [->|[l Hl]]; [reflexivity|].
    destruct (sort_key_of_link _ _ _ Hl (Hkeys h Hhin)) as [_ Hle].
    rewrite Hh in Hle. cbn in Hle. lia. }
  unfold PackageFinder.find_requirement. rewrite Hg.
  rewrite (select_some_download E self1 req true p Hp), Hc.
  fold nar. unfold FoundVersion.sort. rewrite Hd, Hsort.
  unfold PackageFinder.choose. cbn. rewrite Hlink. now rewrite app_nil_r.
Qed.

End BestInstalled.

Lemma find_requirement_best_installed_witness :
  let f := Demo.finder ["https://h/foo-1.0.tar.gz"; "https://h/foo-2.0.tar.gz"] true in
  PackageFinder.find_requirement Demo.platform 2 f
    (Demo.requirement (Some "2.0")) true
  = Some (Raise BestVersionAlreadyInstalled, [], f).
Proof.
  intros f.
  pose (mk := fun u => mk_link Demo.platform u (Some (FromStr "-f")) None
                         (Some true) false).
  pose (a := {| version := "1.0"; link := ALink (mk "https://h/foo-1.0.tar.gz") |}).
  pose (b := {| version := "2.0"; link := ALink (mk "https://h/foo-2.0.tar.gz") |}).
  pose (i := {| version := "2.0"; link := INSTALLED_VERSION |}).
  apply (find_requirement_best_installed Demo.platform demo_comparison_laws
           2 f f (Demo.requirement (Some "2.0"))
           {| PackageFinder.found_versions := [a; b];
              PackageFinder.page_versions := [];
              PackageFinder.dependency_versions := [];
              PackageFinder.file_versions := [] |}
           [] [i; a; b] [i; b; a] "2.0");
    reflexivity.
Defined.

(** ** The page walk when external hosting is not allowed *)

Section WalkBlocked.
Context (E : Platform).

Lemma rel_links_loop_blocked (ls : list Link) (req : Requirement)
    (self : PackageFinder) (acc : list Link) :
  bool_decide (Py.lower (normalize_name E (req_name req))
               ∈ allow_external self) = false ->
  allow_all_external self = false ->
  fst (PackageFinder.rel_links_loop E ls req self acc) = acc.
Proof.
  revert self. induction ls as [|l r IH]; intros self Hx Ha; [reflexivity|].
  cbn [PackageFinder.rel_links_loop]. rewrite Hx, Ha. cbn [negb andb].
  apply IH; assumption.
Qed.

(** When the requirement's name is not allowed external hosting, no
    relation link of any page is queued: the walk takes at most as many
    steps as there are locations to start with. *)
Theorem get_pages_without_externals (locs : list Link) (seen : gset string)
    (req : Requirement) (self : PackageFinder) (acc : list FoundVersion) :
  bool_decide (Py.lower (normalize_name E (req_name req))
               ∈ allow_external self) = false ->
  allow_all_external self = false ->
  exists r self',
    PackageFinder._get_pages E (length locs) locs seen req self acc
    = Some (r, self').
Proof.
  revert seen self acc.
  induction locs as [|location locs IH]; intros seen self acc Hx Ha;
    cbn [length PackageFinder._get_pages]; [eauto|].
  destruct (bool_decide (url location ∈ seen)); [now apply IH|].
  destruct (PackageFinder._get_page self location) as [page|];
    [|now apply IH].
  pose proof (package_versions_bookkeeping E (links page)
                (Py.lower (req_name req)) self) as H1.
  destruct (_package_versions E (links page) (Py.lower (req_name req)) self)
    as [[vs|e] self1]; cbn [snd] in H1; [|eauto].
  assert (Hx1 : bool_decide (Py.lower (normalize_name E (req_name req))
                             ∈ allow_external self1) = false).
  { destruct H1 as (_&_&_&_&<-&_). exact Hx. }
  assert (Ha1 : allow_all_external self1 = false).
  { destruct H1 as (_&_&_&_&_&_&<-&_). exact Ha. }
  pose proof (rel_links_loop_blocked (rel_links page) req self1 [] Hx1 Ha1)
    as Hmore.
  pose proof (rel_links_loop_bookkeeping E (rel_links page) req self1 [])
    as H2.
  destruct (PackageFinder.rel_links_loop E (rel_links page) req self1 [])
    as [more self2]; cbn [fst snd] in *. subst more. rewrite app_nil_r.
  apply IH.
  - destruct H2 as (_&_&_&_&<-&_). exact Hx1.
  - destruct H2 as (_&_&_&_&_&_&<-&_). exact Ha1.
Qed.

End WalkBlocked.

Lemma get_pages_without_externals_witness :
  let page := {| page_url := "https://h/simple/foo/";
                 links := [Demo.link_of "https://h/packages/foo-1.0.tar.gz"];
                 rel_links := [Demo.link_of "https://elsewhere/foo/"] |} in
  let s := {| get_page := fun l =>
                if String.eqb (url l) "https://h/simple/foo/"
                then Some page else None |} in
  let f := {| find_links := []; index_urls := ["https://h/simple/"];
              dependency_links := []; logged_links := ∅; use_wheel := true;
              allow_external := ∅; allow_unverified := ∅;
              allow_all_external := false;
              need_warn_external := false; need_warn_unverified := false;
              allow_all_prereleases := false;
              process_dependency_links := false; session := s |} in
  exists r self',
    PackageFinder._get_pages Demo.platform 1
      [Demo.link_of "https://h/simple/foo/"] ∅ (Demo.requirement None) f []
    = Some (r, self').
Proof.
  intros page s f.
  apply (get_pages_without_externals Demo.platform
           [Demo.link_of "https://h/simple/foo/"] ∅ (Demo.requirement None)
           f []); reflexivity.
Defined.

(** ** [package_to_requirement] *)

Lemma dev_or_digits_version (version : string) :
  match version with String d _ => Py.is_digit d | EmptyString => false end
    = true ->
  string_forall not_newline version = true ->
  dev_or_digits version = Some version.
Proof.
  destruct version as [|d t]; [discriminate|]. intros Hd Hn.
  unfold dev_or_digits.
  assert (Hp : String.prefix "dev" (String d t) = false).
  { change (String.prefix "dev" (String d t))
      with (if ascii_dec "d" d then String.prefix "ev" t else false).
    destruct (ascii_dec "d" d) as [<-|]; [discriminate Hd|reflexivity]. }
  rewrite Hp, Hd. cbn [string_forall] in Hn.
  apply andb_prop in Hn as [_ Ht]. now rewrite (span_all _ _ Ht).
Qed.

(** A package name of the form [name-version], where the name has no
    dash and the version starts with a digit, neither holding a newline,
    is translated to [name==version]. *)
Theorem package_to_requirement_name_version (name version : string) :
  has_char "-" name = false ->
  string_forall not_newline name = true ->
  match version with String d _ => Py.is_digit d | EmptyString => false end
    = true ->
  string_forall not_newline version = true ->
  package_to_requirement (name +:+ "-" +:+ version)
  = name +:+ "==" +:+ version.
Proof.
  intros Hdash Hnl Hd Hv.
  assert (Hs : name_version_search (name +:+ "-" +:+ version)
               = Some (name, version)).
  { induction name as [|c r IH].
    - rewrite append_empty.
      change ("-" +:+ version) with (String "-" version).
      cbn [name_version_search].
      replace (Ascii.eqb "-" "-") with true by reflexivity.
      now rewrite (dev_or_digits_version _ Hd Hv).
    - cbn [has_char] in Hdash. apply orb_false_elim in Hdash as [Hc Hr].
      cbn [string_forall] in Hnl. apply andb_prop in Hnl as [Hcn Hrn].
      rewrite append_cons. cbn [name_version_search]. rewrite Hc.
      unfold not_newline in Hcn. apply negb_true_iff in Hcn. rewrite Hcn.
      now rewrite (IH Hr Hrn). }
  unfold package_to_requirement. rewrite Hs.
  destruct version; [discriminate|reflexivity].
Qed.

Lemma package_to_requirement_name_version_witness :
  package_to_requirement ("Foo" +:+ "-" +:+ "1.2") = "Foo" +:+ "==" +:+ "1.2".
Proof. apply package_to_requirement_name_version; reflexivity. Defined.

Lemma name_version_search_dash (s n v : string) :
  name_version_search s = Some (n, v) -> has_char "-" s = true.
Proof.
  revert n v. induction s as [|c r IH]; intros n v;
    cbn [name_version_search has_char]; [discriminate|].
  destruct (Ascii.eqb c "-"); [reflexivity|].
  destruct (Ascii.eqb c newline); [discriminate|].
  destruct (name_version_search r) as [[n' v']|]; [|discriminate].
  intros _. cbn [orb]. eapply IH. reflexivity.
Qed.

(** A package name without a dash is returned as it is. *)
Theorem package_to_requirement_no_dash (s : string) :
  has_char "-" s = false -> package_to_requirement s = s.
Proof.
  intros H. unfold package_to_requirement.
  destruct (name_version_search s) as [[n v]|] eqn:Hs; [|reflexivity].
  apply name_version_search_dash in Hs. congruence.
Qed.

Lemma package_to_requirement_no_dash_witness :
  package_to_requirement "Foo" = "Foo".
Proof. apply package_to_requirement_no_dash. reflexivity. Defined.
